(** * facemask: the detection-to-overlay geometry of [drawFaces]

    A shallow embedding of [main.go] of esimov/facemask.  The repository holds
    two revisions of the file: the mask generator proper (module [Facemask])
    and an earlier diagnostic revision that also renders landmark markers and
    prints intermediate values (module [Diagnostic]).

    Go's [int] is modelled as [Z] with the 64-bit wrap-around written out,
    [float64] and [float32] as IEEE-754 values ([spec_float]) with the
    correctly rounded operations of the binary64 and binary32 formats.  The
    cascade detectors, [math.Atan2] and the image codecs are external
    collaborators, gathered in the class [External]; the calls on the drawing
    context and on the imaging library are recorded as they are made. *)

From Stdlib Require Import ZArith List Bool Lia String Ascii.
From Stdlib Require Import Floats.SpecFloat.
Import ListNotations.

Local Open Scope Z_scope.

(** ** Go's [int] on a 64-bit platform *)

Module GoInt.

Definition MinInt : Z := - 2 ^ 63.
Definition MaxInt : Z := 2 ^ 63 - 1.

(** Two's complement wrap-around into [MinInt .. MaxInt]. *)
Definition wrap (z : Z) : Z := (z + 2 ^ 63) mod 2 ^ 64 - 2 ^ 63.

Definition in_range (z : Z) : Prop := MinInt <= z <= MaxInt.

Definition add (a b : Z) : Z := wrap (a + b).
Definition sub (a b : Z) : Z := wrap (a - b).

(** [a / b] truncates towards zero. *)
Definition quo (a b : Z) : Z := wrap (Z.quot a b).

Definition ltb (a b : Z) : bool := a <? b.
Definition gtb (a b : Z) : bool := b <? a.

End GoInt.

(** ** Go's floating-point types *)

Module GoFloat.

(** One IEEE-754 binary format, given by its precision and its [emax]. *)
Section Format.
Variables prec emax : Z.

Definition of_int (z : Z) : spec_float := binary_normalize prec emax z 0 false.

Definition add := SFadd prec emax.
Definition sub := SFsub prec emax.
Definition mul := SFmul prec emax.
Definition div := SFdiv prec emax.

(** [x < y] and [x > y]; both are false when an operand is NaN. *)
Definition ltb (x y : spec_float) : bool := SFltb x y.
Definition gtb (x y : spec_float) : bool := SFltb y x.

(** The decimal literal [n / d] rounded to the format. *)
Definition lit (n d : Z) : spec_float := div (of_int n) (of_int d).
End Format.

(** The integer part of a finite value, fraction discarded. *)
Definition truncate (x : spec_float) : option Z :=
  match x with
  | S754_zero _ => Some 0
  | S754_finite s m e =>
      let a := match e with
               | Z0 => Zpos m
               | Zpos p => Zpos m * 2 ^ Zpos p
               | Zneg p => Zpos m / 2 ^ Zpos p
               end in
      Some (if s then - a else a)
  | _ => None
  end.

(** [int(x)]: truncation towards zero.  Where the value does not fit (or is
    an infinity or a NaN) Go leaves the result to the implementation; amd64
    yields the "integer indefinite" value [MinInt]. *)
Definition to_int (x : spec_float) : Z :=
  match truncate x with
  | Some z => if (GoInt.MinInt <=? z) && (z <=? GoInt.MaxInt) then z else GoInt.MinInt
  | None => GoInt.MinInt
  end.

End GoFloat.

Definition float64 := spec_float.
Definition float32 := spec_float.

Module F64.
Definition prec : Z := 53.
Definition emax : Z := 1024.
Definition of_int := GoFloat.of_int prec emax.
Definition add := GoFloat.add prec emax.
Definition sub := GoFloat.sub prec emax.
Definition mul := GoFloat.mul prec emax.
Definition div := GoFloat.div prec emax.
Definition ltb := GoFloat.ltb.
Definition lit := GoFloat.lit prec emax.
Definition to_int := GoFloat.to_int.
Definition zero : float64 := S754_zero false.
(** [float64(x)] of a [float32]: the same value, in binary64's canonical form. *)
Definition of_float32 (x : float32) : float64 :=
  match x with
  | S754_finite s m e => binary_round prec emax s m e
  | _ => x
  end.
(** [math.Pi] as a [float64]: 0x1.921fb54442d18p+1. *)
Definition Pi : float64 := S754_finite false 0x1921FB54442D18 (-51).
End F64.

Module F32.
Definition prec : Z := 24.
Definition emax : Z := 128.
Definition of_int := GoFloat.of_int prec emax.
Definition mul := GoFloat.mul prec emax.
Definition gtb := GoFloat.gtb.
Definition lit := GoFloat.lit prec emax.
Definition to_int := GoFloat.to_int.
End F32.

Declare Scope f64_scope.
Delimit Scope f64_scope with f64.
Infix "+" := F64.add : f64_scope.
Infix "-" := F64.sub : f64_scope.
Infix "*" := F64.mul : f64_scope.
Infix "/" := F64.div : f64_scope.

(** ** Values exchanged with the libraries *)

Module pigo.

(** [pigo.Detection]: centre and side of a square face box, and its score. *)
Module Detection.
Record t : Type := mk { Row : Z; Col : Z; Scale : Z; Q : float32 }.
End Detection.

(** [pigo.Puploc]: a pupil search window, and also a located point. *)
Module Puploc.
Record t : Type := mk { Row : Z; Col : Z; Scale : float32; Perturbs : Z }.
End Puploc.

End pigo.

Module color.
Inductive Color : Type :=
| RGBA (R G B A : Z)
| Transparent.
End color.

Module imaging.
Inductive ResampleFilter : Type := Lanczos.
End imaging.

(** Images are kept as the expression that built them: a decoded file, or the
    result of [imaging.Resize] or [imaging.Rotate] on another image. *)
Inductive Image : Type :=
| Decoded (data : list Byte.byte)
| Resize (img : Image) (width height : Z) (filter : imaging.ResampleFilter)
| Rotate (img : Image) (angle : float64) (bgColor : color.Color).

(** The [gg] drawing context is the sequence of calls made on it. *)
Module gg.
Inductive Op : Type :=
| NewContext (width height : Z)
| DrawImage (im : Image) (x y : Z)
| DrawRectangle (x y w h : float64)
| DrawArc (x y r angle1 angle2 : float64)
| SetLineWidth (lineWidth : float64)
| SetStrokeStyle (solid : color.Color)
| SetFillStyle (solid : color.Color)
| Stroke
| Fill.

Definition Context : Type := list Op.
End gg.

(** ** Files *)

Module os.

Definition O_RDONLY : Z := 0x0.
Definition O_RDWR : Z := 0x2.
Definition O_CREATE : Z := 0x40.
Definition O_TRUNC : Z := 0x200.

Definition has (flag bit : Z) : bool := negb (Z.land flag bit =? 0).

Inductive Node : Type :=
| RegularFile (content : list Byte.byte)
| Directory.

Definition FileSystem : Type := string -> option Node.

Definition put (fs : FileSystem) (name : string) (n : Node) : FileSystem :=
  fun p => if String.eqb p name then Some n else fs p.

Inductive error : Type :=
| ENOENT (name : string)
| EISDIR (name : string)
| ENOTDIR (name : string)
| EBADF
| Failure (what : string).

(** An open file: its name and the offset of the next read or write. *)
Record File : Type := mkFile { Name : string; offset : nat }.

(** [entry name] splits a path at its last separator: the directory that
    holds the entry, if the path names one, and the entry's own name. *)
Fixpoint entry (name : string) : option string * string :=
  match name with
  | EmptyString => (None, EmptyString)
  | String c rest =>
      match entry rest with
      | (Some d, b) => (Some (String c d), b)
      | (None, b) =>
          if Ascii.eqb c "/"%char then (Some EmptyString, b) else (None, String c b)
      end
  end.

(** Why a file of this name cannot be created, if it cannot: the name is
    empty or ends in a separator, or the directory that is to hold it is
    missing or is a regular file.  A name without a directory goes into the
    working directory. *)
Definition uncreatable (fs : FileSystem) (name : string) : option error :=
  let '(d, b) := entry name in
  if String.eqb b "" then
    Some (if String.eqb name "" then ENOENT name else EISDIR name)
  else
    match d with
    | None => None
    | Some d =>
        if String.eqb d "" || String.eqb d "." then None
        else
          match fs d with
          | Some Directory => None
          | Some (RegularFile _) => Some (ENOTDIR name)
          | None => Some (ENOENT name)
          end
    end.

(** [os.OpenFile name flag perm].  A missing file is created when [O_CREATE]
    is given and the directory it goes into is there; an existing file keeps
    its content unless [O_TRUNC] is given. *)
Definition OpenFile (fs : FileSystem) (name : string) (flag : Z)
  : FileSystem * (File + error) :=
  match fs name with
  | None =>
      if has flag O_CREATE
      then
        match uncreatable fs name with
        | Some err => (fs, inr err)
        | None => (put fs name (RegularFile []), inl (mkFile name 0))
        end
      else (fs, inr (ENOENT name))
  | Some Directory =>
      if has flag O_RDWR then (fs, inr (EISDIR name)) else (fs, inl (mkFile name 0))
  | Some (RegularFile old) =>
      if has flag O_TRUNC
      then (put fs name (RegularFile []), inl (mkFile name 0))
      else (fs, inl (mkFile name 0))
  end.

(** Writing [data] at the file's offset replaces the bytes it covers and
    leaves every byte after them in place. *)
Definition overwrite (old : list Byte.byte) (off : nat) (data : list Byte.byte)
  : list Byte.byte :=
  firstn off old ++ data ++ skipn (off + List.length data) old.

Definition Write (fs : FileSystem) (f : File) (data : list Byte.byte)
  : FileSystem * (File + error) :=
  match fs (Name f) with
  | Some (RegularFile old) =>
      (put fs (Name f) (RegularFile (overwrite old (offset f) data)),
       inl (mkFile (Name f) (offset f + List.length data)))
  | _ => (fs, inr EBADF)
  end.

(** The whole content from the file's offset on. *)
Definition ReadAll (fs : FileSystem) (f : File) : list Byte.byte + error :=
  match fs (Name f) with
  | Some (RegularFile content) => inl (skipn (offset f) content)
  | _ => inr (EISDIR (Name f))
  end.

End os.

Module filepath.

Definition isDot (c : ascii) : bool := Ascii.eqb c "."%char.
Definition isSeparator (c : ascii) : bool := Ascii.eqb c "/"%char.

(** [scan s] is [Some e] when the final path element of [s] holds a dot,
    [e] being the suffix from its last dot on; [None] when a separator comes
    first (from the end) or there is neither. The flag tells whether a
    separator was seen. *)
Fixpoint scan (s : string) : option string * bool :=
  match s with
  | EmptyString => (None, false)
  | String c rest =>
      match scan rest with
      | (Some e, _) => (Some e, true)
      | (None, true) => (None, true)
      | (None, false) =>
          if isDot c then (Some s, true)
          else if isSeparator c then (None, true)
          else (None, false)
      end
  end.

(** [filepath.Ext path]. *)
Definition Ext (path : string) : string :=
  match fst (scan path) with
  | Some e => e
  | None => EmptyString
  end.

End filepath.

(** ** The external collaborators

    Everything [main.go] calls and does not define: the pigo cascades, the
    image codecs and [math.Atan2].  Each is a function of its arguments (a
    call neither keeps state nor changes what it is given); a decoder yields
    the bounds of the image it decoded. *)

Module ImageParams.
Record t : Type := mk { Pixels : list Byte.byte; Rows : Z; Cols : Z; Dim : Z }.
End ImageParams.

Module CascadeParams.
Record t : Type := mk
  { MinSize : Z; MaxSize : Z; ShiftFactor : float64; ScaleFactor : float64;
    ImageParams : ImageParams.t }.
End CascadeParams.

(** What a call of the cascade loader or of the classifier comes to: it
    returns, or it panics (on a cascade file shorter than its header
    announces, on a scale factor no window size can grow by). *)
Inductive Call (A : Type) : Type :=
| Returned (a : A)
| Panicked (msg : string).
Arguments Returned {A} a.
Arguments Panicked {A} msg.

Class External : Type := {
  Pigo : Type;
  PuplocCascade : Type;
  FlpCascade : Type;
  (* pigo *)
  image_Decode : list Byte.byte -> option (Z * Z);
  RgbToGrayscale : Image -> list Byte.byte;
  Unpack : list Byte.byte -> Call (Pigo + os.error);
  UnpackCascade : list Byte.byte -> Call (PuplocCascade + os.error);
  ReadCascadeDir :
    os.FileSystem -> string -> Call ((string -> list FlpCascade) + os.error);
  RunCascade : Pigo -> CascadeParams.t -> float64 -> Call (list pigo.Detection.t);
  ClusterDetections :
    Pigo -> list pigo.Detection.t -> float64 -> Call (list pigo.Detection.t);
  RunDetector :
    PuplocCascade -> pigo.Puploc.t -> ImageParams.t -> float64 -> bool -> pigo.Puploc.t;
  FindLandmarkPoints :
    FlpCascade -> pigo.Puploc.t -> pigo.Puploc.t -> ImageParams.t -> Z -> bool -> pigo.Puploc.t;
  (* math *)
  Atan2 : float64 -> float64 -> float64;
  (* image/png, image/jpeg: the bounds [Dx, Dy] of the decoded image; the
     bytes an encoder wrote and the error it met, if any *)
  png_Decode : list Byte.byte -> option (Z * Z);
  png_Encode : gg.Context -> list Byte.byte * option os.error;
  jpeg_Encode : gg.Context -> Z -> list Byte.byte * option os.error
}.

(** ** The state of a run, and the ways it ends *)

Inductive Value : Type :=
| VInt (z : Z)
| VFloat (x : float64).

Inductive Event : Type :=
| EvOpenFile (name : string) (flag : Z)
| EvPngDecode (name : string)
| EvPrintln (args : list Value).

Record World : Type := mkWorld
  { fs : os.FileSystem;     (* the files *)
    dc : gg.Context;        (* the package's drawing context *)
    events : list Event }.  (* file and console operations, oldest first *)

(** [log.Fatal] ends the process; an index out of range panics. *)
Inductive Abort : Type :=
| Fatal (msg : string)
| FatalErr (err : os.error)
| Panic (msg : string).

Definition M (A : Type) : Type := World -> (A + Abort) * World.

Definition ret {A} (a : A) : M A := fun w => (inl a, w).

Definition bind {A B} (m : M A) (k : A -> M B) : M B :=
  fun w =>
    match m w with
    | (inl a, w') => k a w'
    | (inr stop, w') => (inr stop, w')
    end.

Definition abort {A} (stop : Abort) : M A := fun w => (inr stop, w).

Notation "x <- m ;; k" := (bind m (fun x => k))
  (at level 61, m at next level, right associativity).
Notation "m ;; k" := (bind m (fun _ => k))
  (at level 61, right associativity).

Definition draw (op : gg.Op) : M unit :=
  fun w => (inl tt, mkWorld (fs w) (dc w ++ [op]) (events w)).

(** [dc = gg.NewContext(width, height)]: a fresh context replaces the old one. *)
Definition NewContext (width height : Z) : M unit :=
  fun w => (inl tt, mkWorld (fs w) [gg.NewContext width height] (events w)).

Definition emit (ev : Event) : M unit :=
  fun w => (inl tt, mkWorld (fs w) (dc w) (events w ++ [ev])).

Definition Println (args : list Value) : M unit := emit (EvPrintln args).

Definition OpenFile (name : string) (flag : Z) : M (os.File + os.error) :=
  emit (EvOpenFile name flag) ;;
  fun w =>
    let '(fs', r) := os.OpenFile (fs w) name flag in
    (inl r, mkWorld fs' (dc w) (events w)).

Definition Write (f : os.File) (data : list Byte.byte) : M (os.File + os.error) :=
  fun w =>
    let '(fs', r) := os.Write (fs w) f data in
    (inl r, mkWorld fs' (dc w) (events w)).

(** [ioutil.ReadFile]. *)
Definition ReadFile (name : string) : M (list Byte.byte + os.error) :=
  fun w =>
    match fs w name with
    | Some (os.RegularFile content) => (inl (inl content), w)
    | Some os.Directory => (inl (inr (os.EISDIR name)), w)
    | None => (inl (inr (os.ENOENT name)), w)
    end.

(** A call that may panic. *)
Definition call {A} (c : Call A) : M A :=
  match c with
  | Returned a => ret a
  | Panicked msg => abort (Panic msg)
  end.

(** [s[0]] on a slice. *)
Definition index0 {A} (s : list A) : M A :=
  match s with
  | x :: _ => ret x
  | [] => abort (Panic "index out of range [0] with length 0")
  end.

(** [inSlice] checks if the item exists in the slice. *)
Fixpoint inSlice (item : string) (slice : list string) : bool :=
  match slice with
  | [] => false
  | it :: rest => if String.eqb it item then true else inSlice item rest
  end.

(** [x, err := f(...); if err != nil { return ..., err }] *)
Notation "x <-? m ;; k" :=
  (bind m (fun r => match r with inl x => k | inr err => ret (inr err) end))
  (at level 61, m at next level, right associativity).

(** ** What the two revisions share *)

(** [faceDetector] struct contains Pigo face detector general settings. *)
Module faceDetector.
Record t : Type := mk
  { angle : float64;
    destination : string;
    minSize : Z;
    maxSize : Z;
    shiftFactor : float64;
    scaleFactor : float64;
    iouThreshold : float64;
    faceCascade : string;
    eyesCascade : string;
    flplocDir : string }.
End faceDetector.

(** The command line, once parsed by [flag.Parse]. *)
Module Flags.
Record t : Type := mk
  { source : string;
    destination : string;
    minSize : Z;
    maxSize : Z;
    shiftFactor : float64;
    scaleFactor : float64;
    angle : float64;
    iouThreshold : float64 }.
End Flags.

Section Shared.
Context {ext : External}.

(** The package variables [plc], [flpcs] and [imgParams]: [detectFaces]
    assigns them, [drawFaces] reads them.  ([dc] lives in the [World].)
    Reading a missing key of [flpcs] yields the empty slice. *)
Record Package : Type := mkPackage
  { plc : PuplocCascade;
    flpcs : string -> list FlpCascade;
    imgParams : ImageParams.t }.

(** [pigo.GetImage]: the decoded image and its [Bounds().Max]. *)
Definition GetImage (input : string) : M ((Image * (Z * Z)) + os.error) :=
  data <-? ReadFile input ;;
  match image_Decode data with
  | Some bounds => ret (inl (Decoded data, bounds))
  | None => ret (inr (os.Failure "image: unknown format"))
  end.

(** [detectFaces] run the detection algorithm over the provided source image. *)
Definition detectFaces (fd : faceDetector.t) (source : string)
  : M ((list pigo.Detection.t * Package) + os.error) :=
  got <-? GetImage source ;;
  let '(src, (cols, rows)) := got in
  let pixels := RgbToGrayscale src in
  NewContext cols rows ;;
  draw (gg.DrawImage src 0 0) ;;
  let imgParams := ImageParams.mk pixels rows cols cols in
  let cParams :=
    CascadeParams.mk (faceDetector.minSize fd) (faceDetector.maxSize fd)
      (faceDetector.shiftFactor fd) (faceDetector.scaleFactor fd) imgParams in
  faceCascade <-? ReadFile (faceDetector.faceCascade fd) ;;
  classifier <-? call (Unpack faceCascade) ;;
  eyesCascade <-? ReadFile (faceDetector.eyesCascade fd) ;;
  plc <-? call (UnpackCascade eyesCascade) ;;
  flpcs <-? (fun w => call (ReadCascadeDir (fs w) (faceDetector.flplocDir fd)) w) ;;
  faces <- call (RunCascade classifier cParams (faceDetector.angle fd)) ;;
  faces <- call (ClusterDetections classifier faces (faceDetector.iouThreshold fd)) ;;
  ret (inl (faces, mkPackage plc flpcs imgParams)).

(** [drawDetections] helper function to draw the detection marks *)
Definition drawDetections (x y r : float64) (c : color.Color) (markDet : bool) : M unit :=
  draw (gg.DrawArc x y (r * F64.lit 15 100) (F64.of_int 0) (F64.of_int 2 * F64.Pi))%f64 ;;
  draw (gg.SetFillStyle c) ;;
  draw gg.Fill ;;
  if markDet then
    draw (gg.DrawRectangle (x - r * F64.lit 15 10) (y - r * F64.lit 15 10)
            (r * F64.of_int 3) (r * F64.of_int 3))%f64 ;;
    draw (gg.SetLineWidth (F64.lit 20 10)) ;;
    draw (gg.SetStrokeStyle (color.RGBA 255 255 0 255)) ;;
    draw gg.Stroke
  else ret tt.

(** The tail of [drawFaces], after the loop over the faces: the canvas is
    encoded into the destination, by the codec its extension selects. *)
Definition writeOutput (fd : faceDetector.t) : M (option os.error) :=
  fun w0 =>
    let img := dc w0 in
    (opened <- OpenFile (faceDetector.destination fd) (Z.lor os.O_CREATE os.O_RDWR) ;;
     match opened with
     | inr err => ret (Some err)
     | inl output =>
         let ext := filepath.Ext (os.Name output) in
         if String.eqb ext ".jpg" || String.eqb ext ".jpeg" then
           let '(data, err) := jpeg_Encode img 100 in
           Write output data ;; ret err
         else if String.eqb ext ".png" then
           let '(data, err) := png_Encode img in
           Write output data ;; ret err
         else ret None
     end) w0.

(** [main], over the function [drawFaces] of the revision at hand.  The
    progress indicator and the elapsed-time line are left out. *)
Section Main.
Variable drawFaces :
  faceDetector.t -> Package -> list pigo.Detection.t -> M (option os.error).

Definition main (flags : Flags.t) : M unit :=
  if (String.length (Flags.source flags) =? 0)%nat
     || (String.length (Flags.destination flags) =? 0)%nat
  then abort (Fatal "Usage: pigo -in input.jpg -out out.png -cf cascade/facefinder")
  else
    let fileTypes := [".jpg"; ".jpeg"; ".png"]%string in
    let ext := filepath.Ext (Flags.destination flags) in
    if negb (inSlice ext fileTypes)
    then abort (Fatal ("Output file type not supported: " ++ ext))
    else if F64.ltb (Flags.scaleFactor flags) (F64.lit 105 100)
    then abort (Fatal "Scale factor must be greater than 1.05")
    else
      let fd :=
        faceDetector.mk (Flags.angle flags) (Flags.destination flags)
          (Flags.minSize flags) (Flags.maxSize flags)
          (Flags.shiftFactor flags) (Flags.scaleFactor flags)
          (Flags.iouThreshold flags)
          "cascades/facefinder" "cascades/puploc" "cascades/lps" in
      detected <- detectFaces fd (Flags.source flags) ;;
      match detected with
      | inr err => abort (FatalErr err)
      | inl (faces, pkg) =>
          failed <- drawFaces fd pkg faces ;;
          match failed with
          | Some err => abort (FatalErr err)
          | None => ret tt
          end
      end.
End Main.

End Shared.

(** What one pass of the loop over the faces leaves: the value of [imgScale]
    to carry into the next pass, or the error [drawFaces] returns at once. *)
Inductive Pass : Type :=
| Next (imgScale : float64)
| Return (err : os.error).

(** ** The mask generator *)

Module Facemask.
Import pigo.

Section drawFaces.
Context {ext : External}.
Variables (fd : faceDetector.t) (pkg : Package).

Definition qThresh : float32 := F32.lit 50 10.
Definition perturb : Z := 63.

(** The body of [for _, face := range faces]. *)
Definition pass (imgScale : float64) (face : Detection.t) : M Pass :=
  if F32.gtb (Detection.Q face) qThresh then
    draw (gg.DrawRectangle
            (F64.of_int (GoInt.sub (Detection.Col face) (GoInt.quo (Detection.Scale face) 2)))
            (F64.of_int (GoInt.sub (Detection.Row face) (GoInt.quo (Detection.Scale face) 2)))
            (F64.of_int (Detection.Scale face))
            (F64.of_int (Detection.Scale face))) ;;
    draw (gg.SetLineWidth (F64.lit 20 10)) ;;
    draw (gg.SetStrokeStyle (color.RGBA 255 0 0 255)) ;;
    draw gg.Stroke ;;
    (* left eye *)
    let puploc :=
      Puploc.mk
        (GoInt.sub (Detection.Row face)
           (F32.to_int (F32.mul (F32.lit 75 1000) (F32.of_int (Detection.Scale face)))))
        (GoInt.sub (Detection.Col face)
           (F32.to_int (F32.mul (F32.lit 175 1000) (F32.of_int (Detection.Scale face)))))
        (F32.mul (F32.of_int (Detection.Scale face)) (F32.lit 25 100))
        perturb in
    let leftEye := RunDetector (plc pkg) puploc (imgParams pkg) (faceDetector.angle fd) false in
    (* right eye *)
    let puploc :=
      Puploc.mk
        (GoInt.sub (Detection.Row face)
           (F32.to_int (F32.mul (F32.lit 75 1000) (F32.of_int (Detection.Scale face)))))
        (GoInt.add (Detection.Col face)
           (F32.to_int (F32.mul (F32.lit 185 1000) (F32.of_int (Detection.Scale face)))))
        (F32.mul (F32.of_int (Detection.Scale face)) (F32.lit 25 100))
        perturb in
    let rightEye := RunDetector (plc pkg) puploc (imgParams pkg) (faceDetector.angle fd) false in
    lp84 <- index0 (flpcs pkg "lp84") ;;
    let flp1 := FindLandmarkPoints lp84 leftEye rightEye (imgParams pkg) perturb false in
    lp84 <- index0 (flpcs pkg "lp84") ;;
    let flp2 := FindLandmarkPoints lp84 leftEye rightEye (imgParams pkg) perturb true in
    opened <- OpenFile "assets/facemask.png" os.O_RDONLY ;;
    match opened with
    | inr err => ret (Return err)
    | inl mask =>
        emit (EvPngDecode (os.Name mask)) ;;
        fun w =>
          match os.ReadAll (fs w) mask with
          | inr err => (inr (FatalErr err), w)
          | inl data =>
              match png_Decode data with
              | None => (inr (FatalErr (os.Failure "png: invalid format")), w)
              | Some (dx, dy) =>
                  let maskImg := Decoded data in
                  (* Calculate the lean angle between the two mouth points. *)
                  let angle :=
                    (F64.of_int 1 -
                     Atan2 (F64.of_int (GoInt.sub (Puploc.Col flp2) (Puploc.Col flp1)))
                           (F64.of_int (GoInt.sub (Puploc.Row flp2) (Puploc.Row flp1)))
                     * F64.of_int 180 / F64.Pi / F64.of_int 90)%f64 in
                  let imgScale :=
                    if GoInt.ltb (Detection.Scale face) dx || GoInt.ltb (Detection.Scale face) dy
                    then
                      if GoInt.gtb dx dy
                      then (F64.of_int (Detection.Scale face) / F64.of_int dx)%f64
                      else (F64.of_int (Detection.Scale face) / F64.of_int dy)%f64
                    else imgScale in
                  let width := (F64.of_int dx * imgScale * F64.lit 75 100)%f64 in
                  let height := (F64.of_int dy * imgScale * F64.lit 75 100)%f64 in
                  let tx :=
                    GoInt.sub (Detection.Col face)
                      (F64.to_int (width / F64.of_int 2)%f64) in
                  let ty :=
                    GoInt.sub
                      (GoInt.add (Puploc.Row flp1)
                         (GoInt.quo (GoInt.sub (Puploc.Row flp1) (Puploc.Row flp2)) 2))
                      (F64.to_int (height / F64.of_int 2)%f64) in
                  let resized :=
                    Resize maskImg (F64.to_int width) (F64.to_int height) imaging.Lanczos in
                  let aligned := Rotate resized angle color.Transparent in
                  (draw (gg.DrawImage aligned tx ty) ;; ret (Next imgScale)) w
              end
          end
    end
  else ret (Next imgScale).

Fixpoint passes (imgScale : float64) (faces : list Detection.t)
  : M (float64 * option os.error) :=
  match faces with
  | [] => ret (imgScale, None)
  | face :: rest =>
      r <- pass imgScale face ;;
      match r with
      | Next imgScale' => passes imgScale' rest
      | Return err => ret (imgScale, Some err)
      end
  end.

(** [drawFaces]: every face scoring above [qThresh] is outlined and given
    its mask; the canvas is then written to the destination. *)
Definition drawFaces (faces : list Detection.t) : M (option os.error) :=
  r <- passes F64.zero faces ;;
  match snd r with
  | Some err => ret (Some err)
  | None => writeOutput fd
  end.

End drawFaces.

Definition main {ext : External} : Flags.t -> M unit := main drawFaces.

End Facemask.

(** ** The diagnostic revision

    It marks the two landmark points on the canvas and prints the values it
    computes. *)

Module Diagnostic.
Import pigo.

Module point.
Record t : Type := mk { x : Z; y : Z }.
End point.

Section drawFaces.
Context {ext : External}.
Variables (fd : faceDetector.t) (pkg : Package).

Definition qThresh : float32 := F32.lit 50 10.
Definition perturb : Z := 63.

(** The marker of a landmark point, drawn when both coordinates are positive. *)
Definition mark (flp : Puploc.t) : M unit :=
  if GoInt.gtb (Puploc.Row flp) 0 && GoInt.gtb (Puploc.Col flp) 0 then
    drawDetections
      (F64.of_int (Puploc.Col flp))
      (F64.of_int (Puploc.Row flp))
      (F64.of_float32 (F32.mul (Puploc.Scale flp) (F32.lit 5 10)))
      (color.RGBA 0 0 255 255)
      false
  else ret tt.

(** The body of [for _, face := range faces].  [p1] and [p2] are declared
    outside the loop and assigned in every pass before they are read. *)
Definition pass (imgScale : float64) (face : Detection.t) : M Pass :=
  if F32.gtb (Detection.Q face) qThresh then
    draw (gg.DrawRectangle
            (F64.of_int (GoInt.sub (Detection.Col face) (GoInt.quo (Detection.Scale face) 2)))
            (F64.of_int (GoInt.sub (Detection.Row face) (GoInt.quo (Detection.Scale face) 2)))
            (F64.of_int (Detection.Scale face))
            (F64.of_int (Detection.Scale face))) ;;
    draw (gg.SetLineWidth (F64.lit 20 10)) ;;
    draw (gg.SetStrokeStyle (color.RGBA 255 0 0 255)) ;;
    draw gg.Stroke ;;
    (* left eye *)
    let puploc :=
      Puploc.mk
        (GoInt.sub (Detection.Row face)
           (F32.to_int (F32.mul (F32.lit 75 1000) (F32.of_int (Detection.Scale face)))))
        (GoInt.sub (Detection.Col face)
           (F32.to_int (F32.mul (F32.lit 175 1000) (F32.of_int (Detection.Scale face)))))
        (F32.mul (F32.of_int (Detection.Scale face)) (F32.lit 25 100))
        perturb in
    let leftEye := RunDetector (plc pkg) puploc (imgParams pkg) (faceDetector.angle fd) false in
    (* right eye *)
    let puploc :=
      Puploc.mk
        (GoInt.sub (Detection.Row face)
           (F32.to_int (F32.mul (F32.lit 75 1000) (F32.of_int (Detection.Scale face)))))
        (GoInt.add (Detection.Col face)
           (F32.to_int (F32.mul (F32.lit 185 1000) (F32.of_int (Detection.Scale face)))))
        (F32.mul (F32.of_int (Detection.Scale face)) (F32.lit 25 100))
        perturb in
    let rightEye := RunDetector (plc pkg) puploc (imgParams pkg) (faceDetector.angle fd) false in
    lp84 <- index0 (flpcs pkg "lp84") ;;
    let flp := FindLandmarkPoints lp84 leftEye rightEye (imgParams pkg) perturb false in
    mark flp ;;
    let p1 := point.mk (Puploc.Row flp) (Puploc.Col flp) in
    lp84 <- index0 (flpcs pkg "lp84") ;;
    let flp := FindLandmarkPoints lp84 leftEye rightEye (imgParams pkg) perturb true in
    mark flp ;;
    let p2 := point.mk (Puploc.Row flp) (Puploc.Col flp) in
    opened <- OpenFile "assets/facemask.png" os.O_RDONLY ;;
    match opened with
    | inr err => ret (Return err)
    | inl mask =>
        emit (EvPngDecode (os.Name mask)) ;;
        fun w =>
          match os.ReadAll (fs w) mask with
          | inr err => (inr (FatalErr err), w)
          | inl data =>
              match png_Decode data with
              | None => (inr (FatalErr (os.Failure "png: invalid format")), w)
              | Some (dx, dy) =>
                  let maskImg := Decoded data in
                  (* Calculate the lean angle between the two mouth points. *)
                  let angle :=
                    (F64.of_int 1 -
                     Atan2 (F64.of_int (GoInt.sub (point.y p2) (point.y p1)))
                           (F64.of_int (GoInt.sub (point.x p2) (point.x p1)))
                     * F64.of_int 180 / F64.Pi / F64.of_int 90)%f64 in
                  (Println [VInt (Detection.Scale face)] ;;
                   Println [VInt dx; VInt dy] ;;
                   let imgScale :=
                     if GoInt.ltb (Detection.Scale face) dx || GoInt.ltb (Detection.Scale face) dy
                     then
                       if GoInt.gtb dx dy
                       then (F64.of_int (Detection.Scale face) / F64.of_int dx)%f64
                       else (F64.of_int (Detection.Scale face) / F64.of_int dy)%f64
                     else imgScale in
                   Println [VFloat imgScale] ;;
                   let width := (F64.of_int dx * imgScale * F64.lit 75 100)%f64 in
                   let height := (F64.of_int dy * imgScale * F64.lit 75 100)%f64 in
                   let tx :=
                     GoInt.sub (Detection.Row face)
                       (F64.to_int (width / F64.of_int 2 * F64.lit 8 10)%f64) in
                   let ty :=
                     GoInt.sub
                       (GoInt.add (point.x p1)
                          (GoInt.quo (GoInt.sub (point.x p1) (point.x p2)) 2))
                       (F64.to_int (height / F64.of_int 2)%f64) in
                   let resized :=
                     Resize maskImg (F64.to_int width) (F64.to_int height) imaging.Lanczos in
                   let aligned := Rotate resized angle color.Transparent in
                   Println [VInt tx; VInt ty] ;;
                   Println [VFloat width; VFloat height] ;;
                   draw (gg.DrawImage aligned tx ty) ;;
                   ret (Next imgScale)) w
              end
          end
    end
  else ret (Next imgScale).

Fixpoint passes (imgScale : float64) (faces : list Detection.t)
  : M (float64 * option os.error) :=
  match faces with
  | [] => ret (imgScale, None)
  | face :: rest =>
      r <- pass imgScale face ;;
      match r with
      | Next imgScale' => passes imgScale' rest
      | Return err => ret (imgScale, Some err)
      end
  end.

(** [drawFaces] of the diagnostic revision. *)
Definition drawFaces (faces : list Detection.t) : M (option os.error) :=
  r <- passes F64.zero faces ;;
  match snd r with
  | Some err => ret (Some err)
  | None => writeOutput fd
  end.

End drawFaces.

Definition main {ext : External} : Flags.t -> M unit := main drawFaces.

End Diagnostic.

(** ** The Alignment Calculator, as the specification words it

    The score gate, the two search windows, the landmark pair and the
    transform of the mask, each as a function of its inputs.  The theorems
    below compare [drawFaces] with them. *)

Module Alignment.
Import pigo.

Section Alignment.
Context {ext : External}.
Variables (fd : faceDetector.t) (pkg : Package).

(** score > 5.0 *)
Definition qualifies (face : Detection.t) : bool :=
  SFltb (F32.of_int 5) (Detection.Q face).

Definition leftWindow (face : Detection.t) : Puploc.t :=
  Puploc.mk
    (GoInt.sub (Detection.Row face)
       (F32.to_int (F32.mul (F32.lit 75 1000) (F32.of_int (Detection.Scale face)))))
    (GoInt.sub (Detection.Col face)
       (F32.to_int (F32.mul (F32.lit 175 1000) (F32.of_int (Detection.Scale face)))))
    (F32.mul (F32.of_int (Detection.Scale face)) (F32.lit 25 100))
    63.

Definition rightWindow (face : Detection.t) : Puploc.t :=
  Puploc.mk
    (GoInt.sub (Detection.Row face)
       (F32.to_int (F32.mul (F32.lit 75 1000) (F32.of_int (Detection.Scale face)))))
    (GoInt.add (Detection.Col face)
       (F32.to_int (F32.mul (F32.lit 185 1000) (F32.of_int (Detection.Scale face)))))
    (F32.mul (F32.of_int (Detection.Scale face)) (F32.lit 25 100))
    63.

Definition pupil (window : Puploc.t) : Puploc.t :=
  RunDetector (plc pkg) window (imgParams pkg) (faceDetector.angle fd) false.

(** The landmark point of a face, for one orientation flag. *)
Definition landmark (lp84 : FlpCascade) (face : Detection.t) (flag : bool) : Puploc.t :=
  FindLandmarkPoints lp84 (pupil (leftWindow face)) (pupil (rightWindow face))
    (imgParams pkg) 63 flag.

(** angle = 1 - (atan2(p2.col - p1.col, p2.row - p1.row) * 180 / pi / 90) *)
Definition angle (p1 p2 : Puploc.t) : float64 :=
  (F64.of_int 1 -
   Atan2 (F64.of_int (GoInt.sub (Puploc.Col p2) (Puploc.Col p1)))
         (F64.of_int (GoInt.sub (Puploc.Row p2) (Puploc.Row p1)))
   * F64.of_int 180 / F64.Pi / F64.of_int 90)%f64.

(** scale = faceScale / max(dx, dy) if faceScale < dx or faceScale < dy,
    else the value it had. *)
Definition scale (prior : float64) (faceScale dx dy : Z) : float64 :=
  if (faceScale <? dx) || (faceScale <? dy)
  then (F64.of_int faceScale / F64.of_int (Z.max dx dy))%f64
  else prior.

(** width = dx * scale * 0.75, and height alike *)
Definition extent (d : Z) (s : float64) : float64 :=
  (F64.of_int d * s * F64.lit 75 100)%f64.

(** originX = faceCol - width/2 *)
Definition originX (face : Detection.t) (width : float64) : Z :=
  GoInt.sub (Detection.Col face) (F64.to_int (width / F64.of_int 2)%f64).

(** originY = p1.row + (p1.row - p2.row)/2 - height/2 *)
Definition originY (p1 p2 : Puploc.t) (height : float64) : Z :=
  GoInt.sub
    (GoInt.add (Puploc.Row p1) (GoInt.quo (GoInt.sub (Puploc.Row p1) (Puploc.Row p2)) 2))
    (F64.to_int (height / F64.of_int 2)%f64).

(** The mask, resampled to the target extent and then rotated. *)
Definition aligned (data : list Byte.byte) (dx dy : Z) (s : float64)
    (p1 p2 : Puploc.t) : Image :=
  Rotate
    (Resize (Decoded data) (F64.to_int (extent dx s)) (F64.to_int (extent dy s))
       imaging.Lanczos)
    (angle p1 p2) color.Transparent.

(** The composite of the mask generator. *)
Definition composite (data : list Byte.byte) (dx dy : Z) (s : float64)
    (face : Detection.t) (p1 p2 : Puploc.t) : gg.Op :=
  gg.DrawImage (aligned data dx dy s p1 p2)
    (originX face (extent dx s)) (originY p1 p2 (extent dy s)).

(** What the diagnostic revision draws instead: the horizontal origin is
    taken from the face's row, with the factor 0.8 on the half width. *)
Definition diagnosticComposite (data : list Byte.byte) (dx dy : Z) (s : float64)
    (face : Detection.t) (p1 p2 : Puploc.t) : gg.Op :=
  gg.DrawImage (aligned data dx dy s p1 p2)
    (GoInt.sub (Detection.Row face)
       (F64.to_int (extent dx s / F64.of_int 2 * F64.lit 8 10)%f64))
    (originY p1 p2 (extent dy s)).

(** The marker the diagnostic revision draws at a landmark point. *)
Definition marker (p : Puploc.t) : list gg.Op :=
  if (0 <? Puploc.Row p) && (0 <? Puploc.Col p)
  then [ gg.DrawArc (F64.of_int (Puploc.Col p)) (F64.of_int (Puploc.Row p))
           (F64.of_float32 (F32.mul (Puploc.Scale p) (F32.lit 5 10)) * F64.lit 15 100)%f64
           (F64.of_int 0) (F64.of_int 2 * F64.Pi)%f64;
         gg.SetFillStyle (color.RGBA 0 0 255 255);
         gg.Fill ]
  else [].

(** A located point is degenerate when a coordinate is not positive. *)
Definition degenerate (p : Puploc.t) : Prop :=
  Puploc.Row p <= 0 \/ Puploc.Col p <= 0.

(** The outline of the face box. *)
Definition faceBox (face : Detection.t) : list gg.Op :=
  [ gg.DrawRectangle
      (F64.of_int (GoInt.sub (Detection.Col face) (GoInt.quo (Detection.Scale face) 2)))
      (F64.of_int (GoInt.sub (Detection.Row face) (GoInt.quo (Detection.Scale face) 2)))
      (F64.of_int (Detection.Scale face))
      (F64.of_int (Detection.Scale face));
    gg.SetLineWidth (F64.of_int 2);
    gg.SetStrokeStyle (color.RGBA 255 0 0 255);
    gg.Stroke ].
End Alignment.

(** The transform a composite was drawn with, read off the canvas. *)
Record Transform : Type := mkTransform
  { angleNormalized : float64; width : Z; height : Z; atX : Z; atY : Z }.

Definition transform (op : gg.Op) : option Transform :=
  match op with
  | gg.DrawImage (Rotate (Resize _ w h _) a _) x y => Some (mkTransform a w h x y)
  | _ => None
  end.

Fixpoint transforms (dc : gg.Context) : list Transform :=
  match dc with
  | [] => []
  | op :: rest =>
      match transform op with
      | Some t => t :: transforms rest
      | None => transforms rest
      end
  end.

Definition isMaskOpen (ev : Event) : bool :=
  match ev with
  | EvOpenFile name flag => String.eqb name "assets/facemask.png" && (flag =? os.O_RDONLY)
  | _ => false
  end.

Definition isPngDecode (ev : Event) : bool :=
  match ev with
  | EvPngDecode _ => true
  | _ => false
  end.

(** How often the mask asset was opened for reading, and how often decoded. *)
Definition maskOpens (evs : list Event) : nat := List.length (filter isMaskOpen evs).
Definition maskDecodes (evs : list Event) : nat := List.length (filter isPngDecode evs).

End Alignment.

(** ** A completed loop, as plain lists

    When the landmark cascade is present and the mask asset decodes, the loop
    of [drawFaces] neither fails nor aborts; what it appends to the canvas and
    to the event log is then a function of the faces and of the value of
    [imgScale] the loop starts from. *)

(** [w] with drawing calls and events appended. *)
Definition after (w : World) (ops : list gg.Op) (evs : list Event) : World :=
  mkWorld (fs w) (dc w ++ ops) (events w ++ evs).

Module Script.
Import pigo.

Section Script.
Context {ext : External}.
Variables (fd : faceDetector.t) (pkg : Package).
Variables (lp84 : FlpCascade) (data : list Byte.byte) (dx dy : Z).

(** One list per qualifying face, [imgScale] threaded from face to face. *)
Fixpoint run {A} (step : float64 -> Detection.t -> list A)
    (imgScale : float64) (faces : list Detection.t) : list A :=
  match faces with
  | [] => []
  | face :: rest =>
      if Alignment.qualifies face
      then step imgScale face
             ++ run step (Alignment.scale imgScale (Detection.Scale face) dx dy) rest
      else run step imgScale rest
  end.

Fixpoint finalScale (imgScale : float64) (faces : list Detection.t) : float64 :=
  match faces with
  | [] => imgScale
  | face :: rest =>
      if Alignment.qualifies face
      then finalScale (Alignment.scale imgScale (Detection.Scale face) dx dy) rest
      else finalScale imgScale rest
  end.

Definition maskEvents : list Event :=
  [ EvOpenFile "assets/facemask.png" os.O_RDONLY;
    EvPngDecode "assets/facemask.png" ].

Definition facemaskOps (imgScale : float64) (face : Detection.t) : list gg.Op :=
  let p1 := Alignment.landmark fd pkg lp84 face false in
  let p2 := Alignment.landmark fd pkg lp84 face true in
  let s := Alignment.scale imgScale (Detection.Scale face) dx dy in
  Alignment.faceBox face ++ [Alignment.composite data dx dy s face p1 p2].

Definition facemaskEvents (imgScale : float64) (face : Detection.t) : list Event :=
  maskEvents.

Definition diagnosticOps (imgScale : float64) (face : Detection.t) : list gg.Op :=
  let p1 := Alignment.landmark fd pkg lp84 face false in
  let p2 := Alignment.landmark fd pkg lp84 face true in
  let s := Alignment.scale imgScale (Detection.Scale face) dx dy in
  Alignment.faceBox face ++ Alignment.marker p1 ++ Alignment.marker p2
    ++ [Alignment.diagnosticComposite data dx dy s face p1 p2].

Definition diagnosticEvents (imgScale : float64) (face : Detection.t) : list Event :=
  let p1 := Alignment.landmark fd pkg lp84 face false in
  let p2 := Alignment.landmark fd pkg lp84 face true in
  let s := Alignment.scale imgScale (Detection.Scale face) dx dy in
  maskEvents ++
  [ EvPrintln [VInt (Detection.Scale face)];
    EvPrintln [VInt dx; VInt dy];
    EvPrintln [VFloat s];
    EvPrintln
      [VInt (GoInt.sub (Detection.Row face)
               (F64.to_int (Alignment.extent dx s / F64.of_int 2 * F64.lit 8 10)%f64));
       VInt (Alignment.originY p1 p2 (Alignment.extent dy s))];
    EvPrintln [VFloat (Alignment.extent dx s); VFloat (Alignment.extent dy s)] ].
End Script.

End Script.

(** The mask asset is a regular file holding [data]. *)
Definition maskReadable (data : list Byte.byte) (w : World) : Prop :=
  fs w "assets/facemask.png"%string = Some (os.RegularFile data).

(** The codec [drawFaces] selects by the extension of the destination, applied
    to an image: the bytes it writes and the error it reports. *)
Definition encoding {ext : External} (fd : faceDetector.t) (img : gg.Context)
  : option (list Byte.byte * option os.error) :=
  let e := filepath.Ext (faceDetector.destination fd) in
  if String.eqb e ".jpg" || String.eqb e ".jpeg" then Some (jpeg_Encode img 100)
  else if String.eqb e ".png" then Some (png_Encode img)
  else None.

(** ** Stand-ins for the collaborators, to run the program on examples *)

Module Stub.
Import pigo.

Definition located (row col : Z) : Puploc.t := Puploc.mk row col (F32.of_int 1) 63.

(** A cascade unpacks unless its file is empty, which makes the loader
    panic. *)
Definition unpack (bytes : list Byte.byte) : Call (unit + os.error) :=
  match bytes with
  | [] => Panicked "slice bounds out of range"
  | _ => Returned (inl tt)
  end.

(** The classifier finds one face, of score 10; a scale factor that is not
    a number makes it panic. *)
Definition runCascade (classifier : unit) (params : CascadeParams.t) (angle : float64)
  : Call (list Detection.t) :=
  match CascadeParams.ScaleFactor params with
  | S754_nan => Panicked "index out of range"
  | _ => Returned [Detection.mk 100 100 80 (F32.of_int 10)]
  end.

(** Collaborators that detect one face, of score 10, find the landmark points
    [p1] (flag false) and [p2] (flag true) on every face, decode every PNG to a
    [dx] by [dy] image, and encode every canvas to the two bytes [01 02]. *)
Definition externals (p1 p2 : Puploc.t) (dx dy : Z) : External :=
  {| Pigo := unit;
     PuplocCascade := unit;
     FlpCascade := unit;
     image_Decode := fun _ => Some (640, 480);
     RgbToGrayscale := fun _ => [];
     Unpack := unpack;
     UnpackCascade := unpack;
     ReadCascadeDir := fun _ _ => Returned (inl (fun _ => [tt]));
     RunCascade := runCascade;
     ClusterDetections := fun _ faces _ => Returned faces;
     RunDetector := fun _ window _ _ _ => window;
     FindLandmarkPoints := fun _ _ _ _ _ flag => if flag then p2 else p1;
     Atan2 := fun _ _ => F64.zero;
     png_Decode := fun _ => Some (dx, dy);
     png_Encode := fun _ => ([Byte.x01; Byte.x02], None);
     jpeg_Encode := fun _ _ => ([Byte.x01; Byte.x02], None) |}.

Definition pkg (p1 p2 : Puploc.t) (dx dy : Z) : @Package (externals p1 p2 dx dy) :=
  @mkPackage (externals p1 p2 dx dy) tt (fun _ => [tt]) (ImageParams.mk [] 480 640 640).

Definition fd : faceDetector.t :=
  faceDetector.mk F64.zero "out.png" 20 1000 (F64.lit 1 10) (F64.lit 11 10)
    (F64.lit 2 10) "cascades/facefinder" "cascades/puploc" "cascades/lps".

(** The source image, the cascades, the mask asset, and a destination that
    already holds three bytes. *)
Definition files : os.FileSystem :=
  fun name =>
    if String.eqb name "assets/facemask.png" then Some (os.RegularFile [Byte.x89])
    else if String.eqb name "out.png"
    then Some (os.RegularFile [Byte.x0a; Byte.x0b; Byte.x0c])
    else if String.eqb name "in.jpg" then Some (os.RegularFile [Byte.xff; Byte.xd8])
    else if String.eqb name "cascades/facefinder" then Some (os.RegularFile [Byte.x01])
    else if String.eqb name "cascades/puploc" then Some (os.RegularFile [Byte.x02])
    else None.

Definition world : World := mkWorld files [] [].

Definition face (row col scale score : Z) : Detection.t :=
  Detection.mk row col scale (F32.of_int score).

(** The command line [-in in.jpg -out out.png -scale <scale>]. *)
Definition flags (scale : float64) : Flags.t :=
  Flags.mk "in.jpg" "out.png" 20 1000 (F64.lit 1 10) scale F64.zero (F64.lit 2 10).

End Stub.

(** ** Runs that go wrong, for the examples *)

Module Faults.
Import pigo.

(** The files without the one called [name]. *)
Definition without (name : string) (files : os.FileSystem) : os.FileSystem :=
  fun n => if String.eqb n name then None else files n.

(** The stand-in world with the file [name] removed, or replaced by [node]. *)
Definition worldWithout (name : string) : World :=
  mkWorld (without name Stub.files) [] [].

Definition worldWith (name : string) (node : os.Node) : World :=
  mkWorld (os.put Stub.files name node) [] [].


(** The package variables when the directory of landmark cascades held no
    [lp84]. *)
Definition noLandmarks (p1 p2 : Puploc.t) (dx dy : Z) : @Package (Stub.externals p1 p2 dx dy) :=
  @mkPackage (Stub.externals p1 p2 dx dy) tt (fun _ => []) (ImageParams.mk [] 480 640 640).


(** [Stub.fd] with another destination. *)
Definition fdTo (destination : string) : faceDetector.t :=
  faceDetector.mk F64.zero destination 20 1000 (F64.lit 1 10) (F64.lit 11 10)
    (F64.lit 2 10) "cascades/facefinder" "cascades/puploc" "cascades/lps".

End Faults.

(** ** Runs that stop early *)

(** What the diagnostic revision has drawn for a face when it comes to open
    the mask: the outline and the two markers. *)
Definition marked {ext : External} (fd : faceDetector.t) (pkg : Package)
    (lp84 : FlpCascade) (face : pigo.Detection.t) : list gg.Op :=
  Alignment.faceBox face
  ++ Alignment.marker (Alignment.landmark fd pkg lp84 face false)
  ++ Alignment.marker (Alignment.landmark fd pkg lp84 face true).

(** [w'] is [w] with calls and events added, the files as they were. *)
Definition extends (w w' : World) : Prop :=
  exists ops evs, w' = after w ops evs.

(** The content a regular file has, nothing for a file that does not exist. *)
Definition contentOf (fs : os.FileSystem) (name : string) : list Byte.byte :=
  match fs name with
  | Some (os.RegularFile content) => content
  | _ => []
  end.

(** A result that is not the end of the process on a message of [main]. *)
Definition quiet {A} (r : A + Abort) : Prop :=
  match r with
  | inr (Fatal _) => False
  | _ => True
  end.

(** [w'] differs from [w] in no file but [dest], and has the canvas and the
    event log of [w] with something added at the end. *)
Definition leavesAlone (dest : string) (w w' : World) : Prop :=
  (forall name, name <> dest -> fs w' name = fs w name)
  /\ (exists ops, dc w' = dc w ++ ops)
  /\ (exists evs, events w' = events w ++ evs).

(** The extensions [main] accepts for the destination. *)
Definition fileTypes : list string := [".jpg"; ".jpeg"; ".png"]%string.

(** The three messages [main] ends the process with. *)
Definition usage : string := "Usage: pigo -in input.jpg -out out.png -cf cascade/facefinder".
Definition unsupported (ext : string) : string := "Output file type not supported: " ++ ext.
Definition scaleTooSmall : string := "Scale factor must be greater than 1.05".

(** The world once [detectFaces] has put the source on the canvas. *)
Definition loaded (w : World) (image : list Byte.byte) (cols rows : Z) : World :=
  mkWorld (fs w) [gg.NewContext cols rows; gg.DrawImage (Decoded image) 0 0] (events w).

(** The settings [main] builds from the command line. *)
Definition settings (flags : Flags.t) : faceDetector.t :=
  faceDetector.mk (Flags.angle flags) (Flags.destination flags)
    (Flags.minSize flags) (Flags.maxSize flags)
    (Flags.shiftFactor flags) (Flags.scaleFactor flags)
    (Flags.iouThreshold flags)
    "cascades/facefinder" "cascades/puploc" "cascades/lps".

(** A command line that passes the validation of [main]. *)
Definition accepted (flags : Flags.t) : Prop :=
  Flags.source flags <> ""%string
  /\ Flags.destination flags <> ""%string
  /\ inSlice (filepath.Ext (Flags.destination flags)) fileTypes = true
  /\ SFltb (Flags.scaleFactor flags) (F64.lit 105 100) = false.

(** * Properties *)

Import pigo.

(** ** The literals of the source *)

Lemma qThresh_is_5 : F32.lit 50 10 = F32.of_int 5.
Proof. vm_compute. reflexivity. Qed.

Lemma lineWidth_is_2 : F64.lit 20 10 = F64.of_int 2.
Proof. vm_compute. reflexivity. Qed.

Lemma scale_branch (prior : float64) (faceScale dx dy : Z) :
  (if GoInt.ltb faceScale dx || GoInt.ltb faceScale dy
   then if GoInt.gtb dx dy
        then (F64.of_int faceScale / F64.of_int dx)%f64
        else (F64.of_int faceScale / F64.of_int dy)%f64
   else prior)
  = Alignment.scale prior faceScale dx dy.
Proof.
  unfold Alignment.scale, GoInt.ltb, GoInt.gtb.
  destruct ((faceScale <? dx) || (faceScale <? dy)); [| reflexivity].
  destruct (Z.ltb_spec dy dx).
  - rewrite Z.max_l by lia. reflexivity.
  - rewrite Z.max_r by lia. reflexivity.
Qed.

Lemma after_after w ops1 evs1 ops2 evs2 :
  after (after w ops1 evs1) ops2 evs2 = after w (ops1 ++ ops2) (evs1 ++ evs2).
Proof. unfold after. cbn [fs dc events]. now rewrite <- !app_assoc. Qed.

Lemma after_nil w : after w [] [] = w.
Proof. destruct w as [f d e]. unfold after. cbn [fs dc events]. now rewrite !app_nil_r. Qed.

(** ** Conversions of integers are finite *)

Lemma shr_1_bounds mrs : 0 <= shr_m mrs -> 0 <= shr_m (shr_1 mrs) <= shr_m mrs.
Proof.
  destruct mrs as [m r s]. cbn [shr_m shr_1].
  destruct m as [| [p | p |] | p]; cbn [shr_m]; lia.
Qed.

Lemma iter_shr_1_bounds n : forall mrs,
  0 <= shr_m mrs -> 0 <= shr_m (iter_pos shr_1 n mrs) <= shr_m mrs.
Proof.
  induction n as [n IH | n IH |]; intros mrs H; cbn [iter_pos].
  - pose proof (shr_1_bounds mrs H) as H1.
    pose proof (IH _ (proj1 H1)) as H2.
    pose proof (IH _ (proj1 H2)) as H3. lia.
  - pose proof (IH _ H) as H2.
    pose proof (IH _ (proj1 H2)) as H3. lia.
  - now apply shr_1_bounds.
Qed.

Lemma shr_record_of_loc_m m l : shr_m (shr_record_of_loc m l) = m.
Proof. now destruct l as [| []]. Qed.

Lemma shr_fexp_bounds prec emax m e l :
  0 <= m ->
  0 <= shr_m (fst (shr_fexp prec emax m e l)) <= m /\
  snd (shr_fexp prec emax m e l) <= Z.max e (fexp prec emax (Zdigits2 m + e)).
Proof.
  intros Hm. unfold shr_fexp, shr.
  destruct (fexp prec emax (Zdigits2 m + e) - e) as [| n | n] eqn:Hn; cbn [fst snd].
  - rewrite shr_record_of_loc_m. lia.
  - pose proof (iter_shr_1_bounds n (shr_record_of_loc m l)) as H.
    rewrite shr_record_of_loc_m in H. split; [now apply H | lia].
  - rewrite shr_record_of_loc_m. lia.
Qed.

Lemma round_nearest_even_bounds m l : m <= round_nearest_even m l <= m + 1.
Proof.
  unfold round_nearest_even. destruct l as [| []]; try lia.
  destruct (Z.even m); lia.
Qed.

Lemma digits2_pos_bound p : forall k, Zpos p < 2 ^ k -> Zpos (digits2_pos p) <= k.
Proof.
  assert (Hk0 : forall q k, Zpos q < 2 ^ k -> 0 < k).
  { intros q k Hk. destruct k; [cbn in Hk; lia | lia | cbn in Hk; lia]. }
  induction p as [p IH | p IH |]; intros k Hk; cbn [digits2_pos].
  1, 2: pose proof (Hk0 _ _ Hk);
        replace k with (Z.succ (k - 1)) in Hk by lia;
        rewrite Z.pow_succ_r in Hk by lia;
        specialize (IH (k - 1)); rewrite Pos2Z.inj_succ; lia.
  pose proof (Hk0 _ _ Hk). lia.
Qed.

Lemma Zdigits2_bound m k : 0 <= m < 2 ^ k -> 0 <= k -> Zdigits2 m <= k.
Proof.
  intros [H0 Hk] Hk0. destruct m as [| p | p]; cbn [Zdigits2]; [lia | | lia].
  now apply digits2_pos_bound.
Qed.

(** Rounding a mantissa below [2^116] with a non-positive exponent to
    binary64 neither overflows nor yields a NaN. *)
Lemma binary_round_aux_finite sx m e l :
  0 <= m < 2 ^ 116 -> e <= 0 ->
  match binary_round_aux 53 1024 sx m e l with
  | S754_zero s | S754_finite s _ _ => s = sx
  | _ => False
  end.
Proof.
  intros Hm He. unfold binary_round_aux.
  pose proof (shr_fexp_bounds 53 1024 m e l (proj1 Hm)) as [Hm1 He1].
  destruct (shr_fexp 53 1024 m e l) as [mrs1 e1]. cbn [fst snd] in Hm1, He1.
  pose proof (round_nearest_even_bounds (shr_m mrs1) (loc_of_shr_record mrs1)) as Hr.
  set (m2 := round_nearest_even (shr_m mrs1) (loc_of_shr_record mrs1)) in *.
  assert (Hm2 : 0 <= m2 < 2 ^ 117).
  { change (2 ^ 117) with (2 * 2 ^ 116). lia. }
  pose proof (shr_fexp_bounds 53 1024 m2 e1 loc_Exact (proj1 Hm2)) as [Hm3 He3].
  destruct (shr_fexp 53 1024 m2 e1 loc_Exact) as [mrs2 e2]. cbn [fst snd] in Hm3, He3.
  pose proof (Zdigits2_bound m 116 Hm ltac:(lia)) as Hd.
  pose proof (Zdigits2_bound m2 117 Hm2 ltac:(lia)) as Hd2.
  assert (Hpos : 0 <= Zdigits2 m) by (destruct m; cbn; lia).
  assert (Hpos2 : 0 <= Zdigits2 m2) by (destruct m2; cbn; lia).
  unfold fexp, emin in He1, He3.
  destruct (shr_m mrs2) as [| p | p]; [reflexivity | | lia].
  destruct (Z.leb_spec e2 (1024 - 53)); [reflexivity | lia].
Qed.

Lemma iter_xO_pow2 m d : Zpos (Pos.iter xO m d) = Zpos m * 2 ^ Zpos d.
Proof.
  rewrite <- Z.shiftl_mul_pow2 by lia. cbn [Z.shiftl].
  now apply Pos.iter_swap_gen.
Qed.

Lemma of_int_finite z :
  GoInt.MinInt <= z <= GoInt.MaxInt ->
  match F64.of_int z with
  | S754_zero s | S754_finite s _ _ => s = (z <? 0)
  | _ => False
  end.
Proof.
  intros Hz. unfold F64.of_int, GoFloat.of_int, binary_normalize.
  assert (Hround : forall sx p, Zpos p < 2 ^ 64 ->
            match binary_round F64.prec F64.emax sx p 0 with
            | S754_zero s | S754_finite s _ _ => s = sx
            | _ => False
            end).
  { intros sx p Hp. unfold binary_round, shl_align.
    pose proof (digits2_pos_bound p 64 Hp) as Hd.
    assert (0 < Zpos (digits2_pos p)) by lia.
    unfold fexp, emin, F64.prec, F64.emax.
    destruct (Z.max (Z.pos (digits2_pos p) + 0 - 53) (3 - 1024 - 53) - 0) as [| d | d] eqn:Hs.
    - apply binary_round_aux_finite; [| lia].
      change (2 ^ 116) with (2 ^ 64 * 2 ^ 52). lia.
    - apply binary_round_aux_finite; [| lia].
      change (2 ^ 116) with (2 ^ 64 * 2 ^ 52). lia.
    - apply binary_round_aux_finite; [| lia].
      rewrite iter_xO_pow2.
      assert (Zpos d <= 52) by lia.
      assert (2 ^ Zpos d <= 2 ^ 52) by (apply Z.pow_le_mono_r; lia).
      change (2 ^ 116) with (2 ^ 64 * 2 ^ 52). nia. }
  unfold GoInt.MinInt, GoInt.MaxInt in Hz.
  destruct z as [| p | p].
  - reflexivity.
  - apply (Hround false p). change (2 ^ 64) with (2 * 2 ^ 63). lia.
  - apply (Hround true p). change (2 ^ 64) with (2 * 2 ^ 63). lia.
Qed.

(** With [imgScale] still zero, the target extent is zero. *)
Lemma extent_zero d :
  0 <= d <= GoInt.MaxInt -> Alignment.extent d F64.zero = F64.zero.
Proof.
  intros Hd. unfold Alignment.extent.
  pose proof (of_int_finite d ltac:(unfold GoInt.MinInt, GoInt.MaxInt in *; lia)) as H.
  replace (d <? 0) with false in H by (symmetry; apply Z.ltb_ge; lia).
  destruct (F64.of_int d); try contradiction; subst; reflexivity.
Qed.

(** ** One pass of the loop, and the whole loop *)

Section Loop.
Context {ext : External}.
Variables (fd : faceDetector.t) (pkg : Package).
Variables (lp84 : FlpCascade) (more : list FlpCascade) (data : list Byte.byte) (dx dy : Z).
Hypothesis Hlp : flpcs pkg "lp84" = lp84 :: more.
Hypothesis Hdec : png_Decode data = Some (dx, dy).

Ltac enter_pass w Hq Hfile :=
  destruct w as [fs0 dc0 ev0]; unfold maskReadable in Hfile; cbn [fs] in Hfile;
  unfold F32.gtb, GoFloat.gtb;
  rewrite qThresh_is_5; unfold Alignment.qualifies in Hq; rewrite Hq.

Ltac open_mask Hfile :=
  cbv beta iota delta [os.OpenFile]; rewrite Hfile;
  change (os.has os.O_RDONLY os.O_TRUNC) with false; cbv beta iota;
  cbv beta iota delta [os.ReadAll os.Name os.offset fs dc events]; rewrite Hfile;
  cbv beta iota delta [skipn]; rewrite Hdec; cbv beta iota.

Lemma Facemask_pass_skip s face w :
  Alignment.qualifies face = false ->
  Facemask.pass fd pkg s face w = (inl (Next s), w).
Proof.
  intros Hq. unfold Facemask.pass, Facemask.qThresh, F32.gtb, GoFloat.gtb.
  rewrite qThresh_is_5. unfold Alignment.qualifies in Hq. now rewrite Hq.
Qed.

Lemma Facemask_pass_qualifying s face w :
  Alignment.qualifies face = true ->
  maskReadable data w ->
  Facemask.pass fd pkg s face w =
    (inl (Next (Alignment.scale s (Detection.Scale face) dx dy)),
     after w (Script.facemaskOps fd pkg lp84 data dx dy s face) Script.maskEvents).
Proof.
  intros Hq Hfile.
  unfold Facemask.pass, Facemask.qThresh. enter_pass w Hq Hfile.
  cbv beta iota delta [bind draw emit ret OpenFile index0 fs dc events].
  rewrite Hlp. cbv beta iota. open_mask Hfile.
  rewrite scale_branch. rewrite lineWidth_is_2.
  unfold after. cbn [fs dc events]. rewrite <- !app_assoc. reflexivity.
Qed.

Lemma Diagnostic_pass_skip s face w :
  Alignment.qualifies face = false ->
  Diagnostic.pass fd pkg s face w = (inl (Next s), w).
Proof.
  intros Hq. unfold Diagnostic.pass, Diagnostic.qThresh, F32.gtb, GoFloat.gtb.
  rewrite qThresh_is_5. unfold Alignment.qualifies in Hq. now rewrite Hq.
Qed.

Lemma mark_run p w : Diagnostic.mark p w = (inl tt, after w (Alignment.marker p) []).
Proof.
  unfold Diagnostic.mark, Alignment.marker, GoInt.gtb.
  destruct ((0 <? Puploc.Row p) && (0 <? Puploc.Col p)).
  - unfold drawDetections. cbv beta iota delta [bind draw ret fs dc events after].
    rewrite <- !app_assoc, app_nil_r. reflexivity.
  - unfold ret. now rewrite after_nil.
Qed.

Lemma Diagnostic_pass_qualifying s face w :
  Alignment.qualifies face = true ->
  maskReadable data w ->
  Diagnostic.pass fd pkg s face w =
    (inl (Next (Alignment.scale s (Detection.Scale face) dx dy)),
     after w (Script.diagnosticOps fd pkg lp84 data dx dy s face)
       (Script.diagnosticEvents fd pkg lp84 dx dy s face)).
Proof.
  intros Hq Hfile.
  unfold Diagnostic.pass, Diagnostic.qThresh. enter_pass w Hq Hfile.
  cbv beta iota delta [bind draw emit ret Println OpenFile index0 fs dc events].
  rewrite Hlp. cbv beta iota. rewrite !mark_run. cbn [after fs dc events].
  open_mask Hfile.
  rewrite scale_branch. rewrite lineWidth_is_2.
  unfold after. cbn [fs dc events Diagnostic.point.x Diagnostic.point.y].
  rewrite <- !app_assoc. rewrite ?app_nil_r. reflexivity.
Qed.

Lemma maskReadable_after w ops evs : maskReadable data w -> maskReadable data (after w ops evs).
Proof. exact (fun H => H). Qed.

Lemma Facemask_passes_run faces : forall s w,
  maskReadable data w ->
  Facemask.passes fd pkg s faces w =
    (inl (Script.finalScale dx dy s faces, None),
     after w (Script.run dx dy (Script.facemaskOps fd pkg lp84 data dx dy) s faces)
       (Script.run dx dy Script.facemaskEvents s faces)).
Proof.
  induction faces as [| face rest IH]; intros s w Hfile; cbn [Facemask.passes].
  - cbn. now rewrite after_nil.
  - cbn [Script.finalScale Script.run]. unfold bind.
    destruct (Alignment.qualifies face) eqn:Hq.
    + rewrite Facemask_pass_qualifying by assumption.
      rewrite IH by now apply maskReadable_after.
      now rewrite after_after.
    + rewrite Facemask_pass_skip by assumption. now apply IH.
Qed.

Lemma Diagnostic_passes_run faces : forall s w,
  maskReadable data w ->
  Diagnostic.passes fd pkg s faces w =
    (inl (Script.finalScale dx dy s faces, None),
     after w (Script.run dx dy (Script.diagnosticOps fd pkg lp84 data dx dy) s faces)
       (Script.run dx dy (Script.diagnosticEvents fd pkg lp84 dx dy) s faces)).
Proof.
  induction faces as [| face rest IH]; intros s w Hfile; cbn [Diagnostic.passes].
  - cbn. now rewrite after_nil.
  - cbn [Script.finalScale Script.run]. unfold bind.
    destruct (Alignment.qualifies face) eqn:Hq.
    + rewrite Diagnostic_pass_qualifying by assumption.
      rewrite IH by now apply maskReadable_after.
      now rewrite after_after.
    + rewrite Diagnostic_pass_skip by assumption. now apply IH.
Qed.

(** The tail of [drawFaces] draws nothing and opens the destination once. *)
Lemma writeOutput_dc w : dc (snd (writeOutput fd w)) = dc w.
Proof.
  unfold writeOutput, OpenFile, emit, Write, ret, bind. cbn [fs dc events].
  destruct (os.OpenFile _ _ _) as [fs' [output | err]]; cbn [fs dc events snd]; [| reflexivity].
  destruct (_ || _).
  - destruct (jpeg_Encode _ _) as [bytes err]. unfold bind. cbn [fs dc events].
    now destruct (os.Write _ _ _).
  - destruct (String.eqb _ _); [| reflexivity].
    destruct (png_Encode _) as [bytes err]. unfold bind. cbn [fs dc events].
    now destruct (os.Write _ _ _).
Qed.

Lemma writeOutput_events w :
  events (snd (writeOutput fd w)) =
  events w ++ [EvOpenFile (faceDetector.destination fd) (Z.lor os.O_CREATE os.O_RDWR)].
Proof.
  unfold writeOutput, OpenFile, emit, Write, ret, bind. cbn [fs dc events].
  destruct (os.OpenFile _ _ _) as [fs' [output | err]]; cbn [fs dc events snd]; [| reflexivity].
  destruct (_ || _).
  - destruct (jpeg_Encode _ _) as [bytes err]. unfold bind. cbn [fs dc events].
    now destruct (os.Write _ _ _).
  - destruct (String.eqb _ _); [| reflexivity].
    destruct (png_Encode _) as [bytes err]. unfold bind. cbn [fs dc events].
    now destruct (os.Write _ _ _).
Qed.

Lemma Facemask_drawFaces_run faces w :
  maskReadable data w ->
  Facemask.drawFaces fd pkg faces w =
  writeOutput fd
    (after w (Script.run dx dy (Script.facemaskOps fd pkg lp84 data dx dy) F64.zero faces)
       (Script.run dx dy Script.facemaskEvents F64.zero faces)).
Proof.
  intros Hfile. unfold Facemask.drawFaces, bind.
  now rewrite Facemask_passes_run.
Qed.

Lemma Diagnostic_drawFaces_run faces w :
  maskReadable data w ->
  Diagnostic.drawFaces fd pkg faces w =
  writeOutput fd
    (after w (Script.run dx dy (Script.diagnosticOps fd pkg lp84 data dx dy) F64.zero faces)
       (Script.run dx dy (Script.diagnosticEvents fd pkg lp84 dx dy) F64.zero faces)).
Proof.
  intros Hfile. unfold Diagnostic.drawFaces, bind.
  now rewrite Diagnostic_passes_run.
Qed.
End Loop.

(** ** What the canvas shows of a run *)

Lemma transforms_app a b :
  Alignment.transforms (a ++ b) = Alignment.transforms a ++ Alignment.transforms b.
Proof.
  induction a as [| op a IH]; [reflexivity |].
  cbn [app Alignment.transforms]. destruct (Alignment.transform op); cbn; now rewrite IH.
Qed.

Lemma transforms_marker p : Alignment.transforms (Alignment.marker p) = [].
Proof. unfold Alignment.marker. now destruct (_ && _). Qed.

Section Canvas.
Context {ext : External}.
Variables (fd : faceDetector.t) (pkg : Package).
Variables (lp84 : FlpCascade) (data : list Byte.byte) (dx dy : Z).

Lemma transforms_facemaskOps s face :
  Alignment.transforms (Script.facemaskOps fd pkg lp84 data dx dy s face) =
  let p1 := Alignment.landmark fd pkg lp84 face false in
  let p2 := Alignment.landmark fd pkg lp84 face true in
  let s' := Alignment.scale s (Detection.Scale face) dx dy in
  [ Alignment.mkTransform (Alignment.angle p1 p2)
      (F64.to_int (Alignment.extent dx s')) (F64.to_int (Alignment.extent dy s'))
      (Alignment.originX face (Alignment.extent dx s'))
      (Alignment.originY p1 p2 (Alignment.extent dy s')) ].
Proof. reflexivity. Qed.

Lemma transforms_diagnosticOps s face :
  Alignment.transforms (Script.diagnosticOps fd pkg lp84 data dx dy s face) =
  let p1 := Alignment.landmark fd pkg lp84 face false in
  let p2 := Alignment.landmark fd pkg lp84 face true in
  let s' := Alignment.scale s (Detection.Scale face) dx dy in
  [ Alignment.mkTransform (Alignment.angle p1 p2)
      (F64.to_int (Alignment.extent dx s')) (F64.to_int (Alignment.extent dy s'))
      (GoInt.sub (Detection.Row face)
         (F64.to_int (Alignment.extent dx s' / F64.of_int 2 * F64.lit 8 10)%f64))
      (Alignment.originY p1 p2 (Alignment.extent dy s')) ].
Proof.
  unfold Script.diagnosticOps. cbn zeta.
  rewrite !transforms_app, !transforms_marker. reflexivity.
Qed.

(** Of each transform of a loop, the angle depends on the face alone. *)
Lemma angles_run (step : float64 -> Detection.t -> list gg.Op) faces :
  (forall s face,
     map Alignment.angleNormalized (Alignment.transforms (step s face)) =
     [Alignment.angle (Alignment.landmark fd pkg lp84 face false)
        (Alignment.landmark fd pkg lp84 face true)]) ->
  forall s,
    map Alignment.angleNormalized (Alignment.transforms (Script.run dx dy step s faces)) =
    map (fun face => Alignment.angle (Alignment.landmark fd pkg lp84 face false)
                       (Alignment.landmark fd pkg lp84 face true))
      (filter Alignment.qualifies faces).
Proof.
  intros Hstep. induction faces as [| face rest IH]; intros s; [reflexivity |].
  cbn [Script.run filter]. destruct (Alignment.qualifies face); [| apply IH].
  rewrite transforms_app, map_app, Hstep, IH. reflexivity.
Qed.

End Canvas.

Section Claims.
Context {ext : External}.
Variables (fd : faceDetector.t) (pkg : Package).
Variables (lp84 : FlpCascade) (more : list FlpCascade) (data : list Byte.byte) (dx dy : Z).
Hypothesis Hlp : flpcs pkg "lp84" = lp84 :: more.
Hypothesis Hdec : png_Decode data = Some (dx, dy).

(** C1. In both revisions the angles handed to [imaging.Rotate] during a run
    are, face by face over the faces scoring above 5.0, the value
    [1 - (atan2(p2.col - p1.col, p2.row - p1.row) * 180 / pi / 90)] of the two
    landmark points of the face: p1 found with the orientation flag false,
    p2 with the flag true. *)
Theorem C1_rotation_angle faces w :
  maskReadable data w ->
  let p1 face := Alignment.landmark fd pkg lp84 face false in
  let p2 face := Alignment.landmark fd pkg lp84 face true in
  let formula face :=
    (F64.of_int 1 -
     Atan2 (F64.of_int (GoInt.sub (Puploc.Col (p2 face)) (Puploc.Col (p1 face))))
           (F64.of_int (GoInt.sub (Puploc.Row (p2 face)) (Puploc.Row (p1 face))))
     * F64.of_int 180 / F64.Pi / F64.of_int 90)%f64 in
  let rotations (w' : World) := map Alignment.angleNormalized (Alignment.transforms (dc w')) in
  rotations (snd (Facemask.drawFaces fd pkg faces w)) =
    rotations w ++ map formula (filter Alignment.qualifies faces)
  /\ rotations (snd (Diagnostic.drawFaces fd pkg faces w)) =
    rotations w ++ map formula (filter Alignment.qualifies faces).
Proof.
  intros Hfile p1 p2 formula rotations. unfold rotations. split.
  - rewrite (Facemask_drawFaces_run fd pkg lp84 more data dx dy Hlp Hdec) by assumption.
    rewrite writeOutput_dc. unfold after. cbn [dc].
    rewrite transforms_app, map_app. f_equal.
    apply angles_run. intros s face. now rewrite transforms_facemaskOps.
  - rewrite (Diagnostic_drawFaces_run fd pkg lp84 more data dx dy Hlp Hdec) by assumption.
    rewrite writeOutput_dc. unfold after. cbn [dc].
    rewrite transforms_app, map_app. f_equal.
    apply angles_run. intros s face. now rewrite transforms_diagnosticOps.
Qed.


(** While no qualifying face is smaller than the mask, [imgScale] stays zero
    and so do the extents. *)
Lemma extents_unset (step : float64 -> Detection.t -> list gg.Op) faces :
  0 <= dx <= GoInt.MaxInt -> 0 <= dy <= GoInt.MaxInt ->
  (forall s face,
     map (fun t => (Alignment.width t, Alignment.height t)) (Alignment.transforms (step s face)) =
     [ (F64.to_int (Alignment.extent dx (Alignment.scale s (Detection.Scale face) dx dy)),
        F64.to_int (Alignment.extent dy (Alignment.scale s (Detection.Scale face) dx dy))) ]) ->
  Forall (fun face => Alignment.qualifies face = true ->
                      dx <= Detection.Scale face /\ dy <= Detection.Scale face) faces ->
  map (fun t => (Alignment.width t, Alignment.height t))
    (Alignment.transforms (Script.run dx dy step F64.zero faces)) =
  map (fun _ => (0, 0)) (filter Alignment.qualifies faces).
Proof.
  intros Hdx Hdy Hstep. induction faces as [| face rest IH]; intros Hall; [reflexivity |].
  inversion Hall as [| ? ? Hface Hrest]; subst. cbn [Script.run filter].
  destruct (Alignment.qualifies face); [| now apply IH].
  destruct (Hface eq_refl) as [Hx Hy].
  assert (Hs : Alignment.scale F64.zero (Detection.Scale face) dx dy = F64.zero).
  { unfold Alignment.scale.
    replace (Detection.Scale face <? dx) with false by (symmetry; apply Z.ltb_ge; lia).
    now replace (Detection.Scale face <? dy) with false by (symmetry; apply Z.ltb_ge; lia). }
  rewrite transforms_app, map_app, Hstep, Hs, !extent_zero, IH by assumption.
  reflexivity.
Qed.

(** C2. For a face scoring above 5.0 the mask generator leaves in [imgScale]
    the quotient faceScale / max(dx, dy) when faceScale < dx or faceScale < dy,
    and the value the variable had otherwise; the mask is resized to
    int(dx * imgScale * 0.75) by int(dy * imgScale * 0.75).  The value is
    carried from face to face: a face no smaller than the mask is given the
    scale of the face before it.  The variable starts at 0: in a run where no
    qualifying face is smaller than the mask, every mask is resized to 0 by 0. *)
Theorem C2_scale_factor s face w faces :
  maskReadable data w ->
  0 < dx <= GoInt.MaxInt -> 0 < dy <= GoInt.MaxInt ->
  let smaller face := Detection.Scale face < dx \/ Detection.Scale face < dy in
  let quotient face := (F64.of_int (Detection.Scale face) / F64.of_int (Z.max dx dy))%f64 in
  let target s := (F64.to_int (F64.of_int dx * s * F64.lit 75 100)%f64,
                   F64.to_int (F64.of_int dy * s * F64.lit 75 100)%f64) in
  let extents (w' : World) :=
    map (fun t => (Alignment.width t, Alignment.height t)) (Alignment.transforms (dc w')) in
  (Alignment.qualifies face = true ->
   exists s',
     fst (Facemask.pass fd pkg s face w) = inl (Next s')
     /\ (smaller face -> s' = quotient face)
     /\ (~ smaller face -> s' = s)
     /\ extents (snd (Facemask.pass fd pkg s face w)) = extents w ++ [target s'])
  /\ (forall before,
        Alignment.qualifies before = true -> Alignment.qualifies face = true ->
        smaller before -> ~ smaller face ->
        extents (snd (Facemask.drawFaces fd pkg [before; face] w)) =
        extents w ++ [target (quotient before); target (quotient before)])
  /\ (Forall (fun face => Alignment.qualifies face = true -> ~ smaller face) faces ->
      extents (snd (Facemask.drawFaces fd pkg faces w)) =
      extents w ++ map (fun _ => (0, 0)) (filter Alignment.qualifies faces)).
Proof.
  intros Hfile Hdx Hdy smaller quotient target extents.
  assert (Hset : forall prior f, smaller f ->
            Alignment.scale prior (Detection.Scale f) dx dy = quotient f).
  { intros prior f Hlt. unfold Alignment.scale, smaller in *.
    destruct (Z.ltb_spec (Detection.Scale f) dx); [reflexivity |].
    destruct (Z.ltb_spec (Detection.Scale f) dy); [reflexivity | lia]. }
  assert (Hkeep : forall prior f, ~ smaller f ->
            Alignment.scale prior (Detection.Scale f) dx dy = prior).
  { intros prior f Hge. unfold Alignment.scale, smaller in *.
    destruct (Z.ltb_spec (Detection.Scale f) dx); [exfalso; auto |].
    destruct (Z.ltb_spec (Detection.Scale f) dy); [exfalso; auto | reflexivity]. }
  split; [| split].
  - intros Hq.
    rewrite (Facemask_pass_qualifying fd pkg lp84 more data dx dy Hlp Hdec) by assumption.
    cbn [fst snd]. unfold extents, after. cbn [dc].
    rewrite transforms_app, map_app, transforms_facemaskOps.
    eexists. split; [reflexivity |]. split; [apply Hset |]. split; [apply Hkeep |].
    reflexivity.
  - intros before Hqb Hq Hlt Hge. unfold extents.
    rewrite (Facemask_drawFaces_run fd pkg lp84 more data dx dy Hlp Hdec) by assumption.
    rewrite writeOutput_dc. unfold after. cbn [dc Script.run].
    rewrite Hqb, Hq, app_nil_r.
    rewrite !transforms_app, !transforms_facemaskOps, map_app.
    rewrite (Hkeep _ face Hge), (Hset _ before Hlt). reflexivity.
  - intros Hall. unfold extents.
    rewrite (Facemask_drawFaces_run fd pkg lp84 more data dx dy Hlp Hdec) by assumption.
    rewrite writeOutput_dc. unfold after. cbn [dc].
    rewrite transforms_app, map_app. f_equal.
    apply extents_unset; try assumption; try lia.
    + intros s0 face0. now rewrite transforms_facemaskOps.
    + eapply Forall_impl; [| exact Hall]. intros f Hf Hqf.
      specialize (Hf Hqf). unfold smaller in Hf. lia.
Qed.

(** ** The event log of a run *)

Lemma maskOpens_app a b :
  Alignment.maskOpens (a ++ b) = (Alignment.maskOpens a + Alignment.maskOpens b)%nat.
Proof. unfold Alignment.maskOpens. now rewrite filter_app, length_app. Qed.

Lemma maskDecodes_app a b :
  Alignment.maskDecodes (a ++ b) = (Alignment.maskDecodes a + Alignment.maskDecodes b)%nat.
Proof. unfold Alignment.maskDecodes. now rewrite filter_app, length_app. Qed.

(** A loop whose every pass opens and decodes the mask once. *)
Lemma opens_run (step : float64 -> Detection.t -> list Event) faces :
  (forall s face, Alignment.maskOpens (step s face) = 1%nat) ->
  forall s, Alignment.maskOpens (Script.run dx dy step s faces)
            = List.length (filter Alignment.qualifies faces).
Proof.
  intros Hstep. induction faces as [| face rest IH]; intros s; [reflexivity |].
  cbn [Script.run filter]. destruct (Alignment.qualifies face); [| apply IH].
  rewrite maskOpens_app, Hstep, IH. reflexivity.
Qed.

Lemma decodes_run (step : float64 -> Detection.t -> list Event) faces :
  (forall s face, Alignment.maskDecodes (step s face) = 1%nat) ->
  forall s, Alignment.maskDecodes (Script.run dx dy step s faces)
            = List.length (filter Alignment.qualifies faces).
Proof.
  intros Hstep. induction faces as [| face rest IH]; intros s; [reflexivity |].
  cbn [Script.run filter]. destruct (Alignment.qualifies face); [| apply IH].
  rewrite maskDecodes_app, Hstep, IH. reflexivity.
Qed.

(** ** The destination file *)

Lemma put_same fs name n : os.put fs name n name = Some n.
Proof. unfold os.put. now rewrite String.eqb_refl. Qed.

Lemma overwrite_at_start old enc :
  os.overwrite old 0 enc = enc ++ skipn (List.length enc) old.
Proof. reflexivity. Qed.

(** The tail of [drawFaces] on a destination that exists: the encoding goes
    over the start of the old content. *)
Lemma writeOutput_existing w old enc err :
  fs w (faceDetector.destination fd) = Some (os.RegularFile old) ->
  encoding fd (dc w) = Some (enc, err) ->
  fs (snd (writeOutput fd w)) (faceDetector.destination fd)
  = Some (os.RegularFile (enc ++ skipn (List.length enc) old)).
Proof.
  intros Hold Henc. unfold encoding in Henc.
  unfold writeOutput, OpenFile, emit, Write, ret, bind. cbn [fs dc events].
  unfold os.OpenFile. rewrite Hold.
  change (os.has (Z.lor os.O_CREATE os.O_RDWR) os.O_TRUNC) with false.
  cbn [os.Name fs dc events].
  destruct (_ || _).
  - destruct (jpeg_Encode _ _) as [bytes e]. injection Henc as -> ->.
    unfold os.Write. cbn [fs dc events os.Name os.offset snd]. rewrite Hold.
    cbn [snd fs]. now rewrite put_same.
  - destruct (String.eqb _ _); [| discriminate].
    destruct (png_Encode _) as [bytes e]. injection Henc as -> ->.
    unfold os.Write. cbn [fs dc events os.Name os.offset snd]. rewrite Hold.
    cbn [snd fs]. now rewrite put_same.
Qed.

(** C10. [drawFaces] opens the destination with [O_CREATE|O_RDWR], in which
    [O_TRUNC] is not set.  When the destination exists and holds more bytes
    than the canvas encodes to, the file is left with the encoding followed by
    the old bytes from that length on: it is as long as before and is not the
    encoding of the canvas.  So in both revisions. *)
Theorem C10_destination_not_truncated faces w old enc err :
  maskReadable data w ->
  fs w (faceDetector.destination fd) = Some (os.RegularFile old) ->
  (List.length enc < List.length old)%nat ->
  let left (w' : World) := fs w' (faceDetector.destination fd) in
  let kept := enc ++ skipn (List.length enc) old in
  os.has (Z.lor os.O_CREATE os.O_RDWR) os.O_TRUNC = false
  /\ List.length kept = List.length old
  /\ kept <> enc
  /\ (encoding fd (dc (snd (Facemask.drawFaces fd pkg faces w))) = Some (enc, err) ->
      left (snd (Facemask.drawFaces fd pkg faces w)) = Some (os.RegularFile kept))
  /\ (encoding fd (dc (snd (Diagnostic.drawFaces fd pkg faces w))) = Some (enc, err) ->
      left (snd (Diagnostic.drawFaces fd pkg faces w)) = Some (os.RegularFile kept)).
Proof.
  intros Hfile Hold Hlen left kept.
  assert (Hkept : List.length kept = List.length old).
  { unfold kept. rewrite length_app, length_skipn. lia. }
  split; [reflexivity |]. split; [exact Hkept |]. split; [| split].
  - intros Heq. rewrite Heq in Hkept. lia.
  - unfold left.
    rewrite (Facemask_drawFaces_run fd pkg lp84 more data dx dy Hlp Hdec) by assumption.
    rewrite writeOutput_dc. intros Henc. now apply writeOutput_existing with (err := err).
  - unfold left.
    rewrite (Diagnostic_drawFaces_run fd pkg lp84 more data dx dy Hlp Hdec) by assumption.
    rewrite writeOutput_dc. intros Henc. now apply writeOutput_existing with (err := err).
Qed.

End Claims.

(** C5. The end-to-end scenario: one detection at row 100, column 100, of
    scale 80 and score 10, a mask of 200 by 200, the landmark points
    p1 = (row 130, col 90) and p2 = (row 128, col 110).  The mask generator
    leaves [imgScale] at 0.4, resizes the mask to 60 by 60, rotates it by
    1 - (atan2(20, -2) * 180 / pi / 90) and composites it at (70, 101), after
    the outline of the face box. *)
Theorem C5_end_to_end {ext : External} (fd : faceDetector.t) (pkg : Package)
    (lp84 : FlpCascade) (more : list FlpCascade) (data : list Byte.byte) (w : World) :
  flpcs pkg "lp84" = lp84 :: more ->
  png_Decode data = Some (200, 200) ->
  maskReadable data w ->
  let face := Detection.mk 100 100 80 (F32.of_int 10) in
  let p1 := Alignment.landmark fd pkg lp84 face false in
  let p2 := Alignment.landmark fd pkg lp84 face true in
  Puploc.Row p1 = 130 -> Puploc.Col p1 = 90 ->
  Puploc.Row p2 = 128 -> Puploc.Col p2 = 110 ->
  fst (Facemask.passes fd pkg F64.zero [face] w) = inl (F64.lit 4 10, None)
  /\ Facemask.drawFaces fd pkg [face] w =
     writeOutput fd
       (after w
          [ gg.DrawRectangle (F64.of_int 60) (F64.of_int 60) (F64.of_int 80) (F64.of_int 80);
            gg.SetLineWidth (F64.of_int 2);
            gg.SetStrokeStyle (color.RGBA 255 0 0 255);
            gg.Stroke;
            gg.DrawImage
              (Rotate (Resize (Decoded data) 60 60 imaging.Lanczos)
                 (F64.of_int 1 -
                  Atan2 (F64.of_int 20) (F64.of_int (-2))
                  * F64.of_int 180 / F64.Pi / F64.of_int 90)%f64
                 color.Transparent)
              70 101 ]
          [ EvOpenFile "assets/facemask.png" os.O_RDONLY;
            EvPngDecode "assets/facemask.png" ]).
Proof.
  intros Hlp Hdec Hfile face p1 p2 Hr1 Hc1 Hr2 Hc2. split.
  - rewrite (Facemask_passes_run fd pkg lp84 more data 200 200 Hlp Hdec) by assumption.
    vm_compute. reflexivity.
  - rewrite (Facemask_drawFaces_run fd pkg lp84 more data 200 200 Hlp Hdec) by assumption.
    change (Alignment.qualifies face) with true.
    cbn [Script.run].
    change (Alignment.qualifies face) with true. cbv iota.
    unfold Script.facemaskEvents, Script.maskEvents. rewrite !app_nil_r.
    unfold Script.facemaskOps, Alignment.composite, Alignment.aligned, Alignment.angle,
      Alignment.originX, Alignment.originY, Alignment.faceBox.
    fold p1 p2. rewrite Hr1, Hc1, Hr2, Hc2.
    repeat f_equal; vm_compute; reflexivity.
Qed.

(** C3, at a face whose row and column differ.  For the detection at row 100,
    column 200, of scale 80, with the mask and the landmark points of the
    end-to-end scenario, the diagnostic revision composites the mask at
    x = 100 - int(30 * 0.8) = 76: it starts from the row of the face, where the
    mask generator starts from its column (x = 200 - 30 = 170). *)
Theorem C3_diagnostic_origin_from_row :
  let ext := Stub.externals (Stub.located 130 90) (Stub.located 128 110) 200 200 in
  let pkg := Stub.pkg (Stub.located 130 90) (Stub.located 128 110) 200 200 in
  let face := Stub.face 100 200 80 10 in
  let origins (w : World) :=
    map (fun t => (Alignment.atX t, Alignment.atY t)) (Alignment.transforms (dc w)) in
  origins (snd (Diagnostic.drawFaces Stub.fd pkg [face] Stub.world)) = [(76, 101)]
  /\ origins (snd (Facemask.drawFaces Stub.fd pkg [face] Stub.world)) = [(170, 101)].
Proof. vm_compute. split; reflexivity. Qed.

(** C6, at the scale 1.05.  [main] compares with [<]: the command line
    [-in in.jpg -out out.png -scale 1.05] passes the validation and the run
    completes, while [-scale 1.04] ends it with the message that the scale
    factor must be greater than 1.05. *)
Theorem C6_scale_105_accepted :
  let ext := Stub.externals (Stub.located 130 90) (Stub.located 128 110) 200 200 in
  F64.ltb (F64.lit 105 100) (F64.lit 105 100) = false
  /\ fst (Facemask.main (Stub.flags (F64.lit 105 100)) Stub.world) = inl tt
  /\ fst (Diagnostic.main (Stub.flags (F64.lit 105 100)) Stub.world) = inl tt
  /\ fst (Facemask.main (Stub.flags (F64.lit 104 100)) Stub.world)
     = inr (Fatal "Scale factor must be greater than 1.05").
Proof. vm_compute. repeat split; reflexivity. Qed.

(** C8, as stated, fails on two faces scoring above 5.0: the mask asset is
    then opened twice and decoded twice. *)
Lemma C8_counterexample :
  let ext := Stub.externals (Stub.located 130 90) (Stub.located 128 110) 200 200 in
  let pkg := Stub.pkg (Stub.located 130 90) (Stub.located 128 110) 200 200 in
  let faces := [Stub.face 100 100 80 10; Stub.face 300 400 90 7] in
  let evs := events (snd (Facemask.drawFaces Stub.fd pkg faces Stub.world)) in
  ~ (Alignment.maskOpens evs = 1%nat /\ Alignment.maskDecodes evs = 1%nat).
Proof. vm_compute. intros [H _]. discriminate H. Qed.

(** ** The theorems at work on the stand-ins *)

Lemma C1_rotation_angle_witness :
  let ext := Stub.externals (Stub.located 130 90) (Stub.located 128 110) 200 200 in
  let pkg := Stub.pkg (Stub.located 130 90) (Stub.located 128 110) 200 200 in
  let faces := [Stub.face 100 100 80 10; Stub.face 50 60 70 3; Stub.face 300 400 90 7] in
  let rotations (w : World) := map Alignment.angleNormalized (Alignment.transforms (dc w)) in
  rotations (snd (Facemask.drawFaces Stub.fd pkg faces Stub.world))
    = [F64.of_int 1; F64.of_int 1]
  /\ rotations (snd (Diagnostic.drawFaces Stub.fd pkg faces Stub.world))
    = [F64.of_int 1; F64.of_int 1].
Proof.
  intros ext pkg faces rotations.
  exact (C1_rotation_angle Stub.fd pkg tt [] [Byte.x89] 200 200 eq_refl eq_refl
           faces Stub.world eq_refl).
Defined.

Lemma C2_scale_factor_witness :
  let ext := Stub.externals (Stub.located 130 90) (Stub.located 128 110) 200 200 in
  let pkg := Stub.pkg (Stub.located 130 90) (Stub.located 128 110) 200 200 in
  let extents (w : World) :=
    map (fun t => (Alignment.width t, Alignment.height t)) (Alignment.transforms (dc w)) in
  (exists s',
     fst (Facemask.pass Stub.fd pkg F64.zero (Stub.face 100 100 80 10) Stub.world)
       = inl (Next s')
     /\ s' = (F64.of_int 80 / F64.of_int 200)%f64)
  /\ extents (snd (Facemask.drawFaces Stub.fd pkg
                     [Stub.face 100 100 80 10; Stub.face 5 5 250 9] Stub.world))
     = [(60, 60); (60, 60)]
  /\ extents (snd (Facemask.drawFaces Stub.fd pkg
                     [Stub.face 100 100 300 10; Stub.face 5 5 250 9] Stub.world))
     = [(0, 0); (0, 0)].
Proof.
  intros ext pkg extents.
  assert (Hdim : 0 < 200 <= GoInt.MaxInt) by (unfold GoInt.MaxInt; lia).
  destruct (C2_scale_factor Stub.fd pkg tt [] [Byte.x89] 200 200 eq_refl eq_refl
              F64.zero (Stub.face 100 100 80 10) Stub.world
              [Stub.face 100 100 300 10; Stub.face 5 5 250 9] eq_refl Hdim Hdim)
    as (Hpass & _ & Hrun).
  destruct (C2_scale_factor Stub.fd pkg tt [] [Byte.x89] 200 200 eq_refl eq_refl
              F64.zero (Stub.face 5 5 250 9) Stub.world [] eq_refl Hdim Hdim)
    as (_ & Hcarried & _).
  split; [| split].
  - destruct (Hpass eq_refl) as (s' & Hfst & Hlt & _ & _).
    exists s'. split; [exact Hfst |]. apply Hlt. left. reflexivity.
  - apply (Hcarried (Stub.face 100 100 80 10)); try reflexivity.
    + left. reflexivity.
    + cbn. lia.
  - apply Hrun. repeat constructor; cbn; lia.
Defined.

Lemma C5_end_to_end_witness :
  let ext := Stub.externals (Stub.located 130 90) (Stub.located 128 110) 200 200 in
  let pkg := Stub.pkg (Stub.located 130 90) (Stub.located 128 110) 200 200 in
  let face := Detection.mk 100 100 80 (F32.of_int 10) in
  fst (Facemask.passes Stub.fd pkg F64.zero [face] Stub.world) = inl (F64.lit 4 10, None)
  /\ Alignment.transforms (dc (snd (Facemask.drawFaces Stub.fd pkg [face] Stub.world)))
     = [Alignment.mkTransform (F64.of_int 1) 60 60 70 101].
Proof.
  intros ext pkg face.
  destruct (C5_end_to_end Stub.fd pkg tt [] [Byte.x89] Stub.world eq_refl eq_refl eq_refl
              eq_refl eq_refl eq_refl eq_refl)
    as [Hscale Hrun].
  split; [exact Hscale |].
  fold face in Hrun. rewrite Hrun, writeOutput_dc. reflexivity.
Defined.

Lemma C10_destination_not_truncated_witness :
  let ext := Stub.externals (Stub.located 130 90) (Stub.located 128 110) 200 200 in
  let pkg := Stub.pkg (Stub.located 130 90) (Stub.located 128 110) 200 200 in
  let faces := [Stub.face 100 100 80 10] in
  fs (snd (Facemask.drawFaces Stub.fd pkg faces Stub.world)) "out.png"%string
    = Some (os.RegularFile [Byte.x01; Byte.x02; Byte.x0c])
  /\ fs (snd (Diagnostic.drawFaces Stub.fd pkg faces Stub.world)) "out.png"%string
    = Some (os.RegularFile [Byte.x01; Byte.x02; Byte.x0c]).
Proof.
  intros ext pkg faces.
  destruct (C10_destination_not_truncated Stub.fd pkg tt [] [Byte.x89] 200 200
              eq_refl eq_refl faces Stub.world
              [Byte.x0a; Byte.x0b; Byte.x0c] [Byte.x01; Byte.x02] None
              eq_refl eq_refl (le_n 3))
    as (_ & _ & _ & Hmask & Hdiag).
  split; [apply Hmask | apply Hdiag]; reflexivity.
Defined.

(** ** A pass that cannot read the mask *)

Section Failures.
Context {ext : External}.
Variables (fd : faceDetector.t) (pkg : Package).

Ltac qualify w Hq :=
  destruct w as [fs0 dc0 ev0];
  unfold F32.gtb, GoFloat.gtb;
  rewrite qThresh_is_5; unfold Alignment.qualifies in Hq; rewrite Hq.

Lemma Facemask_pass_no_landmarks s face w :
  Alignment.qualifies face = true ->
  flpcs pkg "lp84" = [] ->
  Facemask.pass fd pkg s face w =
    (inr (Panic "index out of range [0] with length 0"), after w (Alignment.faceBox face) []).
Proof.
  intros Hq Hlp. unfold Facemask.pass, Facemask.qThresh. qualify w Hq.
  cbv beta iota delta [bind draw emit ret abort OpenFile index0 fs dc events].
  rewrite Hlp. cbv beta iota delta [abort]. rewrite lineWidth_is_2.
  unfold after. cbn [fs dc events]. rewrite <- !app_assoc, app_nil_r. reflexivity.
Qed.

Lemma Diagnostic_pass_no_landmarks s face w :
  Alignment.qualifies face = true ->
  flpcs pkg "lp84" = [] ->
  Diagnostic.pass fd pkg s face w =
    (inr (Panic "index out of range [0] with length 0"), after w (Alignment.faceBox face) []).
Proof.
  intros Hq Hlp. unfold Diagnostic.pass, Diagnostic.qThresh. qualify w Hq.
  cbv beta iota delta [bind draw emit ret abort OpenFile index0 fs dc events].
  rewrite Hlp. cbv beta iota delta [abort]. rewrite lineWidth_is_2.
  unfold after. cbn [fs dc events]. rewrite <- !app_assoc, app_nil_r. reflexivity.
Qed.

Variables (lp84 : FlpCascade) (more : list FlpCascade).
Hypothesis Hlp : flpcs pkg "lp84" = lp84 :: more.

Lemma Facemask_pass_mask_absent s face w :
  Alignment.qualifies face = true ->
  fs w "assets/facemask.png"%string = None ->
  Facemask.pass fd pkg s face w =
    (inl (Return (os.ENOENT "assets/facemask.png")),
     after w (Alignment.faceBox face) [EvOpenFile "assets/facemask.png" os.O_RDONLY]).
Proof.
  intros Hq Hfile. unfold Facemask.pass, Facemask.qThresh. qualify w Hq. cbn [fs] in Hfile.
  cbv beta iota delta [bind draw emit ret abort OpenFile index0 fs dc events].
  rewrite Hlp. cbv beta iota. cbv beta iota delta [os.OpenFile]. rewrite Hfile.
  change (os.has os.O_RDONLY os.O_CREATE) with false. cbv beta iota.
  rewrite lineWidth_is_2.
  unfold after. cbn [fs dc events]. rewrite <- !app_assoc. reflexivity.
Qed.

Lemma Facemask_pass_mask_directory s face w :
  Alignment.qualifies face = true ->
  fs w "assets/facemask.png"%string = Some os.Directory ->
  Facemask.pass fd pkg s face w =
    (inr (FatalErr (os.EISDIR "assets/facemask.png")),
     after w (Alignment.faceBox face) Script.maskEvents).
Proof.
  intros Hq Hfile. unfold Facemask.pass, Facemask.qThresh. qualify w Hq. cbn [fs] in Hfile.
  cbv beta iota delta [bind draw emit ret abort OpenFile index0 fs dc events].
  rewrite Hlp. cbv beta iota. cbv beta iota delta [os.OpenFile]. rewrite Hfile.
  change (os.has os.O_RDONLY os.O_RDWR) with false. cbv beta iota.
  cbv beta iota delta [os.ReadAll os.Name os.offset fs dc events]. rewrite Hfile.
  rewrite lineWidth_is_2.
  unfold after. cbn [fs dc events]. rewrite <- !app_assoc. reflexivity.
Qed.

Lemma Facemask_pass_mask_undecodable s face w data :
  Alignment.qualifies face = true ->
  maskReadable data w ->
  png_Decode data = None ->
  Facemask.pass fd pkg s face w =
    (inr (FatalErr (os.Failure "png: invalid format")),
     after w (Alignment.faceBox face) Script.maskEvents).
Proof.
  intros Hq Hfile Hdec. unfold Facemask.pass, Facemask.qThresh. qualify w Hq.
  unfold maskReadable in Hfile. cbn [fs] in Hfile.
  cbv beta iota delta [bind draw emit ret abort OpenFile index0 fs dc events].
  rewrite Hlp. cbv beta iota. cbv beta iota delta [os.OpenFile]. rewrite Hfile.
  change (os.has os.O_RDONLY os.O_TRUNC) with false. cbv beta iota.
  cbv beta iota delta [os.ReadAll os.Name os.offset fs dc events]. rewrite Hfile.
  cbv beta iota delta [skipn]. rewrite Hdec.
  rewrite lineWidth_is_2.
  unfold after. cbn [fs dc events]. rewrite <- !app_assoc. reflexivity.
Qed.

Lemma Diagnostic_pass_mask_absent s face w :
  Alignment.qualifies face = true ->
  fs w "assets/facemask.png"%string = None ->
  Diagnostic.pass fd pkg s face w =
    (inl (Return (os.ENOENT "assets/facemask.png")),
     after w (marked fd pkg lp84 face) [EvOpenFile "assets/facemask.png" os.O_RDONLY]).
Proof.
  intros Hq Hfile. unfold Diagnostic.pass, Diagnostic.qThresh. qualify w Hq. cbn [fs] in Hfile.
  cbv beta iota delta [bind draw emit ret abort OpenFile index0 fs dc events].
  rewrite Hlp. cbv beta iota. rewrite !mark_run. cbn [after fs dc events].
  cbv beta iota delta [os.OpenFile]. rewrite Hfile.
  change (os.has os.O_RDONLY os.O_CREATE) with false. cbv beta iota.
  rewrite lineWidth_is_2.
  unfold after, marked. cbn [fs dc events]. rewrite <- !app_assoc. reflexivity.
Qed.

Lemma Diagnostic_pass_mask_directory s face w :
  Alignment.qualifies face = true ->
  fs w "assets/facemask.png"%string = Some os.Directory ->
  Diagnostic.pass fd pkg s face w =
    (inr (FatalErr (os.EISDIR "assets/facemask.png")),
     after w (marked fd pkg lp84 face) Script.maskEvents).
Proof.
  intros Hq Hfile. unfold Diagnostic.pass, Diagnostic.qThresh. qualify w Hq. cbn [fs] in Hfile.
  cbv beta iota delta [bind draw emit ret abort OpenFile index0 fs dc events].
  rewrite Hlp. cbv beta iota. rewrite !mark_run. cbn [after fs dc events].
  cbv beta iota delta [os.OpenFile]. rewrite Hfile.
  change (os.has os.O_RDONLY os.O_RDWR) with false. cbv beta iota.
  cbv beta iota delta [os.ReadAll os.Name os.offset fs dc events]. rewrite Hfile.
  rewrite lineWidth_is_2.
  unfold after, marked. cbn [fs dc events]. rewrite <- !app_assoc. reflexivity.
Qed.

Lemma Diagnostic_pass_mask_undecodable s face w data :
  Alignment.qualifies face = true ->
  maskReadable data w ->
  png_Decode data = None ->
  Diagnostic.pass fd pkg s face w =
    (inr (FatalErr (os.Failure "png: invalid format")),
     after w (marked fd pkg lp84 face) Script.maskEvents).
Proof.
  intros Hq Hfile Hdec. unfold Diagnostic.pass, Diagnostic.qThresh. qualify w Hq.
  unfold maskReadable in Hfile. cbn [fs] in Hfile.
  cbv beta iota delta [bind draw emit ret abort OpenFile index0 fs dc events].
  rewrite Hlp. cbv beta iota. rewrite !mark_run. cbn [after fs dc events].
  cbv beta iota delta [os.OpenFile]. rewrite Hfile.
  change (os.has os.O_RDONLY os.O_TRUNC) with false. cbv beta iota.
  cbv beta iota delta [os.ReadAll os.Name os.offset fs dc events]. rewrite Hfile.
  cbv beta iota delta [skipn]. rewrite Hdec.
  rewrite lineWidth_is_2.
  unfold after, marked. cbn [fs dc events]. rewrite <- !app_assoc. reflexivity.
Qed.

End Failures.

(** ** What no run does *)

Lemma extends_refl w : extends w w.
Proof. exists [], []. symmetry. apply after_nil. Qed.

Lemma extends_after w ops evs : extends w (after w ops evs).
Proof. now exists ops, evs. Qed.

Lemma extends_trans w1 w2 w3 : extends w1 w2 -> extends w2 w3 -> extends w1 w3.
Proof.
  intros (o1 & e1 & ->) (o2 & e2 & ->). rewrite after_after. apply extends_after.
Qed.

Lemma extends_fs w w' : extends w w' -> fs w' = fs w.
Proof. now intros (ops & evs & ->). Qed.

Section Frame.
Context {ext : External}.
Variables (fd : faceDetector.t) (pkg : Package).

Lemma Facemask_pass_extends s face w :
  extends w (snd (Facemask.pass fd pkg s face w))
  /\ quiet (fst (Facemask.pass fd pkg s face w)).
Proof.
  destruct (Alignment.qualifies face) eqn:Hq.
  2: { rewrite Facemask_pass_skip by assumption. split; [apply extends_refl | exact I]. }
  destruct (flpcs pkg "lp84") as [| lp84 more] eqn:Hlp.
  { rewrite Facemask_pass_no_landmarks by assumption.
    split; [apply extends_after | exact I]. }
  destruct (fs w "assets/facemask.png"%string) as [[data |] |] eqn:Hfile.
  - destruct (png_Decode data) as [[dx dy] |] eqn:Hdec.
    + rewrite (Facemask_pass_qualifying fd pkg lp84 more data dx dy) by assumption.
      split; [apply extends_after | exact I].
    + rewrite (Facemask_pass_mask_undecodable fd pkg lp84 more Hlp s face w data)
        by assumption.
      split; [apply extends_after | exact I].
  - rewrite (Facemask_pass_mask_directory fd pkg lp84 more Hlp) by assumption.
    split; [apply extends_after | exact I].
  - rewrite (Facemask_pass_mask_absent fd pkg lp84 more Hlp) by assumption.
    split; [apply extends_after | exact I].
Qed.

Lemma Diagnostic_pass_extends s face w :
  extends w (snd (Diagnostic.pass fd pkg s face w))
  /\ quiet (fst (Diagnostic.pass fd pkg s face w)).
Proof.
  destruct (Alignment.qualifies face) eqn:Hq.
  2: { rewrite Diagnostic_pass_skip by assumption. split; [apply extends_refl | exact I]. }
  destruct (flpcs pkg "lp84") as [| lp84 more] eqn:Hlp.
  { rewrite Diagnostic_pass_no_landmarks by assumption.
    split; [apply extends_after | exact I]. }
  destruct (fs w "assets/facemask.png"%string) as [[data |] |] eqn:Hfile.
  - destruct (png_Decode data) as [[dx dy] |] eqn:Hdec.
    + rewrite (Diagnostic_pass_qualifying fd pkg lp84 more data dx dy) by assumption.
      split; [apply extends_after | exact I].
    + rewrite (Diagnostic_pass_mask_undecodable fd pkg lp84 more Hlp s face w data)
        by assumption.
      split; [apply extends_after | exact I].
  - rewrite (Diagnostic_pass_mask_directory fd pkg lp84 more Hlp) by assumption.
    split; [apply extends_after | exact I].
  - rewrite (Diagnostic_pass_mask_absent fd pkg lp84 more Hlp) by assumption.
    split; [apply extends_after | exact I].
Qed.

Lemma Facemask_passes_extends faces : forall s w,
  extends w (snd (Facemask.passes fd pkg s faces w))
  /\ quiet (fst (Facemask.passes fd pkg s faces w)).
Proof.
  induction faces as [| face rest IH]; intros s w; cbn [Facemask.passes].
  - split; [apply extends_refl | exact I].
  - unfold bind. destruct (Facemask_pass_extends s face w) as [Hext Hquiet].
    destruct (Facemask.pass fd pkg s face w) as [[[s' | err] | stop] w1]; cbn [fst snd] in *.
    + destruct (IH s' w1) as [Hext' Hquiet']. split; [| exact Hquiet'].
      eapply extends_trans; eassumption.
    + split; [exact Hext | exact I].
    + split; [exact Hext |]. now destruct stop.
Qed.

Lemma Diagnostic_passes_extends faces : forall s w,
  extends w (snd (Diagnostic.passes fd pkg s faces w))
  /\ quiet (fst (Diagnostic.passes fd pkg s faces w)).
Proof.
  induction faces as [| face rest IH]; intros s w; cbn [Diagnostic.passes].
  - split; [apply extends_refl | exact I].
  - unfold bind. destruct (Diagnostic_pass_extends s face w) as [Hext Hquiet].
    destruct (Diagnostic.pass fd pkg s face w) as [[[s' | err] | stop] w1]; cbn [fst snd] in *.
    + destruct (IH s' w1) as [Hext' Hquiet']. split; [| exact Hquiet'].
      eapply extends_trans; eassumption.
    + split; [exact Hext | exact I].
    + split; [exact Hext |]. now destruct stop.
Qed.

(** The tail of [drawFaces] in full: what it returns and what it leaves. *)
Lemma writeOutput_run w :
  let dest := faceDetector.destination fd in
  let evs := events w ++ [EvOpenFile dest (Z.lor os.O_CREATE os.O_RDWR)] in
  let old := contentOf (fs w) dest in
  writeOutput fd w =
  match fs w dest with
  | Some os.Directory => (inl (Some (os.EISDIR dest)), mkWorld (fs w) (dc w) evs)
  | Some (os.RegularFile _) =>
      match encoding fd (dc w) with
      | Some (enc, err) =>
          (inl err,
           mkWorld (os.put (fs w) dest (os.RegularFile (enc ++ skipn (List.length enc) old)))
             (dc w) evs)
      | None => (inl None, mkWorld (fs w) (dc w) evs)
      end
  | None =>
      match os.uncreatable (fs w) dest with
      | Some err => (inl (Some err), mkWorld (fs w) (dc w) evs)
      | None =>
          match encoding fd (dc w) with
          | Some (enc, err) =>
              (inl err,
               mkWorld (os.put (os.put (fs w) dest (os.RegularFile [])) dest (os.RegularFile enc))
                 (dc w) evs)
          | None => (inl None, mkWorld (os.put (fs w) dest (os.RegularFile [])) (dc w) evs)
          end
      end
  end.
Proof.
  intros dest evs old. unfold old, contentOf, evs, encoding. fold dest.
  destruct w as [f d e]. cbn [fs dc events].
  unfold writeOutput, OpenFile, emit, Write, ret, bind. cbn [fs dc events].
  unfold os.OpenFile. fold dest.
  change (os.has (Z.lor os.O_CREATE os.O_RDWR) os.O_TRUNC) with false.
  change (os.has (Z.lor os.O_CREATE os.O_RDWR) os.O_CREATE) with true.
  change (os.has (Z.lor os.O_CREATE os.O_RDWR) os.O_RDWR) with true.
  destruct (f dest) as [[content |] |] eqn:Hdest; cbn [os.Name fs dc events].
  - destruct (_ || _).
    + destruct (jpeg_Encode d 100) as [bytes err].
      unfold os.Write. cbn [fs dc events os.Name os.offset]. rewrite Hdest. reflexivity.
    + destruct (String.eqb _ _); [| reflexivity].
      destruct (png_Encode d) as [bytes err].
      unfold os.Write. cbn [fs dc events os.Name os.offset]. rewrite Hdest. reflexivity.
  - reflexivity.
  - destruct (os.uncreatable f dest) as [failure |]; [reflexivity |].
    cbn [os.Name fs dc events]. destruct (_ || _).
    + destruct (jpeg_Encode d 100) as [bytes err].
      unfold os.Write. cbn [fs dc events os.Name os.offset].
      rewrite put_same. unfold os.overwrite. cbn [firstn app skipn].
      rewrite skipn_nil, app_nil_r. reflexivity.
    + destruct (String.eqb _ _); [| reflexivity].
      destruct (png_Encode d) as [bytes err].
      unfold os.Write. cbn [fs dc events os.Name os.offset].
      rewrite put_same. unfold os.overwrite. cbn [firstn app skipn].
      rewrite skipn_nil, app_nil_r. reflexivity.
Qed.

Lemma put_other fs0 name n other : other <> name -> os.put fs0 name n other = fs0 other.
Proof.
  intros Hne. unfold os.put. destruct (String.eqb_spec other name); [contradiction | reflexivity].
Qed.

Lemma writeOutput_frame w name :
  name <> faceDetector.destination fd ->
  fs (snd (writeOutput fd w)) name = fs w name.
Proof.
  intros Hne. rewrite writeOutput_run. cbv zeta.
  destruct (fs w (faceDetector.destination fd)) as [[content |] |];
    [| | destruct (os.uncreatable _ _) as [failure |]];
    try destruct (encoding fd (dc w)) as [[enc err] |];
    cbn [snd fs]; rewrite ?put_other by assumption; reflexivity.
Qed.

Lemma writeOutput_quiet w : exists r, fst (writeOutput fd w) = inl r.
Proof.
  rewrite writeOutput_run. cbv zeta.
  destruct (fs w (faceDetector.destination fd)) as [[content |] |];
    [| | destruct (os.uncreatable _ _) as [failure |]];
    try destruct (encoding fd (dc w)) as [[enc err] |];
    cbn [fst]; eexists; reflexivity.
Qed.

End Frame.

(** ** Faces that do not count, and the first face that stops the run *)

(** X1. [inSlice] answers true exactly for the items of the slice. *)
Theorem X1_inSlice_In item slice : inSlice item slice = true <-> In item slice.
Proof.
  induction slice as [| it rest IH]; cbn [inSlice In].
  - split; [discriminate | contradiction].
  - destruct (String.eqb_spec it item) as [-> | Hne].
    + split; auto.
    + rewrite IH. split; [auto | intros [Heq | Hin]; [contradiction | exact Hin]].
Qed.

Section Early.
Context {ext : External}.
Variables (fd : faceDetector.t) (pkg : Package).

Lemma Facemask_passes_filter faces : forall s w,
  Facemask.passes fd pkg s faces w
  = Facemask.passes fd pkg s (filter Alignment.qualifies faces) w.
Proof.
  induction faces as [| face rest IH]; intros s w; [reflexivity |].
  cbn [filter]. destruct (Alignment.qualifies face) eqn:Hq; cbn [Facemask.passes]; unfold bind.
  - destruct (Facemask.pass fd pkg s face w) as [[[s' | err] | stop] w1]; auto.
  - rewrite Facemask_pass_skip by assumption. apply IH.
Qed.

Lemma Diagnostic_passes_filter faces : forall s w,
  Diagnostic.passes fd pkg s faces w
  = Diagnostic.passes fd pkg s (filter Alignment.qualifies faces) w.
Proof.
  induction faces as [| face rest IH]; intros s w; [reflexivity |].
  cbn [filter]. destruct (Alignment.qualifies face) eqn:Hq; cbn [Diagnostic.passes]; unfold bind.
  - destruct (Diagnostic.pass fd pkg s face w) as [[[s' | err] | stop] w1]; auto.
  - rewrite Diagnostic_pass_skip by assumption. apply IH.
Qed.

(** X2. Detections that do not score above 5.0 have no effect on a run
    whatever: [drawFaces] on a list of detections returns what it returns on
    the detections of the list scoring above 5.0, and leaves the same world. *)
Theorem X2_sub_threshold_ignored faces w :
  Facemask.drawFaces fd pkg faces w
    = Facemask.drawFaces fd pkg (filter Alignment.qualifies faces) w
  /\ Diagnostic.drawFaces fd pkg faces w
    = Diagnostic.drawFaces fd pkg (filter Alignment.qualifies faces) w.
Proof.
  unfold Facemask.drawFaces, Diagnostic.drawFaces, bind.
  now rewrite <- Facemask_passes_filter, <- Diagnostic_passes_filter.
Qed.

Lemma filter_first skipped face rest :
  Forall (fun f => Alignment.qualifies f = false) skipped ->
  Alignment.qualifies face = true ->
  filter Alignment.qualifies (skipped ++ face :: rest)
  = face :: filter Alignment.qualifies rest.
Proof.
  intros Hskip Hq. rewrite filter_app. cbn [filter]. rewrite Hq.
  replace (filter Alignment.qualifies skipped) with (@nil Detection.t); [reflexivity |].
  induction Hskip as [| f l Hf _ IH]; [reflexivity |]. cbn [filter]. now rewrite Hf.
Qed.

(** X3. [drawFaces] changes no file but the destination, takes nothing off
    the canvas and nothing off the event log, however the run ends. *)
Theorem X3_only_the_destination_is_written faces w :
  leavesAlone (faceDetector.destination fd) w (snd (Facemask.drawFaces fd pkg faces w))
  /\ leavesAlone (faceDetector.destination fd) w (snd (Diagnostic.drawFaces fd pkg faces w)).
Proof.
  assert (Htail : forall w0 w1, extends w0 w1 ->
            leavesAlone (faceDetector.destination fd) w0 (snd (writeOutput fd w1))).
  { intros w0 w1 (ops & evs & ->). split; [| split].
    - intros name Hne. now rewrite writeOutput_frame.
    - exists ops. now rewrite writeOutput_dc.
    - eexists. rewrite writeOutput_events. cbn [after events].
      rewrite <- app_assoc. reflexivity. }
  assert (Hstop : forall w0 w1, extends w0 w1 ->
            leavesAlone (faceDetector.destination fd) w0 w1).
  { intros w0 w1 (ops & evs & ->). split; [| split]; cbn [after fs dc events]; eauto. }
  split.
  - unfold Facemask.drawFaces, bind.
    destruct (Facemask_passes_extends fd pkg faces F64.zero w) as [Hext _].
    destruct (Facemask.passes fd pkg F64.zero faces w) as [[[s [err |]] | stop] w1];
      cbn [fst snd] in *; auto.
  - unfold Diagnostic.drawFaces, bind.
    destruct (Diagnostic_passes_extends fd pkg faces F64.zero w) as [Hext _].
    destruct (Diagnostic.passes fd pkg F64.zero faces w) as [[[s [err |]] | stop] w1];
      cbn [fst snd] in *; auto.
Qed.

End Early.

Section Stops.
Context {ext : External}.
Variables (fd : faceDetector.t) (pkg : Package).


Lemma Facemask_aborts_at skipped face rest w stop w1 :
  Forall (fun f => Alignment.qualifies f = false) skipped ->
  Alignment.qualifies face = true ->
  Facemask.pass fd pkg F64.zero face w = (inr stop, w1) ->
  Facemask.drawFaces fd pkg (skipped ++ face :: rest) w = (inr stop, w1).
Proof.
  intros Hskip Hq Hpass. unfold Facemask.drawFaces, bind.
  rewrite Facemask_passes_filter, filter_first by assumption.
  cbn [Facemask.passes]. unfold bind. now rewrite Hpass.
Qed.


Lemma Diagnostic_aborts_at skipped face rest w stop w1 :
  Forall (fun f => Alignment.qualifies f = false) skipped ->
  Alignment.qualifies face = true ->
  Diagnostic.pass fd pkg F64.zero face w = (inr stop, w1) ->
  Diagnostic.drawFaces fd pkg (skipped ++ face :: rest) w = (inr stop, w1).
Proof.
  intros Hskip Hq Hpass. unfold Diagnostic.drawFaces, bind.
  rewrite Diagnostic_passes_filter, filter_first by assumption.
  cbn [Diagnostic.passes]. unfold bind. now rewrite Hpass.
Qed.

(** X4. Without the [lp84] cascade among the package's landmark cascades,
    the first face scoring above 5.0 makes [drawFaces] panic on the index,
    once the outline of that face is drawn and before the mask asset is
    opened; no file is written, the faces after it are not looked at. *)
Theorem X4_no_lp84_cascade_panics skipped face rest w :
  flpcs pkg "lp84" = [] ->
  Forall (fun f => Alignment.qualifies f = false) skipped ->
  Alignment.qualifies face = true ->
  let stopped :=
    (inr (Panic "index out of range [0] with length 0"),
     after w (Alignment.faceBox face) []) in
  Facemask.drawFaces fd pkg (skipped ++ face :: rest) w = stopped
  /\ Diagnostic.drawFaces fd pkg (skipped ++ face :: rest) w = stopped.
Proof.
  intros Hlp Hskip Hq stopped. split.
  - apply Facemask_aborts_at; try assumption. now apply Facemask_pass_no_landmarks.
  - apply Diagnostic_aborts_at; try assumption. now apply Diagnostic_pass_no_landmarks.
Qed.

Variables (lp84 : FlpCascade) (more : list FlpCascade).
Hypothesis Hlp : flpcs pkg "lp84" = lp84 :: more.



End Stops.

(** ** What the destination holds after a run *)

Section Destination.
Context {ext : External}.
Variables (fd : faceDetector.t) (pkg : Package).

(** A run that reports success went through the tail of [drawFaces], on a
    world with the files of the start. *)
Lemma Facemask_success faces w :
  fst (Facemask.drawFaces fd pkg faces w) = inl None ->
  exists w1, fs w1 = fs w
             /\ Facemask.drawFaces fd pkg faces w = writeOutput fd w1.
Proof.
  unfold Facemask.drawFaces, bind.
  destruct (Facemask_passes_extends fd pkg faces F64.zero w) as [Hext _].
  destruct (Facemask.passes fd pkg F64.zero faces w) as [[[s [err |]] | stop] w1];
    cbn [fst snd] in *; try discriminate.
  intros _. exists w1. split; [now apply extends_fs | reflexivity].
Qed.

Lemma Diagnostic_success faces w :
  fst (Diagnostic.drawFaces fd pkg faces w) = inl None ->
  exists w1, fs w1 = fs w
             /\ Diagnostic.drawFaces fd pkg faces w = writeOutput fd w1.
Proof.
  unfold Diagnostic.drawFaces, bind.
  destruct (Diagnostic_passes_extends fd pkg faces F64.zero w) as [Hext _].
  destruct (Diagnostic.passes fd pkg F64.zero faces w) as [[[s [err |]] | stop] w1];
    cbn [fst snd] in *; try discriminate.
  intros _. exists w1. split; [now apply extends_fs | reflexivity].
Qed.

Lemma writeOutput_success w1 (files : os.FileSystem) :
  fs w1 = files ->
  fst (writeOutput fd w1) = inl None ->
  let w' := snd (writeOutput fd w1) in
  let dest := faceDetector.destination fd in
  let old := contentOf files dest in
  match encoding fd (dc w') with
  | Some (enc, err) =>
      err = None
      /\ fs w' dest = Some (os.RegularFile (enc ++ skipn (List.length enc) old))
  | None => fs w' dest = Some (os.RegularFile old)
  end.
Proof.
  intros <- Hok w' dest old. unfold w', old, contentOf.
  rewrite writeOutput_dc. rewrite writeOutput_run in *. cbv zeta in *. fold dest in Hok |- *.
  unfold contentOf in *.
  destruct (fs w1 dest) as [[content |] |] eqn:Hdest.
  - destruct (encoding fd (dc w1)) as [[enc err] |]; cbn [fst snd fs] in *.
    + split; [congruence | apply put_same].
    + exact Hdest.
  - discriminate.
  - destruct (os.uncreatable (fs w1) dest) as [failure |]; [discriminate |].
    destruct (encoding fd (dc w1)) as [[enc err] |]; cbn [fst snd fs] in *.
    + split; [congruence |]. rewrite put_same, skipn_nil, app_nil_r. reflexivity.
    + apply put_same.
Qed.

(** X7. After a run of [drawFaces] that reports success, the destination
    holds the bytes the codec of its extension wrote for the final canvas,
    followed by whatever the file held before beyond that length: exactly the
    encoding when the file did not exist or was no longer than the encoding. *)
Theorem X7_destination_after_success faces w enc err :
  let dest := faceDetector.destination fd in
  let old := contentOf (fs w) dest in
  let holds (w' : World) (content : list Byte.byte) :=
    fs w' dest = Some (os.RegularFile content) in
  let written (w' : World) :=
    err = None
    /\ holds w' (enc ++ skipn (List.length enc) old)
    /\ ((List.length old <= List.length enc)%nat -> holds w' enc) in
  (fst (Facemask.drawFaces fd pkg faces w) = inl None ->
   encoding fd (dc (snd (Facemask.drawFaces fd pkg faces w))) = Some (enc, err) ->
   written (snd (Facemask.drawFaces fd pkg faces w)))
  /\ (fst (Diagnostic.drawFaces fd pkg faces w) = inl None ->
      encoding fd (dc (snd (Diagnostic.drawFaces fd pkg faces w))) = Some (enc, err) ->
      written (snd (Diagnostic.drawFaces fd pkg faces w))).
Proof.
  intros dest old holds written.
  assert (Hgen : forall w1, fs w1 = fs w ->
            fst (writeOutput fd w1) = inl None ->
            encoding fd (dc (snd (writeOutput fd w1))) = Some (enc, err) ->
            written (snd (writeOutput fd w1))).
  { intros w1 Hfs Hok Henc.
    pose proof (writeOutput_success w1 (fs w) Hfs Hok) as H. cbv zeta in H.
    rewrite Henc in H. destruct H as [Herr Hfile]. unfold written, holds.
    split; [exact Herr |]. split; [exact Hfile |].
    intros Hlen. fold dest old in Hfile. rewrite Hfile.
    now rewrite skipn_all2, app_nil_r by exact Hlen. }
  split; intros Hok.
  - destruct (Facemask_success faces w Hok) as (w1 & Hfs & Heq). rewrite Heq in *. now apply Hgen.
  - destruct (Diagnostic_success faces w Hok) as (w1 & Hfs & Heq). rewrite Heq in *. now apply Hgen.
Qed.

(** X8. The switch at the end of [drawFaces] has a codec for the extensions
    [main] accepts and for no other.  After a run that returns nil the
    destination starts with the bytes of the JPEG encoder (quality 100) when
    its extension is .jpg or .jpeg, and with those of the PNG encoder when it
    is .png; with any other extension nothing has been written: the
    destination is left with the content it had, created empty if it did not
    exist. *)
Theorem X8_unhandled_extension_writes_nothing faces w :
  let dest := faceDetector.destination fd in
  let old := contentOf (fs w) dest in
  let outcome (r : (option os.error + Abort) * World) :=
    let written (enc : list Byte.byte) :=
      fs (snd r) dest = Some (os.RegularFile (enc ++ skipn (List.length enc) old)) in
    fst r = inl None ->
    (filepath.Ext dest = ".jpg"%string \/ filepath.Ext dest = ".jpeg"%string ->
     written (fst (jpeg_Encode (dc (snd r)) 100)))
    /\ (filepath.Ext dest = ".png"%string -> written (fst (png_Encode (dc (snd r)))))
    /\ (inSlice (filepath.Ext dest) fileTypes = false ->
        fs (snd r) dest = Some (os.RegularFile old)) in
  outcome (Facemask.drawFaces fd pkg faces w)
  /\ outcome (Diagnostic.drawFaces fd pkg faces w).
Proof.
  intros dest old outcome.
  assert (Hgen : forall w1, fs w1 = fs w -> outcome (writeOutput fd w1)).
  { intros w1 Hfs Hok.
    pose proof (writeOutput_success w1 (fs w) Hfs Hok) as H. cbv zeta in H.
    fold dest old in H. unfold encoding in H. fold dest in H.
    split; [| split].
    - intros Hjpeg.
      replace (String.eqb (filepath.Ext dest) ".jpg" || String.eqb (filepath.Ext dest) ".jpeg")
        with true in H
        by (symmetry; apply orb_true_iff;
            destruct Hjpeg as [-> | ->]; [left | right]; reflexivity).
      destruct (jpeg_Encode _ 100) as [enc err]. exact (proj2 H).
    - intros Hpng. rewrite Hpng in H. cbn [String.eqb Ascii.eqb Bool.eqb orb] in H.
      destruct (png_Encode _) as [enc err]. exact (proj2 H).
    - intros Hext. unfold fileTypes in Hext. cbn [inSlice] in Hext.
      rewrite (String.eqb_sym ".jpg"), (String.eqb_sym ".jpeg"), (String.eqb_sym ".png")
        in Hext.
      destruct (String.eqb (filepath.Ext dest) ".jpg"); [discriminate |].
      destruct (String.eqb (filepath.Ext dest) ".jpeg"); [discriminate |].
      destruct (String.eqb (filepath.Ext dest) ".png"); [discriminate |].
      exact H. }
  split; intros Hok.
  - destruct (Facemask_success faces w Hok) as (w1 & Hfs & Heq).
    rewrite Heq in Hok |- *. now apply Hgen.
  - destruct (Diagnostic_success faces w Hok) as (w1 & Hfs & Heq).
    rewrite Heq in Hok |- *. now apply Hgen.
Qed.

End Destination.

Section Directory.
Context {ext : External}.
Variables (fd : faceDetector.t) (pkg : Package).

(** X9. With a directory in the place of the destination, no run of
    [drawFaces] reports success and no file is changed; a run whose loop
    completes returns the error of opening the destination, after all the
    drawing is done. *)
Theorem X9_destination_is_a_directory faces w :
  let dest := faceDetector.destination fd in
  fs w dest = Some os.Directory ->
  (fst (Facemask.drawFaces fd pkg faces w) <> inl None
   /\ fs (snd (Facemask.drawFaces fd pkg faces w)) = fs w)
  /\ (fst (Diagnostic.drawFaces fd pkg faces w) <> inl None
      /\ fs (snd (Diagnostic.drawFaces fd pkg faces w)) = fs w)
  /\ (forall lp84 more data dx dy,
        flpcs pkg "lp84" = lp84 :: more -> png_Decode data = Some (dx, dy) ->
        maskReadable data w ->
        fst (Facemask.drawFaces fd pkg faces w) = inl (Some (os.EISDIR dest))
        /\ fst (Diagnostic.drawFaces fd pkg faces w) = inl (Some (os.EISDIR dest))).
Proof.
  intros dest Hdir.
  assert (Htail : forall w1, fs w1 = fs w ->
            writeOutput fd w1 =
            (inl (Some (os.EISDIR dest)),
             mkWorld (fs w1) (dc w1)
               (events w1 ++ [EvOpenFile dest (Z.lor os.O_CREATE os.O_RDWR)]))).
  { intros w1 Hfs. rewrite writeOutput_run. cbv zeta. fold dest. now rewrite Hfs, Hdir. }
  split; [| split].
  - unfold Facemask.drawFaces, bind.
    destruct (Facemask_passes_extends fd pkg faces F64.zero w) as [Hext _].
    apply extends_fs in Hext.
    destruct (Facemask.passes fd pkg F64.zero faces w) as [[[s [err |]] | stop] w1];
      cbn [fst snd] in *; try (split; [discriminate | assumption]).
    rewrite Htail by assumption. cbn [fst snd fs]. split; [discriminate | assumption].
  - unfold Diagnostic.drawFaces, bind.
    destruct (Diagnostic_passes_extends fd pkg faces F64.zero w) as [Hext _].
    apply extends_fs in Hext.
    destruct (Diagnostic.passes fd pkg F64.zero faces w) as [[[s [err |]] | stop] w1];
      cbn [fst snd] in *; try (split; [discriminate | assumption]).
    rewrite Htail by assumption. cbn [fst snd fs]. split; [discriminate | assumption].
  - intros lp84 more data dx dy Hlp Hdec Hfile. split.
    + rewrite (Facemask_drawFaces_run fd pkg lp84 more data dx dy Hlp Hdec) by assumption.
      now rewrite Htail.
    + rewrite (Diagnostic_drawFaces_run fd pkg lp84 more data dx dy Hlp Hdec) by assumption.
      now rewrite Htail.
Qed.

End Directory.

Section Revisions.
Context {ext : External}.
Variables (fd : faceDetector.t) (pkg : Package).
Variables (lp84 : FlpCascade) (more : list FlpCascade) (data : list Byte.byte) (dx dy : Z).
Hypothesis Hlp : flpcs pkg "lp84" = lp84 :: more.
Hypothesis Hdec : png_Decode data = Some (dx, dy).

Lemma unplaced_run (step1 step2 : float64 -> Detection.t -> list gg.Op) faces :
  let unplaced t :=
    (Alignment.angleNormalized t, Alignment.width t, Alignment.height t, Alignment.atY t) in
  (forall s face, map unplaced (Alignment.transforms (step1 s face))
                  = map unplaced (Alignment.transforms (step2 s face))) ->
  forall s, map unplaced (Alignment.transforms (Script.run dx dy step1 s faces))
            = map unplaced (Alignment.transforms (Script.run dx dy step2 s faces)).
Proof.
  intros unplaced Hstep. induction faces as [| face rest IH]; intros s; [reflexivity |].
  cbn [Script.run]. destruct (Alignment.qualifies face); [| apply IH].
  now rewrite !transforms_app, !map_app, Hstep, IH.
Qed.

(** X10. The two revisions of [drawFaces] give every mask the same angle,
    the same width and height and the same vertical origin, and read the mask
    asset alike; they differ in the horizontal origin, in the markers and in
    what is printed. *)
Theorem X10_revisions_differ_in_x_only faces w :
  maskReadable data w ->
  let unplaced t :=
    (Alignment.angleNormalized t, Alignment.width t, Alignment.height t, Alignment.atY t) in
  let masks (w' : World) := map unplaced (Alignment.transforms (dc w')) in
  let reads (w' : World) :=
    filter (fun ev => match ev with EvPrintln _ => false | _ => true end) (events w') in
  masks (snd (Facemask.drawFaces fd pkg faces w))
    = masks (snd (Diagnostic.drawFaces fd pkg faces w))
  /\ (reads w = events w ->
      events (snd (Facemask.drawFaces fd pkg faces w))
      = reads (snd (Diagnostic.drawFaces fd pkg faces w))).
Proof.
  intros Hfile unplaced masks reads. unfold masks, reads.
  rewrite (Facemask_drawFaces_run fd pkg lp84 more data dx dy Hlp Hdec) by assumption.
  rewrite (Diagnostic_drawFaces_run fd pkg lp84 more data dx dy Hlp Hdec) by assumption.
  rewrite !writeOutput_dc, !writeOutput_events. unfold after. cbn [dc events]. split.
  - rewrite !transforms_app, !map_app. f_equal.
    apply unplaced_run. intros s face.
    now rewrite transforms_facemaskOps, transforms_diagnosticOps.
  - intros Hreads. rewrite !filter_app, Hreads. cbn [filter]. do 2 f_equal.
    generalize F64.zero. induction faces as [| face rest IH]; intros s; [reflexivity |].
    cbn [Script.run]. destruct (Alignment.qualifies face); [| apply IH].
    rewrite filter_app, <- IH. reflexivity.
Qed.

End Revisions.

(** ** Detection, and the validation of the command line *)

Section Detect.
Context {ext : External}.

Lemma GetImage_run input w :
  GetImage input w =
  (inl match fs w input with
       | Some (os.RegularFile data) =>
           match image_Decode data with
           | Some bounds => inl (Decoded data, bounds)
           | None => inr (os.Failure "image: unknown format")
           end
       | Some os.Directory => inr (os.EISDIR input)
       | None => inr (os.ENOENT input)
       end, w).
Proof.
  unfold GetImage, ReadFile, bind, ret.
  destruct (fs w input) as [[data |] |]; [| reflexivity | reflexivity].
  now destruct (image_Decode data).
Qed.

(** The ways [detectFaces] ends and what it leaves. *)
Lemma detectFaces_outcome fd source w :
  let r := detectFaces fd source w in
  fs (snd r) = fs w
  /\ events (snd r) = events w
  /\ quiet (fst r)
  /\ (forall data cols rows,
        fs w source = Some (os.RegularFile data) ->
        image_Decode data = Some (cols, rows) ->
        dc (snd r) = [gg.NewContext cols rows; gg.DrawImage (Decoded data) 0 0])
  /\ ((forall data, fs w source = Some (os.RegularFile data) -> image_Decode data = None) ->
      snd r = w /\ exists err, fst r = inl (inr err)).
Proof.
  intros r. remember (detectFaces fd source w) as res eqn:Hres. subst r.
  unfold detectFaces in Hres. unfold bind at 1 in Hres. rewrite GetImage_run in Hres.
  assert (Hfail : forall err,
            res = (inl (inr err), w) ->
            (forall data cols rows,
               fs w source = Some (os.RegularFile data) ->
               image_Decode data = Some (cols, rows) -> False) ->
            fs (snd res) = fs w /\ events (snd res) = events w
            /\ quiet (fst res)
            /\ (forall data cols rows,
                  fs w source = Some (os.RegularFile data) ->
                  image_Decode data = Some (cols, rows) ->
                  dc (snd res) = [gg.NewContext cols rows; gg.DrawImage (Decoded data) 0 0])
            /\ ((forall data, fs w source = Some (os.RegularFile data) ->
                              image_Decode data = None) ->
                snd res = w /\ exists err, fst res = inl (inr err))).
  { intros err -> Hno. cbn [fst snd]. split; [reflexivity |]. split; [reflexivity |].
    split; [exact I |]. split.
    - intros data cols rows Hd Hi. now elim (Hno data cols rows).
    - intros _. split; [reflexivity | eexists; reflexivity]. }
  destruct (fs w source) as [[data |] |] eqn:Hsrc.
  2, 3: eapply Hfail; [exact Hres | intros; discriminate].
  destruct (image_Decode data) as [[cols rows] |] eqn:Himg.
  2: { eapply Hfail; [exact Hres |]. intros d c r0 Hd Hi. injection Hd as <-. congruence. }
  clear Hfail.
  assert (Hrest :
    forall k : M ((list Detection.t * Package) + os.error),
      (forall w0, fs (snd (k w0)) = fs w0 /\ events (snd (k w0)) = events w0
                  /\ dc (snd (k w0)) = dc w0 /\ quiet (fst (k w0))) ->
      let r0 := (NewContext cols rows ;; draw (gg.DrawImage (Decoded data) 0 0) ;; k) w in
      fs (snd r0) = fs w /\ events (snd r0) = events w /\ quiet (fst r0)
      /\ dc (snd r0) = [gg.NewContext cols rows; gg.DrawImage (Decoded data) 0 0]).
  { intros k Hk r0. unfold r0, bind, NewContext, draw. cbn [fs dc events].
    match goal with |- context [k ?w0] => destruct (Hk w0) as (Hf & He & Hd & Hv) end.
    cbn [fs dc events app] in *. repeat split; assumption. }
  cbn beta iota in Hres.
  match type of Hres with
  | _ = (NewContext cols rows ;; draw _ ;; ?k) w => specialize (Hrest k)
  end.
  cbv zeta in Hrest. rewrite <- Hres in Hrest.
  destruct Hrest as (Hf & He & Hv & Hd).
  { intros w0. unfold bind, ReadFile, call, ret, abort.
    destruct (fs w0 (faceDetector.faceCascade fd)) as [[c1 |] |]; cbn [fst snd];
      try (repeat split; exact I).
    destruct (Unpack c1) as [[classifier | err] | msg]; cbn [fst snd];
      try (repeat split; exact I).
    destruct (fs w0 (faceDetector.eyesCascade fd)) as [[c2 |] |]; cbn [fst snd];
      try (repeat split; exact I).
    destruct (UnpackCascade c2) as [[pupils | err] | msg]; cbn [fst snd];
      try (repeat split; exact I).
    destruct (ReadCascadeDir (fs w0) (faceDetector.flplocDir fd)) as [[landmarks | err] | msg];
      cbn [fst snd]; try (repeat split; exact I).
    match goal with |- context [RunCascade ?c ?params ?angle] =>
      destruct (RunCascade c params angle) as [raw | msg] end; cbn [fst snd];
      try (repeat split; exact I).
    match goal with |- context [ClusterDetections ?c ?found ?iou] =>
      destruct (ClusterDetections c found iou) as [faces | msg] end; cbn [fst snd];
      repeat split; exact I. }
  split; [exact Hf |]. split; [exact He |]. split; [exact Hv |]. split.
  - intros data0 cols0 rows0 Hd0 Hi0. injection Hd0 as <-. rewrite Himg in Hi0.
    injection Hi0 as <- <-. exact Hd.
  - intros Hno. specialize (Hno data eq_refl). congruence.
Qed.


End Detect.

Section Validation.
Context {ext : External}.

Lemma length_zero (s : string) : (String.length s =? 0)%nat = true <-> s = ""%string.
Proof. destruct s; cbn; split; congruence. Qed.

Lemma Facemask_drawFaces_quiet fd pkg faces w :
  quiet (fst (Facemask.drawFaces fd pkg faces w)).
Proof.
  unfold Facemask.drawFaces, bind.
  destruct (Facemask_passes_extends fd pkg faces F64.zero w) as [_ Hquiet].
  destruct (Facemask.passes fd pkg F64.zero faces w) as [[[s [err |]] | stop] w1];
    cbn [fst snd] in *; [exact I | | exact Hquiet].
  destruct (writeOutput_quiet fd w1) as [r ->]. exact I.
Qed.

Lemma Diagnostic_drawFaces_quiet fd pkg faces w :
  quiet (fst (Diagnostic.drawFaces fd pkg faces w)).
Proof.
  unfold Diagnostic.drawFaces, bind.
  destruct (Diagnostic_passes_extends fd pkg faces F64.zero w) as [_ Hquiet].
  destruct (Diagnostic.passes fd pkg F64.zero faces w) as [[[s [err |]] | stop] w1];
    cbn [fst snd] in *; [exact I | | exact Hquiet].
  destruct (writeOutput_quiet fd w1) as [r ->]. exact I.
Qed.


(** How [main] ends, over any [drawFaces] that ends on no message. *)
Lemma main_outcome (drawFaces : faceDetector.t -> Package -> list Detection.t -> M (option os.error))
    flags w :
  (forall fd pkg faces w0, quiet (fst (drawFaces fd pkg faces w0))) ->
  let dest := Flags.destination flags in
  if (String.length (Flags.source flags) =? 0)%nat || (String.length dest =? 0)%nat
  then main drawFaces flags w = (inr (Fatal usage), w)
  else if negb (inSlice (filepath.Ext dest) fileTypes)
  then main drawFaces flags w = (inr (Fatal (unsupported (filepath.Ext dest))), w)
  else if SFltb (Flags.scaleFactor flags) (F64.lit 105 100)
  then main drawFaces flags w = (inr (Fatal scaleTooSmall), w)
  else quiet (fst (main drawFaces flags w)).
Proof.
  intros Hquiet dest. unfold main. fold dest.
  destruct (_ || _); [reflexivity |].
  change [".jpg"; ".jpeg"; ".png"]%string with fileTypes.
  destruct (negb _); [reflexivity |].
  change (F64.ltb (Flags.scaleFactor flags) (F64.lit 105 100))
    with (SFltb (Flags.scaleFactor flags) (F64.lit 105 100)).
  destruct (SFltb _ _); [reflexivity |].
  unfold bind.
  match goal with |- context [detectFaces ?fd ?src w] =>
    destruct (detectFaces_outcome fd src w) as (_ & _ & Hv & _);
    destruct (detectFaces fd src w) as [[[[faces pkg] | err] | stop] w1]
  end; cbn [fst] in *; [| exact I | exact Hv].
  match goal with |- context [drawFaces ?fd pkg faces w1] =>
    specialize (Hquiet fd pkg faces w1);
    destruct (drawFaces fd pkg faces w1) as [[[err |] | stop] w2]
  end; cbn [fst] in *; try exact I. exact Hquiet.
Qed.

End Validation.

Section CommandLine.
Context {ext : External}.

(** X13. With a source, a destination and a supported extension given, [main]
    ends the process on the scale message exactly when the scale factor
    compares below 1.05 as a [float64]: the value 1.05, every value above it
    and a NaN go on to the detection. *)
Theorem X13_scale_below_105_is_rejected flags w :
  Flags.source flags <> ""%string ->
  Flags.destination flags <> ""%string ->
  inSlice (filepath.Ext (Flags.destination flags)) fileTypes = true ->
  let below := SFltb (Flags.scaleFactor flags) (F64.lit 105 100) in
  (fst (Facemask.main flags w) = inr (Fatal scaleTooSmall) <-> below = true)
  /\ (fst (Diagnostic.main flags w) = inr (Fatal scaleTooSmall) <-> below = true)
  /\ (Flags.scaleFactor flags = S754_nan -> below = false).
Proof.
  intros Hsrc Hdst Hext below.
  assert (Hgen : forall drawFaces,
            (forall fd pkg faces w0, quiet (fst (drawFaces fd pkg faces w0))) ->
            (fst (main drawFaces flags w) = inr (Fatal scaleTooSmall) <-> below = true)).
  { intros drawFaces Hquiet.
    pose proof (main_outcome drawFaces flags w Hquiet) as H. cbv zeta in H.
    replace (String.length (Flags.source flags) =? 0)%nat with false in H.
    2: { symmetry. apply not_true_is_false. intros Hz. now apply length_zero in Hz. }
    replace (String.length (Flags.destination flags) =? 0)%nat with false in H.
    2: { symmetry. apply not_true_is_false. intros Hz. now apply length_zero in Hz. }
    rewrite Hext in H. cbn [orb negb] in H. fold below in H.
    destruct below.
    - rewrite H. split; reflexivity.
    - split; [| discriminate]. intros Hmsg. rewrite Hmsg in H. contradiction. }
  split; [| split].
  - apply Hgen, Facemask_drawFaces_quiet.
  - apply Hgen, Diagnostic_drawFaces_quiet.
  - unfold below. now intros ->.
Qed.

(** X14. With the command line accepted, a source that does not exist ends
    the process with the error of opening it; nothing has been drawn and no
    file, the destination included, has been created or written. *)
Theorem X14_missing_source_is_fatal flags w :
  Flags.source flags <> ""%string ->
  Flags.destination flags <> ""%string ->
  inSlice (filepath.Ext (Flags.destination flags)) fileTypes = true ->
  SFltb (Flags.scaleFactor flags) (F64.lit 105 100) = false ->
  fs w (Flags.source flags) = None ->
  Facemask.main flags w = (inr (FatalErr (os.ENOENT (Flags.source flags))), w)
  /\ Diagnostic.main flags w = (inr (FatalErr (os.ENOENT (Flags.source flags))), w).
Proof.
  intros Hsrc Hdst Hext Hscale Hfile.
  assert (Hgen : forall drawFaces,
            main drawFaces flags w = (inr (FatalErr (os.ENOENT (Flags.source flags))), w)).
  { intros drawFaces. unfold main.
    replace (String.length (Flags.source flags) =? 0)%nat with false.
    2: { symmetry. apply not_true_is_false. intros Hz. now apply length_zero in Hz. }
    replace (String.length (Flags.destination flags) =? 0)%nat with false.
    2: { symmetry. apply not_true_is_false. intros Hz. now apply length_zero in Hz. }
    change [".jpg"; ".jpeg"; ".png"]%string with fileTypes. rewrite Hext.
    change (F64.ltb (Flags.scaleFactor flags) (F64.lit 105 100))
      with (SFltb (Flags.scaleFactor flags) (F64.lit 105 100)).
    rewrite Hscale. cbn [orb negb].
    unfold bind at 1. unfold detectFaces. unfold bind at 1. rewrite GetImage_run, Hfile.
    reflexivity. }
  split; apply Hgen.
Qed.

End CommandLine.

Section WholeRun.
Context {ext : External}.

Lemma ReadFile_regular name content w :
  fs w name = Some (os.RegularFile content) -> ReadFile name w = (inl (inl content), w).
Proof. intros H. unfold ReadFile. now rewrite H. Qed.

Lemma ReadFile_missing name w :
  fs w name = None -> ReadFile name w = (inl (inr (os.ENOENT name)), w).
Proof. intros H. unfold ReadFile. now rewrite H. Qed.

Variables (fd : faceDetector.t) (source : string) (w : World).
Variables (image : list Byte.byte) (cols rows : Z).
Hypothesis Hsource : fs w source = Some (os.RegularFile image).
Hypothesis Himage : image_Decode image = Some (cols, rows).

Lemma detectFaces_no_face_cascade :
  fs w (faceDetector.faceCascade fd) = None ->
  detectFaces fd source w = (inl (inr (os.ENOENT (faceDetector.faceCascade fd))), loaded w image cols rows).
Proof.
  intros Hmissing. unfold detectFaces. unfold bind at 1. rewrite GetImage_run, Hsource, Himage.
  cbn beta iota. unfold bind, NewContext, draw, loaded. cbn [fs dc events app].
  rewrite ReadFile_missing by exact Hmissing. reflexivity.
Qed.

End WholeRun.

(** One composite for every face scoring above 5.0. *)
Lemma composites_run (dx dy : Z) (step : float64 -> Detection.t -> list gg.Op) faces :
  (forall s face, List.length (Alignment.transforms (step s face)) = 1%nat) ->
  forall s, List.length (Alignment.transforms (Script.run dx dy step s faces))
            = List.length (filter Alignment.qualifies faces).
Proof.
  intros Hone. induction faces as [| face rest IH]; intros s; [reflexivity |].
  cbn [Script.run filter]. destruct (Alignment.qualifies face); [| apply IH].
  rewrite transforms_app, length_app, Hone, IH. reflexivity.
Qed.

Section Accepted.
Context {ext : External}.
Variables (flags : Flags.t) (w : World).
Hypothesis Haccepted : accepted flags.

Lemma main_accepted drawFaces :
  main drawFaces flags w =
  (detected <- detectFaces (settings flags) (Flags.source flags) ;;
   match detected with
   | inr err => abort (FatalErr err)
   | inl (faces, pkg) =>
       failed <- drawFaces (settings flags) pkg faces ;;
       match failed with
       | Some err => abort (FatalErr err)
       | None => ret tt
       end
   end) w.
Proof.
  destruct Haccepted as (Hsrc & Hdst & Hext & Hscale). unfold main.
  replace (String.length (Flags.source flags) =? 0)%nat with false.
  2: { symmetry. apply not_true_is_false. intros Hz. now apply length_zero in Hz. }
  replace (String.length (Flags.destination flags) =? 0)%nat with false.
  2: { symmetry. apply not_true_is_false. intros Hz. now apply length_zero in Hz. }
  change [".jpg"; ".jpeg"; ".png"]%string with fileTypes. rewrite Hext.
  change (F64.ltb (Flags.scaleFactor flags) (F64.lit 105 100))
    with (SFltb (Flags.scaleFactor flags) (F64.lit 105 100)).
  rewrite Hscale. reflexivity.
Qed.

Variables (image : list Byte.byte) (cols rows : Z).
Hypothesis Hsource : fs w (Flags.source flags) = Some (os.RegularFile image).
Hypothesis Himage : image_Decode image = Some (cols, rows).

(** X15. [detectFaces] sets up the canvas before it reads a cascade: with the
    command line accepted and the source decoded, a missing face cascade ends
    the process with the error of reading it, the canvas already holding the
    source; no file has been touched. *)
Theorem X15_missing_face_cascade_is_fatal :
  fs w "cascades/facefinder"%string = None ->
  let stopped :=
    (inr (FatalErr (os.ENOENT "cascades/facefinder")), loaded w image cols rows) in
  Facemask.main flags w = stopped /\ Diagnostic.main flags w = stopped.
Proof.
  intros Hmissing stopped.
  assert (Hgen : forall drawFaces, main drawFaces flags w = stopped).
  { intros drawFaces. rewrite main_accepted. unfold bind.
    now rewrite (detectFaces_no_face_cascade (settings flags) _ w image cols rows). }
  split; apply Hgen.
Qed.

End Accepted.

(** ** What a run reads, however it ends *)

Section AnyLoop.
Context {ext : External}.
Variable pass : float64 -> Detection.t -> M Pass.
Variable passes : float64 -> list Detection.t -> M (float64 * option os.error).
Hypothesis passes_nil : forall s, passes s [] = ret (s, None).
Hypothesis passes_cons : forall s face rest,
  passes s (face :: rest) =
  (r <- pass s face ;;
   match r with
   | Next s' => passes s' rest
   | Return err => ret (s, Some err)
   end).

(** One pass opens the mask at most once, for a face scoring above 5.0, and
    decodes it only once opened; a pass that hands over to the next face has
    done both and composited one mask, or nothing at all. *)
Hypothesis pass_reads : forall s face w,
  exists ops evs,
    snd (pass s face w) = after w ops evs
    /\ (Alignment.maskDecodes evs <= Alignment.maskOpens evs)%nat
    /\ (Alignment.maskOpens evs <= if Alignment.qualifies face then 1 else 0)%nat
    /\ (forall s', fst (pass s face w) = inl (Next s') ->
          let one := if Alignment.qualifies face then 1%nat else 0%nat in
          Alignment.maskOpens evs = one /\ Alignment.maskDecodes evs = one
          /\ List.length (Alignment.transforms ops) = one).

Lemma passes_reads faces : forall s w,
  let n := List.length (filter Alignment.qualifies faces) in
  exists ops evs,
    snd (passes s faces w) = after w ops evs
    /\ (Alignment.maskDecodes evs <= Alignment.maskOpens evs)%nat
    /\ (Alignment.maskOpens evs <= n)%nat
    /\ (forall s', fst (passes s faces w) = inl (s', None) ->
          Alignment.maskOpens evs = n /\ Alignment.maskDecodes evs = n
          /\ List.length (Alignment.transforms ops) = n).
Proof.
  induction faces as [| face rest IH]; intros s w n.
  - exists [], []. rewrite passes_nil, after_nil. cbn. repeat split; lia.
  - rewrite passes_cons. unfold bind.
    destruct (pass_reads s face w) as (ops1 & evs1 & Hw & Hd & Ho & Hnext).
    assert (Hn : n = ((if Alignment.qualifies face then 1 else 0)
                      + List.length (filter Alignment.qualifies rest))%nat).
    { unfold n. cbn [filter]. now destruct (Alignment.qualifies face). }
    destruct (pass s face w) as [[[s1 | err] | stop] w1]; cbn [fst snd] in *; subst w1.
    + destruct (IH s1 (after w ops1 evs1)) as (ops2 & evs2 & Hw2 & Hd2 & Ho2 & Hdone).
      destruct (Hnext s1 eq_refl) as (Ho1 & Hd1 & Ht1).
      exists (ops1 ++ ops2), (evs1 ++ evs2).
      rewrite Hw2, after_after, maskOpens_app, maskDecodes_app, transforms_app, length_app.
      split; [reflexivity |]. split; [lia |]. split; [lia |].
      intros s' Hok. destruct (Hdone s' Hok) as (Ho3 & Hd3 & Ht3). lia.
    + exists ops1, evs1. split; [reflexivity |]. split; [lia |]. split; [lia |].
      intros s' Hok. discriminate Hok.
    + exists ops1, evs1. split; [reflexivity |]. split; [lia |]. split; [lia |].
      intros s' Hok. discriminate Hok.
Qed.

End AnyLoop.

Section Reads.
Context {ext : External}.
Variables (fd : faceDetector.t) (pkg : Package).

Lemma Facemask_pass_reads s face w :
  exists ops evs,
    snd (Facemask.pass fd pkg s face w) = after w ops evs
    /\ (Alignment.maskDecodes evs <= Alignment.maskOpens evs)%nat
    /\ (Alignment.maskOpens evs <= if Alignment.qualifies face then 1 else 0)%nat
    /\ (forall s', fst (Facemask.pass fd pkg s face w) = inl (Next s') ->
          let one := if Alignment.qualifies face then 1%nat else 0%nat in
          Alignment.maskOpens evs = one /\ Alignment.maskDecodes evs = one
          /\ List.length (Alignment.transforms ops) = one).
Proof.
  destruct (Alignment.qualifies face) eqn:Hq.
  2: { rewrite Facemask_pass_skip by assumption. exists [], [].
       rewrite after_nil. cbn. repeat split; lia. }
  destruct (flpcs pkg "lp84") as [| lp84 more] eqn:Hlp.
  { rewrite Facemask_pass_no_landmarks by assumption.
    eexists _, []. split; [reflexivity |]. cbn. split; [lia |]. split; [lia |].
    intros s' Hok. discriminate Hok. }
  destruct (fs w "assets/facemask.png"%string) as [[data |] |] eqn:Hfile.
  - destruct (png_Decode data) as [[dx dy] |] eqn:Hdec.
    + rewrite (Facemask_pass_qualifying fd pkg lp84 more data dx dy) by assumption.
      eexists _, _. split; [reflexivity |]. cbn [fst snd].
      rewrite transforms_facemaskOps.
      split; [cbn; lia |]. split; [cbn; lia |]. intros s' _. cbn. repeat split.
    + rewrite (Facemask_pass_mask_undecodable fd pkg lp84 more Hlp s face w data)
        by assumption.
      eexists _, _. split; [reflexivity |]. split; [cbn; lia |]. split; [cbn; lia |].
      intros s' Hok. discriminate Hok.
  - rewrite (Facemask_pass_mask_directory fd pkg lp84 more Hlp) by assumption.
    eexists _, _. split; [reflexivity |]. split; [cbn; lia |]. split; [cbn; lia |].
    intros s' Hok. discriminate Hok.
  - rewrite (Facemask_pass_mask_absent fd pkg lp84 more Hlp) by assumption.
    eexists _, _. split; [reflexivity |]. split; [cbn; lia |]. split; [cbn; lia |].
    intros s' Hok. discriminate Hok.
Qed.

Lemma Diagnostic_pass_reads s face w :
  exists ops evs,
    snd (Diagnostic.pass fd pkg s face w) = after w ops evs
    /\ (Alignment.maskDecodes evs <= Alignment.maskOpens evs)%nat
    /\ (Alignment.maskOpens evs <= if Alignment.qualifies face then 1 else 0)%nat
    /\ (forall s', fst (Diagnostic.pass fd pkg s face w) = inl (Next s') ->
          let one := if Alignment.qualifies face then 1%nat else 0%nat in
          Alignment.maskOpens evs = one /\ Alignment.maskDecodes evs = one
          /\ List.length (Alignment.transforms ops) = one).
Proof.
  destruct (Alignment.qualifies face) eqn:Hq.
  2: { rewrite Diagnostic_pass_skip by assumption. exists [], [].
       rewrite after_nil. cbn. repeat split; lia. }
  destruct (flpcs pkg "lp84") as [| lp84 more] eqn:Hlp.
  { rewrite Diagnostic_pass_no_landmarks by assumption.
    eexists _, []. split; [reflexivity |]. cbn. split; [lia |]. split; [lia |].
    intros s' Hok. discriminate Hok. }
  destruct (fs w "assets/facemask.png"%string) as [[data |] |] eqn:Hfile.
  - destruct (png_Decode data) as [[dx dy] |] eqn:Hdec.
    + rewrite (Diagnostic_pass_qualifying fd pkg lp84 more data dx dy) by assumption.
      eexists _, _. split; [reflexivity |]. cbn [fst snd].
      rewrite transforms_diagnosticOps.
      split; [cbn; lia |]. split; [cbn; lia |]. intros s' _. cbn. repeat split.
    + rewrite (Diagnostic_pass_mask_undecodable fd pkg lp84 more Hlp s face w data)
        by assumption.
      eexists _, _. split; [reflexivity |]. split; [cbn; lia |]. split; [cbn; lia |].
      intros s' Hok. discriminate Hok.
  - rewrite (Diagnostic_pass_mask_directory fd pkg lp84 more Hlp) by assumption.
    eexists _, _. split; [reflexivity |]. split; [cbn; lia |]. split; [cbn; lia |].
    intros s' Hok. discriminate Hok.
  - rewrite (Diagnostic_pass_mask_absent fd pkg lp84 more Hlp) by assumption.
    eexists _, _. split; [reflexivity |]. split; [cbn; lia |]. split; [cbn; lia |].
    intros s' Hok. discriminate Hok.
Qed.

End Reads.

Section ReadsOfARun.
Context {ext : External}.
Variables (fd : faceDetector.t) (pkg : Package).

Lemma Facemask_passes_reads faces s w :
  let n := List.length (filter Alignment.qualifies faces) in
  exists ops evs,
    snd (Facemask.passes fd pkg s faces w) = after w ops evs
    /\ (Alignment.maskDecodes evs <= Alignment.maskOpens evs)%nat
    /\ (Alignment.maskOpens evs <= n)%nat
    /\ (forall s', fst (Facemask.passes fd pkg s faces w) = inl (s', None) ->
          Alignment.maskOpens evs = n /\ Alignment.maskDecodes evs = n
          /\ List.length (Alignment.transforms ops) = n).
Proof.
  apply (passes_reads (Facemask.pass fd pkg) (Facemask.passes fd pkg)).
  - reflexivity.
  - reflexivity.
  - apply Facemask_pass_reads.
Qed.

Lemma Diagnostic_passes_reads faces s w :
  let n := List.length (filter Alignment.qualifies faces) in
  exists ops evs,
    snd (Diagnostic.passes fd pkg s faces w) = after w ops evs
    /\ (Alignment.maskDecodes evs <= Alignment.maskOpens evs)%nat
    /\ (Alignment.maskOpens evs <= n)%nat
    /\ (forall s', fst (Diagnostic.passes fd pkg s faces w) = inl (s', None) ->
          Alignment.maskOpens evs = n /\ Alignment.maskDecodes evs = n
          /\ List.length (Alignment.transforms ops) = n).
Proof.
  apply (passes_reads (Diagnostic.pass fd pkg) (Diagnostic.passes fd pkg)).
  - reflexivity.
  - reflexivity.
  - apply Diagnostic_pass_reads.
Qed.

(** Opening the destination is no read of the mask: it is opened for
    writing. *)
Lemma destination_is_no_read dest :
  Alignment.maskOpens [EvOpenFile dest (Z.lor os.O_CREATE os.O_RDWR)] = 0%nat
  /\ Alignment.maskDecodes [EvOpenFile dest (Z.lor os.O_CREATE os.O_RDWR)] = 0%nat.
Proof.
  unfold Alignment.maskOpens, Alignment.maskDecodes. cbn [filter Alignment.isPngDecode].
  split; [| reflexivity]. unfold Alignment.isMaskOpen.
  change (Z.lor os.O_CREATE os.O_RDWR =? os.O_RDONLY) with false.
  now rewrite andb_false_r.
Qed.

(** A run of [drawFaces], however it ends: what its loop has drawn and
    logged, and, when it returns nil, that the loop came to its end. *)
Lemma drawFaces_reads
    (passes : float64 -> list Detection.t -> M (float64 * option os.error)) faces w :
  let n := List.length (filter Alignment.qualifies faces) in
  let run :=
    (r <- passes F64.zero faces ;;
     match snd r with
     | Some err => ret (Some err)
     | None => writeOutput fd
     end) w in
  (exists ops evs,
     snd (passes F64.zero faces w) = after w ops evs
     /\ (Alignment.maskDecodes evs <= Alignment.maskOpens evs)%nat
     /\ (Alignment.maskOpens evs <= n)%nat
     /\ (forall s', fst (passes F64.zero faces w) = inl (s', None) ->
           Alignment.maskOpens evs = n /\ Alignment.maskDecodes evs = n
           /\ List.length (Alignment.transforms ops) = n)) ->
  exists ops evs,
    dc (snd run) = dc w ++ ops
    /\ Alignment.maskOpens (events (snd run))
       = (Alignment.maskOpens (events w) + Alignment.maskOpens evs)%nat
    /\ Alignment.maskDecodes (events (snd run))
       = (Alignment.maskDecodes (events w) + Alignment.maskDecodes evs)%nat
    /\ (Alignment.maskDecodes evs <= Alignment.maskOpens evs)%nat
    /\ (Alignment.maskOpens evs <= n)%nat
    /\ (fst run = inl None ->
        run = writeOutput fd (after w ops evs)
        /\ Alignment.maskOpens evs = n /\ Alignment.maskDecodes evs = n
        /\ List.length (Alignment.transforms ops) = n).
Proof.
  intros n run (ops & evs & Hw & Hd & Ho & Hdone). exists ops, evs.
  unfold run, bind, ret.
  destruct (passes F64.zero faces w) as [[[s [err |]] | stop] w1]; cbn [fst snd] in *; subst w1.
  - cbn [after dc events]. rewrite maskOpens_app, maskDecodes_app.
    repeat (split; [first [reflexivity | assumption] |]). intros Hok. discriminate Hok.
  - rewrite writeOutput_dc, writeOutput_events. cbn [after dc events].
    rewrite !maskOpens_app, !maskDecodes_app.
    destruct (destination_is_no_read (faceDetector.destination fd)) as [-> ->].
    split; [reflexivity |]. split; [lia |]. split; [lia |]. split; [exact Hd |].
    split; [exact Ho |]. intros _. split; [reflexivity |]. exact (Hdone s eq_refl).
  - cbn [after dc events]. rewrite maskOpens_app, maskDecodes_app.
    repeat (split; [first [reflexivity | assumption] |]). intros Hok. discriminate Hok.
Qed.

Lemma Facemask_drawFaces_reads faces w :
  let n := List.length (filter Alignment.qualifies faces) in
  let run := Facemask.drawFaces fd pkg faces w in
  exists ops evs,
    dc (snd run) = dc w ++ ops
    /\ Alignment.maskOpens (events (snd run))
       = (Alignment.maskOpens (events w) + Alignment.maskOpens evs)%nat
    /\ Alignment.maskDecodes (events (snd run))
       = (Alignment.maskDecodes (events w) + Alignment.maskDecodes evs)%nat
    /\ (Alignment.maskDecodes evs <= Alignment.maskOpens evs)%nat
    /\ (Alignment.maskOpens evs <= n)%nat
    /\ (fst run = inl None ->
        run = writeOutput fd (after w ops evs)
        /\ Alignment.maskOpens evs = n /\ Alignment.maskDecodes evs = n
        /\ List.length (Alignment.transforms ops) = n).
Proof.
  apply (drawFaces_reads (Facemask.passes fd pkg)). apply Facemask_passes_reads.
Qed.

Lemma Diagnostic_drawFaces_reads faces w :
  let n := List.length (filter Alignment.qualifies faces) in
  let run := Diagnostic.drawFaces fd pkg faces w in
  exists ops evs,
    dc (snd run) = dc w ++ ops
    /\ Alignment.maskOpens (events (snd run))
       = (Alignment.maskOpens (events w) + Alignment.maskOpens evs)%nat
    /\ Alignment.maskDecodes (events (snd run))
       = (Alignment.maskDecodes (events w) + Alignment.maskDecodes evs)%nat
    /\ (Alignment.maskDecodes evs <= Alignment.maskOpens evs)%nat
    /\ (Alignment.maskOpens evs <= n)%nat
    /\ (fst run = inl None ->
        run = writeOutput fd (after w ops evs)
        /\ Alignment.maskOpens evs = n /\ Alignment.maskDecodes evs = n
        /\ List.length (Alignment.transforms ops) = n).
Proof.
  apply (drawFaces_reads (Diagnostic.passes fd pkg)). apply Diagnostic_passes_reads.
Qed.

End ReadsOfARun.

(** C8, amended. The mask asset is opened and decoded inside the loop over
    the faces and nothing of it is kept from one face to the next.  In any
    run of [drawFaces], with n faces scoring above 5.0, the mask is opened
    at most n times and decoded at most as often as it is opened; a run that
    returns nil has opened and decoded it exactly n times, never when n is 0;
    so has every run in which the landmark cascade is loaded and the mask
    asset opens and decodes, whatever becomes of the destination. *)
Theorem C8_mask_read_per_face {ext : External} (fd : faceDetector.t) (pkg : Package)
    (faces : list Detection.t) (w : World) :
  let n := List.length (filter Alignment.qualifies faces) in
  let reads (r : (option os.error + Abort) * World) (opened decoded : nat) :=
    Alignment.maskOpens (events (snd r)) = (Alignment.maskOpens (events w) + opened)%nat
    /\ Alignment.maskDecodes (events (snd r))
       = (Alignment.maskDecodes (events w) + decoded)%nat in
  let bounded (r : (option os.error + Abort) * World) :=
    exists opened decoded,
      reads r opened decoded /\ (decoded <= opened)%nat /\ (opened <= n)%nat in
  bounded (Facemask.drawFaces fd pkg faces w)
  /\ bounded (Diagnostic.drawFaces fd pkg faces w)
  /\ (fst (Facemask.drawFaces fd pkg faces w) = inl None ->
      reads (Facemask.drawFaces fd pkg faces w) n n)
  /\ (fst (Diagnostic.drawFaces fd pkg faces w) = inl None ->
      reads (Diagnostic.drawFaces fd pkg faces w) n n)
  /\ (forall lp84 more data dx dy,
        flpcs pkg "lp84" = lp84 :: more ->
        png_Decode data = Some (dx, dy) ->
        maskReadable data w ->
        reads (Facemask.drawFaces fd pkg faces w) n n
        /\ reads (Diagnostic.drawFaces fd pkg faces w) n n).
Proof.
  intros n reads bounded.
  destruct (Facemask_drawFaces_reads fd pkg faces w)
    as (ops1 & evs1 & _ & Ho1 & Hd1 & Hle1 & Hn1 & Hdone1).
  destruct (Diagnostic_drawFaces_reads fd pkg faces w)
    as (ops2 & evs2 & _ & Ho2 & Hd2 & Hle2 & Hn2 & Hdone2).
  split; [exists (Alignment.maskOpens evs1), (Alignment.maskDecodes evs1);
          unfold reads; repeat split; assumption |].
  split; [exists (Alignment.maskOpens evs2), (Alignment.maskDecodes evs2);
          unfold reads; repeat split; assumption |].
  split; [| split].
  - intros Hok. destruct (Hdone1 Hok) as (_ & Ho & Hd & _). unfold reads.
    rewrite Ho1, Hd1, Ho, Hd. split; reflexivity.
  - intros Hok. destruct (Hdone2 Hok) as (_ & Ho & Hd & _). unfold reads.
    rewrite Ho2, Hd2, Ho, Hd. split; reflexivity.
  - intros lp84 more data dx dy Hlp Hdec Hfile. unfold reads.
    rewrite (Facemask_drawFaces_run fd pkg lp84 more data dx dy Hlp Hdec) by assumption.
    rewrite (Diagnostic_drawFaces_run fd pkg lp84 more data dx dy Hlp Hdec) by assumption.
    rewrite !writeOutput_events. unfold after. cbn [events].
    rewrite !maskOpens_app, !maskDecodes_app.
    destruct (destination_is_no_read (faceDetector.destination fd)) as [-> ->].
    rewrite !(opens_run dx dy _ faces), !(decodes_run dx dy _ faces) by reflexivity.
    fold n. repeat split; lia.
Qed.

(** ** The place of a face in a completed run *)

Section Placement.
Variables (dx dy : Z).

Lemma run_app {A} (step : float64 -> Detection.t -> list A) before rest : forall s,
  Script.run dx dy step s (before ++ rest)
  = Script.run dx dy step s before
    ++ Script.run dx dy step (Script.finalScale dx dy s before) rest.
Proof.
  induction before as [| face0 before IH]; intros s; [reflexivity |].
  cbn [app Script.run Script.finalScale]. destruct (Alignment.qualifies face0).
  - now rewrite IH, app_assoc.
  - apply IH.
Qed.

(** The list a face scoring above 5.0 contributes stands between those of
    the faces before it and those of the faces after it. *)
Lemma run_at {A} (step : float64 -> Detection.t -> list A) before face rest s :
  Alignment.qualifies face = true ->
  let s0 := Script.finalScale dx dy s before in
  Script.run dx dy step s (before ++ face :: rest)
  = Script.run dx dy step s before
    ++ step s0 face
    ++ Script.run dx dy step (Alignment.scale s0 (Detection.Scale face) dx dy) rest.
Proof.
  intros Hq s0. rewrite run_app. cbn [Script.run]. now rewrite Hq.
Qed.

Lemma run_without {A} (step : float64 -> Detection.t -> list A) before face rest s :
  Alignment.qualifies face = false ->
  Script.run dx dy step s (before ++ face :: rest) = Script.run dx dy step s (before ++ rest).
Proof.
  intros Hq. rewrite !run_app. cbn [Script.run]. now rewrite Hq.
Qed.

(** When the number of calls a face is given does not depend on the scale,
    neither does the number of calls of a run. *)
Lemma run_length {A} (step : float64 -> Detection.t -> list A) :
  (forall s s' face, List.length (step s face) = List.length (step s' face)) ->
  forall faces s s',
    List.length (Script.run dx dy step s faces) = List.length (Script.run dx dy step s' faces).
Proof.
  intros Hstep. induction faces as [| face rest IH]; intros s s'; [reflexivity |].
  cbn [Script.run]. destruct (Alignment.qualifies face); [| apply IH].
  rewrite !length_app. rewrite (Hstep s s'). f_equal. apply IH.
Qed.

(** A face scoring above 5.0 makes the run longer. *)
Lemma run_grows (step : float64 -> Detection.t -> list gg.Op) before face rest s :
  (forall s s' face, List.length (step s face) = List.length (step s' face)) ->
  (forall s face, step s face <> []) ->
  Alignment.qualifies face = true ->
  Script.run dx dy step s (before ++ face :: rest) <> Script.run dx dy step s (before ++ rest).
Proof.
  intros Hlen Hne Hq Heq. apply (f_equal (@List.length gg.Op)) in Heq.
  rewrite run_at, run_app, !length_app in Heq by assumption.
  rewrite (run_length step Hlen rest _ (Script.finalScale dx dy s before)) in Heq.
  specialize (Hne (Script.finalScale dx dy s before) face).
  destruct (step (Script.finalScale dx dy s before) face); [congruence | cbn in Heq; lia].
Qed.

End Placement.

Lemma nth_error_middle {A} (l1 l2 : list A) x n :
  n = List.length l1 -> nth_error (l1 ++ x :: l2) n = Some x.
Proof. intros ->. rewrite nth_error_app2, Nat.sub_diag by lia. reflexivity. Qed.

Section Faces.
Context {ext : External}.
Variables (fd : faceDetector.t) (pkg : Package).
Variables (lp84 : FlpCascade) (more : list FlpCascade) (data : list Byte.byte) (dx dy : Z).
Hypothesis Hlp : flpcs pkg "lp84" = lp84 :: more.
Hypothesis Hdec : png_Decode data = Some (dx, dy).

(** The canvas of a completed run around a face scoring above 5.0. *)
Lemma Facemask_canvas_at before face rest w :
  maskReadable data w ->
  Alignment.qualifies face = true ->
  let step := Script.facemaskOps fd pkg lp84 data dx dy in
  let s0 := Script.finalScale dx dy F64.zero before in
  dc (snd (Facemask.drawFaces fd pkg (before ++ face :: rest) w))
  = dc w ++ Script.run dx dy step F64.zero before
      ++ step s0 face
      ++ Script.run dx dy step (Alignment.scale s0 (Detection.Scale face) dx dy) rest.
Proof.
  intros Hfile Hq step s0.
  rewrite (Facemask_drawFaces_run fd pkg lp84 more data dx dy Hlp Hdec) by assumption.
  rewrite writeOutput_dc. cbn [after dc]. fold step. now rewrite run_at by assumption.
Qed.

Lemma Diagnostic_canvas_at before face rest w :
  maskReadable data w ->
  Alignment.qualifies face = true ->
  let step := Script.diagnosticOps fd pkg lp84 data dx dy in
  let s0 := Script.finalScale dx dy F64.zero before in
  dc (snd (Diagnostic.drawFaces fd pkg (before ++ face :: rest) w))
  = dc w ++ Script.run dx dy step F64.zero before
      ++ step s0 face
      ++ Script.run dx dy step (Alignment.scale s0 (Detection.Scale face) dx dy) rest.
Proof.
  intros Hfile Hq step s0.
  rewrite (Diagnostic_drawFaces_run fd pkg lp84 more data dx dy Hlp Hdec) by assumption.
  rewrite writeOutput_dc. cbn [after dc]. fold step. now rewrite run_at by assumption.
Qed.

Lemma facemaskOps_count s face :
  List.length (Alignment.transforms (Script.facemaskOps fd pkg lp84 data dx dy s face)) = 1%nat.
Proof. now rewrite transforms_facemaskOps. Qed.

Lemma diagnosticOps_count s face :
  List.length (Alignment.transforms (Script.diagnosticOps fd pkg lp84 data dx dy s face)) = 1%nat.
Proof. now rewrite transforms_diagnosticOps. Qed.

(** The composites of a completed run: one for every face scoring above
    5.0. *)
Lemma Facemask_composites faces w :
  maskReadable data w ->
  List.length (Alignment.transforms (dc (snd (Facemask.drawFaces fd pkg faces w))))
  = (List.length (Alignment.transforms (dc w))
     + List.length (filter Alignment.qualifies faces))%nat.
Proof.
  intros Hfile.
  rewrite (Facemask_drawFaces_run fd pkg lp84 more data dx dy Hlp Hdec) by assumption.
  rewrite writeOutput_dc. cbn [after dc]. rewrite transforms_app, length_app.
  f_equal. apply composites_run. apply facemaskOps_count.
Qed.

Lemma Diagnostic_composites faces w :
  maskReadable data w ->
  List.length (Alignment.transforms (dc (snd (Diagnostic.drawFaces fd pkg faces w))))
  = (List.length (Alignment.transforms (dc w))
     + List.length (filter Alignment.qualifies faces))%nat.
Proof.
  intros Hfile.
  rewrite (Diagnostic_drawFaces_run fd pkg lp84 more data dx dy Hlp Hdec) by assumption.
  rewrite writeOutput_dc. cbn [after dc]. rewrite transforms_app, length_app.
  f_equal. apply composites_run. apply diagnosticOps_count.
Qed.

Lemma marker_degenerate p : Alignment.degenerate p -> Alignment.marker p = [].
Proof.
  intros [Hrow | Hcol]; unfold Alignment.marker.
  - now replace (0 <? Puploc.Row p) with false by (symmetry; apply Z.ltb_ge; lia).
  - replace (0 <? Puploc.Col p) with false by (symmetry; apply Z.ltb_ge; lia).
    now rewrite andb_false_r.
Qed.

Lemma diagnosticOps_length s s' face :
  List.length (Script.diagnosticOps fd pkg lp84 data dx dy s face)
  = List.length (Script.diagnosticOps fd pkg lp84 data dx dy s' face).
Proof. unfold Script.diagnosticOps. cbv zeta. now rewrite !length_app. Qed.

(** C4. A detection of the list whose score is not above 5.0 (a NaN
    included) stays in the list and changes nothing: the pass on it leaves the
    world as it was, and the whole run of [drawFaces] is the run on the list
    without it.  A detection whose score is above 5.0 has its pupils
    searched, its two landmark points looked up and its mask aligned and
    composited: in a run whose mask asset opens and decodes, the canvas holds
    its outline and its composite between what the detections before it and
    those after it have drawn.  So the canvas of the run differs from that of
    the run without the detection exactly when its score is above 5.0, and
    the run composites as many masks as there are such detections. *)
Theorem C4_score_gate before face rest s w :
  maskReadable data w ->
  let above := SFltb (F32.of_int 5) (Detection.Q face) in
  let p1 := Alignment.landmark fd pkg lp84 face false in
  let p2 := Alignment.landmark fd pkg lp84 face true in
  let faces := before ++ face :: rest in
  let others := before ++ rest in
  let composites (r : (option os.error + Abort) * World) :=
    List.length (Alignment.transforms (dc (snd r))) in
  let placed (ops : list gg.Op) (r : (option os.error + Abort) * World) :=
    exists pre post,
      dc (snd r) = dc w ++ pre ++ ops ++ post
      /\ List.length (Alignment.transforms pre)
         = List.length (filter Alignment.qualifies before)
      /\ List.length (Alignment.transforms post)
         = List.length (filter Alignment.qualifies rest) in
  (above = false ->
     Facemask.pass fd pkg s face w = (inl (Next s), w)
     /\ Diagnostic.pass fd pkg s face w = (inl (Next s), w))
  /\ (above = true ->
      let s' := Alignment.scale s (Detection.Scale face) dx dy in
      Facemask.pass fd pkg s face w =
        (inl (Next s'),
         after w (Alignment.faceBox face ++ [Alignment.composite data dx dy s' face p1 p2])
           Script.maskEvents)
      /\ Diagnostic.pass fd pkg s face w =
        (inl (Next s'),
         after w (Alignment.faceBox face ++ Alignment.marker p1 ++ Alignment.marker p2
                    ++ [Alignment.diagnosticComposite data dx dy s' face p1 p2])
           (Script.diagnosticEvents fd pkg lp84 dx dy s face)))
  /\ (above = false ->
      Facemask.drawFaces fd pkg faces w = Facemask.drawFaces fd pkg others w
      /\ Diagnostic.drawFaces fd pkg faces w = Diagnostic.drawFaces fd pkg others w)
  /\ (above = true ->
      let s' :=
        Alignment.scale (Script.finalScale dx dy F64.zero before) (Detection.Scale face) dx dy in
      placed (Alignment.faceBox face ++ [Alignment.composite data dx dy s' face p1 p2])
        (Facemask.drawFaces fd pkg faces w)
      /\ placed (Alignment.faceBox face ++ Alignment.marker p1 ++ Alignment.marker p2
                   ++ [Alignment.diagnosticComposite data dx dy s' face p1 p2])
           (Diagnostic.drawFaces fd pkg faces w))
  /\ (above = true <->
      dc (snd (Facemask.drawFaces fd pkg faces w))
      <> dc (snd (Facemask.drawFaces fd pkg others w)))
  /\ (above = true <->
      dc (snd (Diagnostic.drawFaces fd pkg faces w))
      <> dc (snd (Diagnostic.drawFaces fd pkg others w)))
  /\ composites (Facemask.drawFaces fd pkg faces w)
     = (List.length (Alignment.transforms (dc w))
        + List.length (filter Alignment.qualifies faces))%nat
  /\ composites (Diagnostic.drawFaces fd pkg faces w)
     = (List.length (Alignment.transforms (dc w))
        + List.length (filter Alignment.qualifies faces))%nat.
Proof.
  intros Hfile above p1 p2 faces others composites placed.
  change above with (Alignment.qualifies face).
  assert (Hsame : Alignment.qualifies face = false ->
            Facemask.drawFaces fd pkg faces w = Facemask.drawFaces fd pkg others w
            /\ Diagnostic.drawFaces fd pkg faces w = Diagnostic.drawFaces fd pkg others w).
  { intros Hq. unfold Facemask.drawFaces, Diagnostic.drawFaces, bind, faces, others.
    rewrite (Facemask_passes_filter fd pkg (before ++ face :: rest)).
    rewrite (Facemask_passes_filter fd pkg (before ++ rest)).
    rewrite (Diagnostic_passes_filter fd pkg (before ++ face :: rest)).
    rewrite (Diagnostic_passes_filter fd pkg (before ++ rest)).
    rewrite !filter_app. cbn [filter]. rewrite Hq. split; reflexivity. }
  assert (Hdiffer : Alignment.qualifies face = true ->
            dc (snd (Facemask.drawFaces fd pkg faces w))
            <> dc (snd (Facemask.drawFaces fd pkg others w))
            /\ dc (snd (Diagnostic.drawFaces fd pkg faces w))
               <> dc (snd (Diagnostic.drawFaces fd pkg others w))).
  { intros Hq. unfold faces, others.
    rewrite !(Facemask_drawFaces_run fd pkg lp84 more data dx dy Hlp Hdec) by assumption.
    rewrite !(Diagnostic_drawFaces_run fd pkg lp84 more data dx dy Hlp Hdec) by assumption.
    rewrite !writeOutput_dc. cbn [after dc]. split; intros Heq; apply app_inv_head in Heq;
      revert Heq; apply run_grows; try assumption.
    - reflexivity.
    - intros s0 f. discriminate.
    - apply diagnosticOps_length.
    - intros s0 f. unfold Script.diagnosticOps. cbv zeta. discriminate. }
  split; [| split; [| split; [exact Hsame | split; [| split; [| split; [| split]]]]]].
  - intros Hq. split; [now apply Facemask_pass_skip | now apply Diagnostic_pass_skip].
  - intros Hq s'. split.
    + now apply (Facemask_pass_qualifying fd pkg lp84 more data dx dy Hlp Hdec).
    + now apply (Diagnostic_pass_qualifying fd pkg lp84 more data dx dy Hlp Hdec).
  - intros Hq s'. split.
    + eexists _, _. split; [| split].
      * unfold faces. rewrite Facemask_canvas_at by assumption. cbv zeta. reflexivity.
      * apply composites_run, facemaskOps_count.
      * apply composites_run, facemaskOps_count.
    + eexists _, _. split; [| split].
      * unfold faces. rewrite Diagnostic_canvas_at by assumption. cbv zeta. reflexivity.
      * apply composites_run, diagnosticOps_count.
      * apply composites_run, diagnosticOps_count.
  - split; [intros Hq; now apply Hdiffer |].
    intros Hne. destruct (Alignment.qualifies face); [reflexivity |].
    destruct (Hsame eq_refl) as [Heq _]. rewrite Heq in Hne. now elim Hne.
  - split; [intros Hq; now apply Hdiffer |].
    intros Hne. destruct (Alignment.qualifies face); [reflexivity |].
    destruct (Hsame eq_refl) as [_ Heq]. rewrite Heq in Hne. now elim Hne.
  - now apply Facemask_composites.
  - now apply Diagnostic_composites.
Qed.

(** C7. In a run whose mask asset opens and decodes, every face of the list
    scoring above 5.0 is given its composite, whatever landmark points were
    found for it, degenerate ones (a row or a column not positive) included:
    the loop goes through to the output without returning an error, and the
    canvas holds, at the place of the face among the composites, the mask
    resized, rotated and placed by the angle, the scale and the origin
    computed from the two points as they were found.  In the diagnostic
    revision a degenerate point loses its marker, nothing else. *)
Theorem C7_degenerate_points_flow_on before face rest w :
  maskReadable data w ->
  Alignment.qualifies face = true ->
  let p1 := Alignment.landmark fd pkg lp84 face false in
  let p2 := Alignment.landmark fd pkg lp84 face true in
  let faces := before ++ face :: rest in
  let n := List.length (filter Alignment.qualifies faces) in
  let s' :=
    Alignment.scale (Script.finalScale dx dy F64.zero before) (Detection.Scale face) dx dy in
  let width := Alignment.extent dx s' in
  let height := Alignment.extent dy s' in
  let place :=
    (List.length (Alignment.transforms (dc w))
     + List.length (filter Alignment.qualifies before))%nat in
  let composites (r : (option os.error + Abort) * World) :=
    Alignment.transforms (dc (snd r)) in
  let completed (r : (option os.error + Abort) * World) :=
    exists ops evs,
      r = writeOutput fd (after w ops evs)
      /\ List.length (Alignment.transforms ops) = n in
  completed (Facemask.drawFaces fd pkg faces w)
  /\ completed (Diagnostic.drawFaces fd pkg faces w)
  /\ nth_error (composites (Facemask.drawFaces fd pkg faces w)) place
     = Some (Alignment.mkTransform (Alignment.angle p1 p2)
               (F64.to_int width) (F64.to_int height)
               (Alignment.originX face width) (Alignment.originY p1 p2 height))
  /\ nth_error (composites (Diagnostic.drawFaces fd pkg faces w)) place
     = Some (Alignment.mkTransform (Alignment.angle p1 p2)
               (F64.to_int width) (F64.to_int height)
               (GoInt.sub (Detection.Row face)
                  (F64.to_int (width / F64.of_int 2 * F64.lit 8 10)%f64))
               (Alignment.originY p1 p2 height))
  /\ List.length (composites (Facemask.drawFaces fd pkg faces w))
     = (List.length (Alignment.transforms (dc w)) + n)%nat
  /\ List.length (composites (Diagnostic.drawFaces fd pkg faces w))
     = (List.length (Alignment.transforms (dc w)) + n)%nat
  /\ (Alignment.degenerate p1 -> Alignment.marker p1 = [])
  /\ (Alignment.degenerate p2 -> Alignment.marker p2 = []).
Proof.
  intros Hfile Hq p1 p2 faces n s' width height place composites completed.
  split; [| split; [| split; [| split; [| split; [| split; [| split]]]]]].
  - unfold completed.
    rewrite (Facemask_drawFaces_run fd pkg lp84 more data dx dy Hlp Hdec) by assumption.
    eexists _, _. split; [reflexivity |]. apply composites_run, facemaskOps_count.
  - unfold completed.
    rewrite (Diagnostic_drawFaces_run fd pkg lp84 more data dx dy Hlp Hdec) by assumption.
    eexists _, _. split; [reflexivity |]. apply composites_run, diagnosticOps_count.
  - unfold composites, faces. rewrite Facemask_canvas_at by assumption. cbv zeta.
    rewrite !transforms_app, transforms_facemaskOps, app_assoc. cbn [app].
    apply nth_error_middle. unfold place. rewrite length_app. f_equal.
    symmetry. apply composites_run, facemaskOps_count.
  - unfold composites, faces. rewrite Diagnostic_canvas_at by assumption. cbv zeta.
    rewrite !transforms_app, transforms_diagnosticOps, app_assoc. cbn [app].
    apply nth_error_middle. unfold place. rewrite length_app. f_equal.
    symmetry. apply composites_run, diagnosticOps_count.
  - now apply Facemask_composites.
  - now apply Diagnostic_composites.
  - apply marker_degenerate.
  - apply marker_degenerate.
Qed.

(** C9. For a face scoring above 5.0 the mask generator first strokes, in
    opaque red and with line width 2.0, the square of side scale whose top
    left corner is (col - scale/2, row - scale/2), and only then composites
    the mask of the face.  The canvas at the end of a run holds the four
    calls of the outline, in this order, followed at once by the composite
    of the face, between what the faces before it and those after it have
    drawn; it is this canvas whose encoding a run that returns nil has written
    to the destination. *)
Theorem C9_face_box_outline before face rest s w :
  maskReadable data w ->
  Alignment.qualifies face = true ->
  let outline :=
    [ gg.DrawRectangle
        (F64.of_int (GoInt.sub (Detection.Col face) (GoInt.quo (Detection.Scale face) 2)))
        (F64.of_int (GoInt.sub (Detection.Row face) (GoInt.quo (Detection.Scale face) 2)))
        (F64.of_int (Detection.Scale face))
        (F64.of_int (Detection.Scale face));
      gg.SetLineWidth (F64.of_int 2);
      gg.SetStrokeStyle (color.RGBA 255 0 0 255);
      gg.Stroke ] in
  let p1 := Alignment.landmark fd pkg lp84 face false in
  let p2 := Alignment.landmark fd pkg lp84 face true in
  let s' :=
    Alignment.scale (Script.finalScale dx dy F64.zero before) (Detection.Scale face) dx dy in
  let final := Facemask.drawFaces fd pkg (before ++ face :: rest) w in
  let dest := faceDetector.destination fd in
  (exists mask x y,
     dc (snd (Facemask.pass fd pkg s face w)) = dc w ++ outline ++ [gg.DrawImage mask x y])
  /\ (exists pre post,
        dc (snd final)
        = dc w ++ pre ++ outline ++ [Alignment.composite data dx dy s' face p1 p2] ++ post
        /\ List.length (Alignment.transforms pre)
           = List.length (filter Alignment.qualifies before)
        /\ List.length (Alignment.transforms post)
           = List.length (filter Alignment.qualifies rest))
  /\ (fst final = inl None ->
      forall enc err,
        encoding fd (dc (snd final)) = Some (enc, err) ->
        fs (snd final) dest
        = Some (os.RegularFile (enc ++ skipn (List.length enc) (contentOf (fs w) dest)))).
Proof.
  intros Hfile Hq outline p1 p2 s' final dest. split; [| split].
  - rewrite (Facemask_pass_qualifying fd pkg lp84 more data dx dy Hlp Hdec) by assumption.
    cbn [snd after dc]. eexists _, _, _. reflexivity.
  - eexists _, _. split; [| split].
    + unfold final. rewrite Facemask_canvas_at by assumption. cbv zeta.
      unfold Script.facemaskOps. cbv zeta. rewrite <- app_assoc. reflexivity.
    + apply composites_run, facemaskOps_count.
    + apply composites_run, facemaskOps_count.
  - intros Hok enc err Henc.
    destruct (Facemask_success fd pkg _ w Hok) as (w1 & Hfs & Heq).
    fold final in Heq. rewrite Heq in Hok, Henc |- *.
    pose proof (writeOutput_success fd w1 (fs w) Hfs Hok) as H. cbv zeta in H.
    rewrite Henc in H. exact (proj2 H).
Qed.

End Faces.

(** ** A run of [main] that ends normally *)

Section Returns.
Context {ext : External}.

Lemma main_returns drawFaces flags w :
  fst (main drawFaces flags w) = inl tt -> accepted flags.
Proof.
  unfold main, accepted.
  destruct (String.length (Flags.source flags) =? 0)%nat eqn:Hsrc; [discriminate |].
  destruct (String.length (Flags.destination flags) =? 0)%nat eqn:Hdst; [discriminate |].
  cbn [orb]. change [".jpg"; ".jpeg"; ".png"]%string with fileTypes.
  destruct (inSlice (filepath.Ext (Flags.destination flags)) fileTypes) eqn:Hext;
    [| discriminate].
  cbn [negb].
  change (F64.ltb (Flags.scaleFactor flags) (F64.lit 105 100))
    with (SFltb (Flags.scaleFactor flags) (F64.lit 105 100)).
  destruct (SFltb (Flags.scaleFactor flags) (F64.lit 105 100)) eqn:Hscale; [discriminate |].
  intros _. repeat split.
  - intros Hempty. apply length_zero in Hempty. congruence.
  - intros Hempty. apply length_zero in Hempty. congruence.
Qed.

(** What [detectFaces] has gone through when it returns the faces. *)
Lemma detectFaces_returns fd source w faces pkg w1 :
  detectFaces fd source w = (inl (inl (faces, pkg)), w1) ->
  exists image cols rows faceBytes classifier raw,
    fs w source = Some (os.RegularFile image)
    /\ image_Decode image = Some (cols, rows)
    /\ fs w (faceDetector.faceCascade fd) = Some (os.RegularFile faceBytes)
    /\ Unpack faceBytes = Returned (inl classifier)
    /\ RunCascade classifier
         (CascadeParams.mk (faceDetector.minSize fd) (faceDetector.maxSize fd)
            (faceDetector.shiftFactor fd) (faceDetector.scaleFactor fd)
            (ImageParams.mk (RgbToGrayscale (Decoded image)) rows cols cols))
         (faceDetector.angle fd) = Returned raw
    /\ ClusterDetections classifier raw (faceDetector.iouThreshold fd) = Returned faces
    /\ w1 = loaded w image cols rows.
Proof.
  unfold detectFaces. unfold bind at 1. rewrite GetImage_run.
  destruct (fs w source) as [[image |] |] eqn:Hsrc; try discriminate.
  destruct (image_Decode image) as [[cols rows] |] eqn:Himg; try discriminate.
  cbn beta iota. unfold bind, NewContext, draw, ReadFile, call, ret, abort.
  cbn [fs dc events app].
  destruct (fs w (faceDetector.faceCascade fd)) as [[faceBytes |] |] eqn:Hface;
    try discriminate.
  destruct (Unpack faceBytes) as [[classifier | err] | msg] eqn:Hunpack; try discriminate.
  cbn [fs dc events].
  destruct (fs w (faceDetector.eyesCascade fd)) as [[eyesBytes |] |]; try discriminate.
  destruct (UnpackCascade eyesBytes) as [[pupils | err] | msg]; try discriminate.
  cbn [fs dc events].
  destruct (ReadCascadeDir (fs w) (faceDetector.flplocDir fd)) as [[landmarks | err] | msg];
    try discriminate.
  match goal with |- context [RunCascade ?c ?params ?angle] =>
    destruct (RunCascade c params angle) as [raw | msg] eqn:Hrun end; try discriminate.
  destruct (ClusterDetections classifier raw (faceDetector.iouThreshold fd))
    as [found | msg] eqn:Hcluster; try discriminate.
  intros H. injection H as <- <- <-.
  exists image, cols, rows, faceBytes, classifier, raw. repeat split; assumption.
Qed.

(** [drawFaces] has a codec for every extension [main] accepts. *)
Lemma codec_of_accepted fd img :
  inSlice (filepath.Ext (faceDetector.destination fd)) fileTypes = true ->
  encoding fd img <> None.
Proof.
  unfold encoding, fileTypes. cbn [inSlice].
  rewrite (String.eqb_sym ".jpg"), (String.eqb_sym ".jpeg"), (String.eqb_sym ".png").
  destruct (String.eqb _ ".jpg"); cbn [orb]; [discriminate |].
  destruct (String.eqb _ ".jpeg"); cbn [orb]; [discriminate |].
  destruct (String.eqb _ ".png"); [discriminate |]. intros H. discriminate H.
Qed.

(** X16. A run of [main] that ends normally was given an accepted command
    line and a source that decodes; its canvas is the source image with, on
    top of it, one composited mask for every detection scoring above 5.0
    among those the classifier returned, and the destination starts with
    the encoding of that canvas, the encoder having reported no error. *)
Theorem X16_completed_run flags w :
  let dest := Flags.destination flags in
  let old := contentOf (fs w) dest in
  let completed (r : (unit + Abort) * World) :=
    fst r = inl tt ->
    accepted flags
    /\ exists image cols rows faceBytes classifier raw faces drawn enc,
         fs w (Flags.source flags) = Some (os.RegularFile image)
         /\ image_Decode image = Some (cols, rows)
         /\ fs w "cascades/facefinder"%string = Some (os.RegularFile faceBytes)
         /\ Unpack faceBytes = Returned (inl classifier)
         /\ RunCascade classifier
              (CascadeParams.mk (Flags.minSize flags) (Flags.maxSize flags)
                 (Flags.shiftFactor flags) (Flags.scaleFactor flags)
                 (ImageParams.mk (RgbToGrayscale (Decoded image)) rows cols cols))
              (Flags.angle flags) = Returned raw
         /\ ClusterDetections classifier raw (Flags.iouThreshold flags) = Returned faces
         /\ dc (snd r) = [gg.NewContext cols rows; gg.DrawImage (Decoded image) 0 0] ++ drawn
         /\ List.length (Alignment.transforms drawn)
            = List.length (filter Alignment.qualifies faces)
         /\ encoding (settings flags) (dc (snd r)) = Some (enc, None)
         /\ fs (snd r) dest = Some (os.RegularFile (enc ++ skipn (List.length enc) old)) in
  completed (Facemask.main flags w) /\ completed (Diagnostic.main flags w).
Proof.
  intros dest old completed.
  assert (Hgen : forall drawFaces,
            (forall fd pkg faces w0,
               fst (drawFaces fd pkg faces w0) = inl None ->
               exists ops evs,
                 drawFaces fd pkg faces w0 = writeOutput fd (after w0 ops evs)
                 /\ List.length (Alignment.transforms ops)
                    = List.length (filter Alignment.qualifies faces)) ->
            completed (main drawFaces flags w)).
  { intros drawFaces Hdraw Hok.
    pose proof (main_returns drawFaces flags w Hok) as Haccepted.
    split; [exact Haccepted |].
    rewrite (main_accepted flags w Haccepted) in Hok |- *. unfold bind in Hok |- *.
    destruct (detectFaces (settings flags) (Flags.source flags) w)
      as [[[[faces pkg] | err] | stop] w1] eqn:Hdetect; try discriminate Hok.
    apply detectFaces_returns in Hdetect.
    destruct Hdetect
      as (image & cols & rows & faceBytes & classifier & raw
          & Hsource & Himage & Hface & Hunpack & Hrun & Hcluster & ->).
    specialize (Hdraw (settings flags) pkg faces (loaded w image cols rows)).
    destruct (drawFaces (settings flags) pkg faces (loaded w image cols rows))
      as [[[err |] | stop] w2] eqn:Hrunning; try discriminate Hok.
    destruct (Hdraw eq_refl) as (ops & evs & Hout & Hcount).
    assert (Hnil : fst (writeOutput (settings flags) (after (loaded w image cols rows) ops evs))
                   = inl None) by now rewrite <- Hout.
    pose proof (writeOutput_success (settings flags)
                  (after (loaded w image cols rows) ops evs) (fs w) eq_refl Hnil) as Hwritten.
    cbv zeta in Hwritten. rewrite <- Hout in Hwritten. cbn [snd fst ret] in *.
    assert (Hcanvas : dc w2 = [gg.NewContext cols rows; gg.DrawImage (Decoded image) 0 0] ++ ops).
    { change w2 with (snd (@inl (option os.error) Abort None, w2)).
      rewrite Hout, writeOutput_dc. reflexivity. }
    destruct (encoding (settings flags) (dc w2)) as [[enc failure] |] eqn:Henc.
    2: { destruct Haccepted as (_ & _ & Hext & _).
         now elim (codec_of_accepted (settings flags) (dc w2) Hext). }
    destruct Hwritten as [-> Hfile].
    exists image, cols, rows, faceBytes, classifier, raw, faces, ops, enc.
    repeat (split; [first [assumption | reflexivity] |]). exact Hfile. }
  split; apply Hgen.
  - intros fd pkg faces w0 Hok.
    destruct (Facemask_drawFaces_reads fd pkg faces w0) as (ops & evs & H).
    destruct H as (_ & _ & _ & _ & _ & Hdone). destruct (Hdone Hok) as (Hout & _ & _ & Hcount).
    now exists ops, evs.
  - intros fd pkg faces w0 Hok.
    destruct (Diagnostic_drawFaces_reads fd pkg faces w0) as (ops & evs & H).
    destruct H as (_ & _ & _ & _ & _ & Hdone). destruct (Hdone Hok) as (Hout & _ & _ & Hcount).
    now exists ops, evs.
Qed.

(** X12. The validation of the command line comes before everything else
    in [main], the usage check first: a run without a source or without a
    destination ends the process on the usage line, and a run with both and
    an extension outside .jpg, .jpeg and .png on the message naming that
    extension, whatever the other flags are.  Either way the world is as it
    was: no file is created or written, nothing is drawn and no file has been
    opened. *)
Theorem X12_rejected_command_line_leaves_no_trace flags w :
  let dest := Flags.destination flags in
  let ends (msg : string) :=
    Facemask.main flags w = (inr (Fatal msg), w)
    /\ Diagnostic.main flags w = (inr (Fatal msg), w) in
  (Flags.source flags = ""%string \/ dest = ""%string -> ends usage)
  /\ (Flags.source flags <> ""%string -> dest <> ""%string ->
      inSlice (filepath.Ext dest) fileTypes = false ->
      ends (unsupported (filepath.Ext dest))).
Proof.
  intros dest ends.
  assert (Hgen : forall drawFaces,
            (Flags.source flags = ""%string \/ dest = ""%string ->
             main drawFaces flags w = (inr (Fatal usage), w))
            /\ (Flags.source flags <> ""%string -> dest <> ""%string ->
                inSlice (filepath.Ext dest) fileTypes = false ->
                main drawFaces flags w = (inr (Fatal (unsupported (filepath.Ext dest))), w))).
  { intros drawFaces. unfold main. fold dest. split.
    - intros Hempty.
      replace ((String.length (Flags.source flags) =? 0)%nat
               || (String.length dest =? 0)%nat) with true; [reflexivity |].
      symmetry. apply orb_true_iff.
      destruct Hempty as [H | H]; [left | right]; now apply length_zero.
    - intros Hsrc Hdst Hext.
      replace (String.length (Flags.source flags) =? 0)%nat with false.
      2: { symmetry. apply not_true_is_false. intros Hz. now apply length_zero in Hz. }
      replace (String.length dest =? 0)%nat with false.
      2: { symmetry. apply not_true_is_false. intros Hz. now apply length_zero in Hz. }
      change [".jpg"; ".jpeg"; ".png"]%string with fileTypes. rewrite Hext. reflexivity. }
  split.
  - intros Hempty. split; now apply Hgen.
  - intros Hsrc Hdst Hext. split; now apply Hgen.
Qed.

End Returns.

(** ** The further theorems at work on the stand-ins *)

Lemma X4_no_lp84_cascade_witness :
  let ext := Stub.externals (Stub.located 130 90) (Stub.located 128 110) 200 200 in
  let pkg := Faults.noLandmarks (Stub.located 130 90) (Stub.located 128 110) 200 200 in
  let faces := [Stub.face 1 1 1 3; Stub.face 100 100 80 10; Stub.face 300 400 90 7] in
  fst (Facemask.drawFaces Stub.fd pkg faces Stub.world)
    = inr (Panic "index out of range [0] with length 0")
  /\ events (snd (Facemask.drawFaces Stub.fd pkg faces Stub.world)) = [].
Proof.
  intros ext pkg faces.
  assert (Hskip : Forall (fun f => Alignment.qualifies f = false) [Stub.face 1 1 1 3])
    by (repeat constructor).
  destruct (X4_no_lp84_cascade_panics Stub.fd pkg
              [Stub.face 1 1 1 3] (Stub.face 100 100 80 10) [Stub.face 300 400 90 7]
              Stub.world eq_refl Hskip eq_refl)
    as [Hmask _].
  unfold faces. cbn [app] in Hmask. rewrite Hmask. split; reflexivity.
Defined.



Lemma X7_destination_after_success_witness :
  let ext := Stub.externals (Stub.located 130 90) (Stub.located 128 110) 200 200 in
  let pkg := Stub.pkg (Stub.located 130 90) (Stub.located 128 110) 200 200 in
  let faces := [Stub.face 100 100 80 10] in
  fs (snd (Facemask.drawFaces Stub.fd pkg faces (Faults.worldWithout "out.png")))
     "out.png"%string
    = Some (os.RegularFile [Byte.x01; Byte.x02])
  /\ fs (snd (Diagnostic.drawFaces Stub.fd pkg faces Stub.world)) "out.png"%string
    = Some (os.RegularFile [Byte.x01; Byte.x02; Byte.x0c]).
Proof.
  intros ext pkg faces.
  destruct (X7_destination_after_success Stub.fd pkg faces (Faults.worldWithout "out.png")
              [Byte.x01; Byte.x02] None) as [Hnew _].
  destruct (X7_destination_after_success Stub.fd pkg faces Stub.world
              [Byte.x01; Byte.x02] None) as [_ Hold].
  split.
  - apply (Hnew eq_refl eq_refl). apply Nat.le_0_l.
  - apply (Hold eq_refl eq_refl).
Defined.

Lemma X9_destination_is_a_directory_witness :
  let ext := Stub.externals (Stub.located 130 90) (Stub.located 128 110) 200 200 in
  let pkg := Stub.pkg (Stub.located 130 90) (Stub.located 128 110) 200 200 in
  let w := Faults.worldWith "out.png" os.Directory in
  fst (Facemask.drawFaces Stub.fd pkg [Stub.face 100 100 80 10] w)
    = inl (Some (os.EISDIR "out.png"))
  /\ fs (snd (Facemask.drawFaces Stub.fd pkg [Stub.face 100 100 80 10] w)) = fs w.
Proof.
  intros ext pkg w.
  destruct (X9_destination_is_a_directory Stub.fd pkg [Stub.face 100 100 80 10] w eq_refl)
    as ([_ Hfs] & _ & Hrun).
  split; [| exact Hfs].
  apply (Hrun tt [] [Byte.x89] 200 200 eq_refl eq_refl eq_refl).
Defined.

Lemma X10_revisions_witness :
  let ext := Stub.externals (Stub.located 130 90) (Stub.located 128 110) 200 200 in
  let pkg := Stub.pkg (Stub.located 130 90) (Stub.located 128 110) 200 200 in
  let faces := [Stub.face 100 200 80 10; Stub.face 50 60 70 3; Stub.face 300 400 90 7] in
  let unplaced t :=
    (Alignment.angleNormalized t, Alignment.width t, Alignment.height t, Alignment.atY t) in
  map unplaced (Alignment.transforms (dc (snd (Facemask.drawFaces Stub.fd pkg faces Stub.world))))
  = map unplaced
      (Alignment.transforms (dc (snd (Diagnostic.drawFaces Stub.fd pkg faces Stub.world)))).
Proof.
  intros ext pkg faces unplaced.
  exact (proj1 (X10_revisions_differ_in_x_only Stub.fd pkg tt [] [Byte.x89] 200 200
                  eq_refl eq_refl faces Stub.world eq_refl)).
Defined.

Lemma X13_scale_below_105_witness :
  let ext := Stub.externals (Stub.located 130 90) (Stub.located 128 110) 200 200 in
  fst (Facemask.main (Stub.flags (F64.lit 104 100)) Stub.world) = inr (Fatal scaleTooSmall)
  /\ fst (Facemask.main (Stub.flags S754_nan) Stub.world) <> inr (Fatal scaleTooSmall).
Proof.
  intros ext.
  assert (Hsrc : "in.jpg"%string <> ""%string) by discriminate.
  assert (Hdst : "out.png"%string <> ""%string) by discriminate.
  destruct (X13_scale_below_105_is_rejected (Stub.flags (F64.lit 104 100)) Stub.world
              Hsrc Hdst eq_refl) as (Hbelow & _).
  destruct (X13_scale_below_105_is_rejected (Stub.flags S754_nan) Stub.world
              Hsrc Hdst eq_refl) as (Hnan & _).
  split.
  - apply Hbelow. reflexivity.
  - intros Hmsg. apply Hnan in Hmsg. discriminate Hmsg.
Defined.

Lemma X14_missing_source_witness :
  let ext := Stub.externals (Stub.located 130 90) (Stub.located 128 110) 200 200 in
  Facemask.main (Stub.flags (F64.lit 11 10)) (Faults.worldWithout "in.jpg")
  = (inr (FatalErr (os.ENOENT "in.jpg")), Faults.worldWithout "in.jpg").
Proof.
  intros ext.
  assert (Hsrc : "in.jpg"%string <> ""%string) by discriminate.
  assert (Hdst : "out.png"%string <> ""%string) by discriminate.
  exact (proj1 (X14_missing_source_is_fatal (Stub.flags (F64.lit 11 10))
                  (Faults.worldWithout "in.jpg") Hsrc Hdst eq_refl eq_refl eq_refl)).
Defined.

Lemma accepted_stub : accepted (Stub.flags (F64.lit 11 10)).
Proof. repeat split; discriminate. Defined.

Lemma X15_missing_face_cascade_witness :
  let ext := Stub.externals (Stub.located 130 90) (Stub.located 128 110) 200 200 in
  fst (Facemask.main (Stub.flags (F64.lit 11 10)) (Faults.worldWithout "cascades/facefinder"))
  = inr (FatalErr (os.ENOENT "cascades/facefinder")).
Proof.
  intros ext.
  exact (f_equal fst
           (proj1 (X15_missing_face_cascade_is_fatal (Stub.flags (F64.lit 11 10))
                     (Faults.worldWithout "cascades/facefinder") accepted_stub
                     [Byte.xff; Byte.xd8] 640 480 eq_refl eq_refl eq_refl))).
Defined.

(** ** Further examples on the stand-ins *)

Lemma C4_score_gate_witness :
  let ext := Stub.externals (Stub.located 130 90) (Stub.located 128 110) 200 200 in
  let pkg := Stub.pkg (Stub.located 130 90) (Stub.located 128 110) 200 200 in
  let first := Stub.face 100 100 80 10 in
  let low := Stub.face 50 60 70 5 in
  let high := Stub.face 300 400 90 7 in
  Facemask.drawFaces Stub.fd pkg [first; low; high] Stub.world
    = Facemask.drawFaces Stub.fd pkg [first; high] Stub.world
  /\ dc (snd (Facemask.drawFaces Stub.fd pkg [first; low; high] Stub.world))
     <> dc (snd (Facemask.drawFaces Stub.fd pkg [first; low] Stub.world))
  /\ List.length (Alignment.transforms
                    (dc (snd (Diagnostic.drawFaces Stub.fd pkg [first; low; high] Stub.world))))
     = 2%nat.
Proof.
  intros ext pkg first low high.
  destruct (C4_score_gate Stub.fd pkg tt [] [Byte.x89] 200 200 eq_refl eq_refl
              [first] low [high] F64.zero Stub.world eq_refl)
    as (_ & _ & Hsame & _ & _ & _ & _ & Hcount).
  destruct (C4_score_gate Stub.fd pkg tt [] [Byte.x89] 200 200 eq_refl eq_refl
              [first; low] high [] F64.zero Stub.world eq_refl)
    as (_ & _ & _ & _ & Hiff & _).
  split; [apply Hsame; reflexivity |]. split; [apply Hiff; reflexivity | exact Hcount].
Defined.

Lemma C7_degenerate_points_witness :
  let ext := Stub.externals (Stub.located 0 0) (Stub.located 0 (-1)) 200 200 in
  let pkg := Stub.pkg (Stub.located 0 0) (Stub.located 0 (-1)) 200 200 in
  let faces := [Stub.face 100 100 80 10; Stub.face 50 60 70 3; Stub.face 300 400 90 7] in
  Alignment.degenerate (Alignment.landmark Stub.fd pkg tt (Stub.face 300 400 90 7) false)
  /\ nth_error
       (Alignment.transforms (dc (snd (Facemask.drawFaces Stub.fd pkg faces Stub.world)))) 1
     = Some (Alignment.mkTransform (F64.of_int 1) 67 67 367 (-33))
  /\ nth_error
       (Alignment.transforms (dc (snd (Diagnostic.drawFaces Stub.fd pkg faces Stub.world)))) 1
     = Some (Alignment.mkTransform (F64.of_int 1) 67 67 273 (-33))
  /\ List.length
       (Alignment.transforms (dc (snd (Facemask.drawFaces Stub.fd pkg faces Stub.world))))
     = 2%nat.
Proof.
  intros ext pkg faces.
  destruct (C7_degenerate_points_flow_on Stub.fd pkg tt [] [Byte.x89] 200 200
              eq_refl eq_refl
              [Stub.face 100 100 80 10; Stub.face 50 60 70 3] (Stub.face 300 400 90 7) []
              Stub.world eq_refl eq_refl)
    as (_ & _ & Hmask & Hdiag & Hcount & _).
  split; [left; cbn; lia |]. split; [exact Hmask |]. split; [exact Hdiag | exact Hcount].
Defined.

Lemma C8_mask_read_per_face_witness :
  let ext := Stub.externals (Stub.located 130 90) (Stub.located 128 110) 200 200 in
  let pkg := Stub.pkg (Stub.located 130 90) (Stub.located 128 110) 200 200 in
  let faces := [Stub.face 100 100 80 10; Stub.face 50 60 70 3; Stub.face 300 400 90 7] in
  Alignment.maskOpens (events (snd (Facemask.drawFaces Stub.fd pkg faces Stub.world))) = 2%nat
  /\ Alignment.maskDecodes (events (snd (Facemask.drawFaces Stub.fd pkg faces Stub.world)))
     = 2%nat
  /\ Alignment.maskOpens (events (snd (Diagnostic.drawFaces Stub.fd pkg faces Stub.world)))
     = 2%nat
  /\ Alignment.maskDecodes (events (snd (Diagnostic.drawFaces Stub.fd pkg faces Stub.world)))
     = 2%nat.
Proof.
  intros ext pkg faces.
  destruct (C8_mask_read_per_face Stub.fd pkg faces Stub.world)
    as (_ & _ & Hmask & Hdiag & _).
  destruct (Hmask eq_refl) as [Ho1 Hd1]. destruct (Hdiag eq_refl) as [Ho2 Hd2].
  split; [exact Ho1 |]. split; [exact Hd1 |]. split; [exact Ho2 | exact Hd2].
Defined.

Lemma C9_face_box_outline_witness :
  let ext := Stub.externals (Stub.located 130 90) (Stub.located 128 110) 200 200 in
  let pkg := Stub.pkg (Stub.located 130 90) (Stub.located 128 110) 200 200 in
  let faces := [Stub.face 100 100 80 10; Stub.face 300 400 90 7] in
  let final := Facemask.drawFaces Stub.fd pkg faces Stub.world in
  (exists pre post,
     dc (snd final) =
     pre ++
     [ gg.DrawRectangle (F64.of_int 355) (F64.of_int 255) (F64.of_int 90) (F64.of_int 90);
       gg.SetLineWidth (F64.of_int 2);
       gg.SetStrokeStyle (color.RGBA 255 0 0 255);
       gg.Stroke ] ++
     [ Alignment.composite [Byte.x89] 200 200 (F64.of_int 90 / F64.of_int 200)%f64
         (Stub.face 300 400 90 7) (Stub.located 130 90) (Stub.located 128 110) ] ++ post)
  /\ fs (snd final) "out.png"%string
     = Some (os.RegularFile [Byte.x01; Byte.x02; Byte.x0c]).
Proof.
  intros ext pkg faces final.
  destruct (C9_face_box_outline Stub.fd pkg tt [] [Byte.x89] 200 200 eq_refl eq_refl
              [Stub.face 100 100 80 10] (Stub.face 300 400 90 7) [] F64.zero Stub.world
              eq_refl eq_refl)
    as (_ & (pre & post & Hcanvas & _) & Hfile).
  split.
  - exists pre, post. exact Hcanvas.
  - exact (Hfile eq_refl [Byte.x01; Byte.x02] None eq_refl).
Defined.

Lemma X8_unhandled_extension_witness :
  let ext := Stub.externals (Stub.located 130 90) (Stub.located 128 110) 200 200 in
  let pkg := Stub.pkg (Stub.located 130 90) (Stub.located 128 110) 200 200 in
  let faces := [Stub.face 100 100 80 10] in
  let run := Facemask.drawFaces (Faults.fdTo "out.gif") pkg faces Stub.world in
  fst run = inl None
  /\ fs (snd run) "out.gif"%string = Some (os.RegularFile [])
  /\ fs (snd (Diagnostic.drawFaces (Faults.fdTo "out.jpeg") pkg faces Stub.world))
       "out.jpeg"%string
     = Some (os.RegularFile [Byte.x01; Byte.x02]).
Proof.
  intros ext pkg faces run.
  destruct (X8_unhandled_extension_writes_nothing (Faults.fdTo "out.gif") pkg faces Stub.world)
    as [Hgif _].
  destruct (X8_unhandled_extension_writes_nothing (Faults.fdTo "out.jpeg") pkg faces
              Stub.world)
    as [_ Hjpeg].
  split; [reflexivity |]. split.
  - exact (proj2 (proj2 (Hgif eq_refl)) eq_refl).
  - exact (proj1 (Hjpeg eq_refl) (or_intror eq_refl)).
Defined.


Lemma X12_rejected_command_line_witness :
  let ext := Stub.externals (Stub.located 130 90) (Stub.located 128 110) 200 200 in
  let flags := Flags.mk "in.jpg" "out.gif" 20 1000 (F64.lit 1 10) (F64.lit 104 100) F64.zero
                 (F64.lit 2 10) in
  let nowhere := Flags.mk "in.jpg" "" 20 1000 (F64.lit 1 10) (F64.lit 11 10) F64.zero
                   (F64.lit 2 10) in
  Facemask.main flags Stub.world = (inr (Fatal (unsupported ".gif")), Stub.world)
  /\ Diagnostic.main nowhere Stub.world = (inr (Fatal usage), Stub.world).
Proof.
  intros ext flags nowhere.
  assert (Hsrc : "in.jpg"%string <> ""%string) by discriminate.
  assert (Hdst : "out.gif"%string <> ""%string) by discriminate.
  destruct (X12_rejected_command_line_leaves_no_trace flags Stub.world) as [_ Hext].
  destruct (X12_rejected_command_line_leaves_no_trace nowhere Stub.world) as [Husage _].
  split.
  - exact (proj1 (Hext Hsrc Hdst eq_refl)).
  - exact (proj2 (Husage (or_intror eq_refl))).
Defined.

Lemma X16_completed_run_witness :
  let ext := Stub.externals (Stub.located 130 90) (Stub.located 128 110) 200 200 in
  let run := Facemask.main (Stub.flags (F64.lit 11 10)) Stub.world in
  fst run = inl tt
  /\ accepted (Stub.flags (F64.lit 11 10))
  /\ exists drawn enc,
       dc (snd run)
       = [gg.NewContext 640 480; gg.DrawImage (Decoded [Byte.xff; Byte.xd8]) 0 0] ++ drawn
       /\ fs (snd run) "out.png"%string
          = Some (os.RegularFile (enc ++ skipn (List.length enc) [Byte.x0a; Byte.x0b; Byte.x0c])).
Proof.
  intros ext run.
  destruct (X16_completed_run (ext := ext) (Stub.flags (F64.lit 11 10)) Stub.world)
    as [Hmask _].
  destruct (Hmask eq_refl)
    as (Haccepted & image & cols & rows & faceBytes & classifier & raw & faces & drawn & enc
        & Hsource & Himage & _ & _ & _ & _ & Hcanvas & _ & _ & Hfile).
  split; [reflexivity |]. split; [exact Haccepted |].
  exists drawn, enc. split; [| exact Hfile].
  injection Hsource as <-. injection Himage as <- <-. exact Hcanvas.
Defined.
